(** * 5Genesis Analytics data handler: retrieval, fingerprint cache, catalog

    A shallow embedding of [Analytics/Data handler/data_handler/__main__.py]
    (the Flask routes, [retrieve_data] and its process-wide [data_cache]) and
    of [data_handler/collect_data.py] (the InfluxDB v2 [DataCollector]),
    followed by the properties of the retrieval design that hold, or fail, on
    that code.

    Layout:
    - [Py]            the Python built-ins the two files rely on ([str],
                      [repr], [sorted], [str.lower], truthiness, exceptions);
    - [Pd]            the fragment of pandas the code touches (frames, index
                      arithmetic, row- and column-wise [concat]);
    - [DataCollector] [collect_data.py]: the query methods of the class;
    - [Main]          [__main__.py]: [purge_cache], the three catalog
                      routes, [retrieve_data] and the [get_data] route (the
                      static routes are not embedded);
    - the vocabulary of the statements and concrete deployments;
    - [Config]        the constructor of the class with [_load_secret] and
                      [from_secret], and the start-up block of
                      [__main__.py] that reads the connection file;
    - the properties. *)

From Stdlib Require Import ZArith Ascii String.
From stdpp Require Import gmap strings list fin_maps sorting pretty.

Local Open Scope Z_scope.

(* ===================================================================== *)
(** ** Python built-ins                                                    *)
(* ===================================================================== *)

Module Py.

(** The exception classes that can surface in the two modules. *)
Inductive exn : Type :=
| ValueError          (* int() on a non-numeric string *)
| TypeError
| AttributeError      (* attribute access on None or on a dict *)
| KeyError            (* df[c] on a missing column *)
| InvalidIndexError   (* pandas: reindexing a non-unique index *)
| OverflowError       (* pandas: int64 overflow in datetime arithmetic *)
| ApiException.       (* influxdb_client: the query failed *)

(** A call either returns a value or raises. *)
Inductive outcome (A : Type) : Type :=
| Ok (a : A)
| Raise (e : exn).
Arguments Ok {A} a.
Arguments Raise {A} e.

Definition obind {A B} (x : outcome A) (f : A -> outcome B) : outcome B :=
  match x with
  | Ok a => f a
  | Raise e => Raise e
  end.

(** Single characters that cannot be written inside a literal. *)
Definition dq : string := String "034"%char EmptyString.   (* the double quote *)
Definition nl : string := String "010"%char EmptyString.   (* line feed *)
Definition bsl : string := String "092"%char EmptyString.  (* backslash *)

(** [''.join(l)] *)
Definition join (l : list string) : string :=
  foldr String.app EmptyString l.

(** [sep.join(l)] *)
Fixpoint join_with (sep : string) (l : list string) : string :=
  match l with
  | [] => EmptyString
  | [x] => x
  | x :: l' => x +:+ sep +:+ join_with sep l'
  end.

(** [sorted(l)] on a list of [str].  Python orders strings by code point;
    a [string] here is the UTF-8 byte sequence, on which byte-wise
    lexicographic order is code-point order.  [sorted] is stable; on a
    total antisymmetric order the result does not depend on that. *)
Definition sorted (l : list string) : list string :=
  merge_sort String.le l.

(** [str(n)] for an [int]. *)
Definition str_int (n : Z) : string := pretty n.

(** [str(b)] for a [bool]. *)
Definition str_bool (b : bool) : string :=
  if b then "True" else "False".

(** [bool(s)] for a [str]: non-empty. *)
Definition truthy (s : string) : bool :=
  match s with EmptyString => false | _ => true end.

(** [bool(o)] for an [Optional[str]]. *)
Definition truthy_opt (o : option string) : bool :=
  match o with None => false | Some s => truthy s end.

(** [str(o)] for an [Optional[str]]. *)
Definition str_opt (o : option string) : string :=
  match o with None => "None" | Some s => s end.

(** [s.lower()], on the ASCII letters.  The handler only compares the
    result with the literals [true], [zscore] and [mad]; no non-ASCII
    character lowers to one of their letters, so the comparisons are
    exact. *)
Definition lower_ascii (c : ascii) : ascii :=
  let n := nat_of_ascii c in
  if ((65 <=? n) && (n <=? 90))%nat then ascii_of_nat (n + 32) else c.

Fixpoint lower (s : string) : string :=
  match s with
  | EmptyString => EmptyString
  | String c s' => String (lower_ascii c) (lower s')
  end.

Fixpoint contains_char (c : ascii) (s : string) : bool :=
  match s with
  | EmptyString => false
  | String d s' => if Ascii.eqb c d then true else contains_char c s'
  end.

Definition hex_digit (n : nat) : ascii :=
  if (n <? 10)%nat then ascii_of_nat (48 + n) else ascii_of_nat (87 + n).

(** What the interpreter brings along.  [int(s)] for a [str]: [ValueError]
    when the text is not a number; left open, no property below depends on
    which texts Python accepts.  [isprintable cp]: whether the character
    with code point [cp], from 128 up, is printable, which is a table of
    the Unicode database. *)
Class Builtins : Type := {
  int_of_str : string -> outcome Z;
  isprintable : N -> bool
}.

(** One ASCII character of [repr(s)], given the quote character in use. *)
Definition repr_char (quote c : ascii) : string :=
  let n := nat_of_ascii c in
  if Ascii.eqb c quote then bsl +:+ String c EmptyString
  else if (n =? 92)%nat then bsl +:+ bsl
  else if (n =? 9)%nat then bsl +:+ "t"
  else if (n =? 10)%nat then bsl +:+ "n"
  else if (n =? 13)%nat then bsl +:+ "r"
  else if ((n <? 32) || (n =? 127))%nat then
    bsl +:+ "x" +:+ String (hex_digit (n / 16)) (String (hex_digit (n mod 16)) EmptyString)
  else String c EmptyString.

(** [cp] in lower-case hexadecimal, on [digits] digits. *)
Fixpoint hex (digits : nat) (cp : N) : string :=
  match digits with
  | O => EmptyString
  | S d => hex d (cp / 16)%N +:+ String (hex_digit (N.to_nat (cp mod 16)%N)) EmptyString
  end.

(** The escape [repr] writes for a character that is not printable. *)
Definition escape (cp : N) : string :=
  if (cp <? 256)%N then bsl +:+ "x" +:+ hex 2 cp
  else if (cp <? 65536)%N then bsl +:+ "u" +:+ hex 4 cp
  else bsl +:+ "U" +:+ hex 8 cp.

(** A [str] is carried as its UTF-8 bytes.  The first byte of a character
    from 128 up tells how many bytes follow, and holds its leading bits. *)
Definition lead (c : ascii) : option (nat * N) :=
  let n := N_of_ascii c in
  if ((192 <=? n) && (n <? 224))%N then Some (1%nat, (n - 192)%N)
  else if ((224 <=? n) && (n <? 240))%N then Some (2%nat, (n - 224)%N)
  else if ((240 <=? n) && (n <? 248))%N then Some (3%nat, (n - 240)%N)
  else None.

(** The body of [repr(s)]: an ASCII character by [repr_char]; a character
    from 128 up as it is when it is printable, and as the escape of its
    code point when it is not.  [pending] bytes of the character under way
    are still to come, [cp] holds its bits and [raw] its bytes so far. *)
Fixpoint repr_from `{Builtins} (quote : ascii) (pending : nat) (cp : N) (raw s : string)
    : string :=
  match s with
  | EmptyString => raw
  | String c s' =>
      match pending with
      | S k =>
          let cp' := (cp * 64 + (N_of_ascii c - 128))%N in
          let raw' := raw +:+ String c EmptyString in
          match k with
          | O => (if isprintable cp' then raw' else escape cp')
                 +:+ repr_from quote O 0%N EmptyString s'
          | _ => repr_from quote k cp' raw' s'
          end
      | O =>
          match lead c with
          | Some (k, bits) => repr_from quote k bits (String c EmptyString) s'
          | None => repr_char quote c +:+ repr_from quote O 0%N EmptyString s'
          end
      end
  end.

Definition repr_body `{Builtins} (quote : ascii) (s : string) : string :=
  repr_from quote O 0%N EmptyString s.

(** [repr(s)] for a [str]: single quotes, unless the text has a single
    quote and no double quote. *)
Definition repr_str `{Builtins} (s : string) : string :=
  let quote :=
    if contains_char "039"%char s && negb (contains_char "034"%char s)
    then "034"%char else "039"%char in
  String quote EmptyString +:+ repr_body quote s +:+ String quote EmptyString.

(** [str(l)] for a list of [str]. *)
Definition str_list `{Builtins} (l : list string) : string :=
  "[" +:+ join_with ", " (repr_str <$> l) +:+ "]".

(** What [request.args.get] hands over after the route's conversion of
    [limit] and [offset]: [None], the raw text, or an [int]. *)
Inductive arg : Type :=
| ArgNone
| ArgStr (s : string)
| ArgInt (n : Z).

(** [str(a)] *)
Definition str_arg (a : arg) : string :=
  match a with
  | ArgNone => "None"
  | ArgStr s => s
  | ArgInt n => str_int n
  end.

(** [int(a)] *)
Definition int_of_arg `{Builtins} (a : arg) : outcome Z :=
  match a with
  | ArgNone => Raise TypeError
  | ArgStr s => int_of_str s
  | ArgInt n => Ok n
  end.

End Py.

Import Py.

(* ===================================================================== *)
(** ** The pandas fragment                                                 *)
(* ===================================================================== *)

Module Pd.

(** A cell of a table.  The handler never computes on measured values, so
    a float64 is carried as its bit pattern. *)
Inductive cell : Type :=
| CNull                 (* NaN / None / NaT *)
| CFloat (bits : Z)
| CInt (n : Z)
| CStr (s : string)
| CTime (ns : Z).       (* datetime64[ns] *)

(** A row label: position in a [RangeIndex], instant of a
    [DatetimeIndex], span of a [TimedeltaIndex], or [NaT]. *)
Inductive label : Type :=
| LInt (i : Z)
| LTime (ns : Z)
| LDelta (ns : Z)
| LNaT.

Global Instance cell_eq_dec : EqDecision cell.
Proof. solve_decision. Defined.
Global Instance label_eq_dec : EqDecision label.
Proof. solve_decision. Defined.

(** A [pd.DataFrame], column by column; every column is as long as the
    index. *)
Record DataFrame : Type := mkFrame {
  index : list label;
  columns : list (string * list cell)
}.

Global Instance DataFrame_eq_dec : EqDecision DataFrame.
Proof. solve_decision. Defined.

(** What the pandas conversions do on cells the store does not normally
    deliver: [pd.to_datetime] on a float or a string, [astype(str)] on a
    float or a timestamp. *)
Class Conversions : Type := {
  parse_datetime : cell -> outcome label;
  str_of_float : Z -> string;
  str_of_timestamp : Z -> string
}.

(** [pd.DataFrame()] *)
Definition empty_frame : DataFrame := mkFrame [] [].

(** [df.empty]: some axis has length zero. *)
Definition empty (df : DataFrame) : bool :=
  (length (index df) =? 0)%nat || (length (columns df) =? 0)%nat.

Definition column_names (df : DataFrame) : list string :=
  fst <$> columns df.

(** [c in df.columns] *)
Definition has_column (c : string) (df : DataFrame) : bool :=
  bool_decide (c ∈ column_names df).

Fixpoint assoc {A} (c : string) (l : list (string * A)) : option A :=
  match l with
  | [] => None
  | (k, v) :: l' => if decide (k = c) then Some v else assoc c l'
  end.

(** [df[c]] *)
Definition column (c : string) (df : DataFrame) : outcome (list cell) :=
  match assoc c (columns df) with
  | Some col => Ok col
  | None => Raise KeyError
  end.

(** [df.drop(columns=[c])] for a column that is present. *)
Definition drop (c : string) (df : DataFrame) : DataFrame :=
  mkFrame (index df) (filter (fun kv => kv.1 <> c) (columns df)).

(** [df.set_index(labels)] *)
Definition set_index (labels : list label) (df : DataFrame) : DataFrame :=
  mkFrame labels (columns df).

(** [pd.to_datetime(col)] *)
Definition to_datetime_cell `{Conversions} (c : cell) : outcome label :=
  match c with
  | CTime ns => Ok (LTime ns)
  | CNull => Ok LNaT
  | _ => parse_datetime c
  end.

Fixpoint to_datetime `{Conversions} (col : list cell) : outcome (list label) :=
  match col with
  | [] => Ok []
  | c :: col' =>
      obind (to_datetime_cell c) (fun l =>
      obind (to_datetime col') (fun ls => Ok (l :: ls)))
  end.

(** [s.dropna()] *)
Definition dropna (col : list cell) : list cell :=
  filter (fun c => c <> CNull) col.

(** [s.astype(str)] *)
Definition astype_str `{Conversions} (col : list cell) : list string :=
  (fun c => match c with
            | CStr s => s
            | CFloat b => str_of_float b
            | CInt n => str_int n
            | CTime ns => str_of_timestamp ns
            | CNull => "nan"
            end) <$> col.

(** [s.unique()]: the distinct values in order of first appearance. *)
Fixpoint unique_from (seen l : list string) : list string :=
  match l with
  | [] => []
  | x :: l' =>
      if bool_decide (x ∈ seen) then unique_from seen l'
      else x :: unique_from (x :: seen) l'
  end.

Definition unique (l : list string) : list string := unique_from [] l.

(** [pd.concat(tables, ignore_index=True)]: rows appended, columns united
    in order of first appearance, absent cells null, a fresh
    [RangeIndex]; with no table to append, pandas raises [ValueError]. *)
Definition padded_column (c : string) (t : DataFrame) : list cell :=
  match assoc c (columns t) with
  | Some col => col
  | None => replicate (length (index t)) CNull
  end.

Definition concat_rows (tables : list DataFrame) : outcome DataFrame :=
  match tables with
  | [] => Raise ValueError
  | _ =>
      let names := unique (tables ≫= column_names) in
      let n := length (tables ≫= index) in
      Ok (mkFrame (LInt <$> seqZ 0 (Z.of_nat n))
                  ((fun c => (c, tables ≫= padded_column c)) <$> names))
  end.

(** *** Index arithmetic *)

(** The ordering key of a label: its kind and its int64 payload. *)
Definition label_key (l : label) : option (nat * Z) :=
  match l with
  | LInt i => Some (0%nat, i)
  | LTime ns => Some (1%nat, ns)
  | LDelta ns => Some (2%nat, ns)
  | LNaT => None
  end.

Definition payload (l : label) : option Z := snd <$> label_key l.

(** [idx.min()]: the least label, [NaT] skipped; [None] (NaN / NaT) when
    nothing is left. *)
Fixpoint index_min (idx : list label) : option label :=
  match idx with
  | [] => None
  | l :: idx' =>
      match payload l, index_min idx' with
      | None, m => m
      | Some _, None => Some l
      | Some a, Some m =>
          match payload m with
          | Some b => if a <=? b then Some l else Some m
          | None => Some l
          end
      end
  end.

Definition int64_min : Z := - 2 ^ 63.
Definition int64_max : Z := 2 ^ 63 - 1.

(** int64 wrap-around, as numpy does on integer indexes. *)
Definition wrap64 (z : Z) : Z := (z + 2 ^ 63) mod 2 ^ 64 - 2 ^ 63.

(** Datetime arithmetic is checked: the int64 minimum is the [NaT]
    sentinel. *)
Definition checked64 (z : Z) : outcome Z :=
  if (int64_min <? z) && (z <=? int64_max) then Ok z else Raise OverflowError.

(** [l - m] for a label and a scalar of the same index. *)
Definition label_sub (l m : label) : outcome label :=
  match l, m with
  | LNaT, _ | _, LNaT => Ok LNaT
  | LTime a, LTime b => obind (checked64 (a - b)) (fun d => Ok (LDelta d))
  | LDelta a, LDelta b => obind (checked64 (a - b)) (fun d => Ok (LDelta d))
    | LInt a, LInt b => Ok (LInt (wrap64 (a - b)))
  | _, _ => Raise TypeError
  end.

Fixpoint index_sub (idx : list label) (m : label) : outcome (list label) :=
  match idx with
  | [] => Ok []
  | l :: idx' =>
      obind (label_sub l m) (fun d =>
      obind (index_sub idx' m) (fun ds => Ok (d :: ds)))
  end.

(** [idx - idx.min()] *)
Definition index_sub_min (idx : list label) : outcome (list label) :=
  match index_min idx with
  | Some m => index_sub idx m
  | None => Ok ((fun _ => LNaT) <$> idx)
  end.

(** *** Column-wise concatenation and sorting *)

(** Position of a label in an index. *)
Fixpoint position (l : label) (idx : list label) : option nat :=
  match idx with
  | [] => None
  | l' :: idx' => if decide (l' = l) then Some 0%nat else S <$> position l idx'
  end.

Fixpoint unique_labels_from (seen l : list label) : list label :=
  match l with
  | [] => []
  | x :: l' =>
      if bool_decide (x ∈ seen) then unique_labels_from seen l'
      else x :: unique_labels_from (x :: seen) l'
  end.

(** The columns of [df] re-laid on the index [target]; rows [df] has no
    label for are null. *)
Definition reindex (target : list label) (df : DataFrame) : list (string * list cell) :=
  (fun kv : string * list cell =>
     (kv.1, (fun l => match position l (index df) with
                      | Some i => default CNull (kv.2 !! i)
                      | None => CNull
                      end) <$> target)) <$> columns df.

(** [pd.concat(dfs, axis=1)]: an outer join on the row labels.  Frames with
    one common index are pasted side by side; otherwise every index has to
    be duplicate-free. *)
Definition concat_columns (dfs : list DataFrame) : outcome DataFrame :=
  match dfs with
  | [] => Raise ValueError
  | d :: ds =>
      if forallb (fun d' => bool_decide (index d' = index d)) ds
      then Ok (mkFrame (index d) (dfs ≫= columns))
      else if forallb (fun d' => bool_decide (NoDup (index d'))) dfs
      then let u := unique_labels_from [] (dfs ≫= index) in
           Ok (mkFrame u (dfs ≫= reindex u))
      else Raise InvalidIndexError
  end.

(** Order of two labels under [sort_index]: by payload, [NaT] last. *)
Definition label_le (a b : label) : Prop :=
  match payload a, payload b with
  | Some x, Some y => x <= y
  | _, None => True
  | None, Some _ => False
  end.

Global Instance label_le_dec : RelDecision label_le.
Proof. intros a b. unfold label_le. destruct (payload a), (payload b); apply _. Defined.

Definition row_le (a b : label * nat) : Prop := label_le a.1 b.1.

Global Instance row_le_dec : RelDecision row_le.
Proof. intros a b. unfold row_le. apply _. Defined.

(** All labels that are not [NaT] are of one kind. *)
Definition one_kind (idx : list label) : bool :=
  match omap label_key idx with
  | [] => true
  | (k, _) :: ks => forallb (fun kz : nat * Z => (kz.1 =? k)%nat) ks
  end.

(** [df.sort_index()]: rows in ascending label order; rows under equal
    labels keep their relative order.  Labels of different kinds do not
    compare. *)
Definition sort_index (df : DataFrame) : outcome DataFrame :=
  if one_kind (index df) then
    let order :=
      snd <$> merge_sort row_le
                         (zip (index df) (seq 0 (length (index df)))) in
    Ok (mkFrame (omap (fun i => index df !! i) order)
                ((fun kv : string * list cell =>
                    (kv.1, (fun i => default CNull (kv.2 !! i)) <$> order))
                   <$> columns df))
  else Raise TypeError.

End Pd.

Import Pd.

(* ===================================================================== *)
(** ** collect_data.py                                                     *)
(* ===================================================================== *)

Module DataCollector.

(** What [query_api.query_data_frame] returns: one frame, or a list of
    frames (the client returns nothing else, so the [isinstance] guards of
    [_query_df] always pass). *)
Inductive reply : Type :=
| RFrame (df : DataFrame)
| RList (tables : list DataFrame).

Inductive InfluxDBClient : Type :=
| Client (url token org : string) (timeout_ms : Z).

(** The attributes of a [DataCollector].  [query_data_frame flux org] is
    what the store behind [self.query_api] answers to a Flux text: a
    function of the text, for as long as the backing data do not change. *)
Record t : Type := mk {
  url : string;
  org : string;
  bucket : string;
  token : string;
  client : option InfluxDBClient;
  query_data_frame : string -> string -> outcome reply
}.

(** A collector method returns or raises, and sends Flux texts to the
    store on the way: the outcome paired with the texts sent, in order. *)
Definition io (A : Type) : Type := outcome A * list string.

Definition ret {A} (a : A) : io A := (Ok a, []).

Definition raise {A} (e : exn) : io A := (Raise e, []).

Definition bind {A B} (x : io A) (f : A -> io B) : io B :=
  match x.1 with
  | Ok a => ((f a).1, x.2 ++ (f a).2)
  | Raise e => (Raise e, x.2)
  end.

Definition lift {A} (x : outcome A) : io A := (x, []).

Declare Scope io_scope.
Delimit Scope io_scope with io.
Notation "x <- e ;; k" := (bind e (fun x => k))
  (at level 100, e at next level, k at level 200, right associativity) : io_scope.
Local Open Scope io_scope.

Section methods.
Context `{Builtins} `{Conversions}.
Variable self : t.

Definition _flux_base (start : string) : string :=
  "from(bucket: " +:+ dq +:+ bucket self +:+ dq +:+ ")" +:+ nl +:+
  "  |> range(start: " +:+ start +:+ ")" +:+ nl.

(** Run Flux and return a single frame. *)
Definition _query_df (flux : string) : io DataFrame :=
  tables <- (query_data_frame self flux (org self), [flux]) ;;
  match tables with
  | RList l =>
      let l' := filter (fun t => negb (empty t)) l in
      match l' with
      | [] => ret empty_frame
      | _ => lift (concat_rows l')
      end
  | RFrame df => ret df
  end.

(** Distinct experiment IDs for a specific measurement. *)
Definition tag_values_for_measurement_flux (tag measurement : string) : string :=
  nl +:+ "import " +:+ dq +:+ "influxdata/influxdb/schema" +:+ dq +:+ nl +:+
  "schema.tagValues(" +:+ nl +:+
  "  bucket: " +:+ dq +:+ bucket self +:+ dq +:+ "," +:+ nl +:+
  "  tag: " +:+ dq +:+ tag +:+ dq +:+ "," +:+ nl +:+
  "  predicate: (r) => r._measurement == " +:+ dq +:+ measurement +:+ dq +:+ nl +:+
  ")" +:+ nl.

(** The body shared by the two loops over the legacy tag names: query, and
    join the [_value] column into [ids]. *)
Definition collect_values (flux : string) (ids : gset string) : io (gset string) :=
  df <- _query_df flux ;;
  if negb (empty df) && has_column "_value" df then
    col <- lift (column "_value" df) ;;
    ret (ids ∪ list_to_set (astype_str (dropna col)))
  else ret ids.

Fixpoint for_each_tag (flux_of : string -> string) (tags : list string)
    (ids : gset string) : io (gset string) :=
  match tags with
  | [] => ret ids
  | tag :: tags' =>
      ids' <- collect_values (flux_of tag) ids ;;
      for_each_tag flux_of tags' ids'
  end.

Definition legacy_tags : list string := ["ExperimentId"; "ExecutionId"].

Definition get_experimentIds_for_measurement (measurement : string) : io (list string) :=
  ids <- for_each_tag (fun tag => tag_values_for_measurement_flux tag measurement)
                      legacy_tags ∅ ;;
  ret (sorted (elements ids)).

Definition experiment_filter (experimentId : string) : string :=
  "  |> filter(fn: (r) => r.ExperimentId == " +:+ dq +:+ experimentId +:+ dq +:+
  " or r.ExecutionId == " +:+ dq +:+ experimentId +:+ dq +:+ ")" +:+ nl.

Definition measurements_flux (experimentId start : string) : string :=
  _flux_base start +:+ experiment_filter experimentId +:+
  "  |> keep(columns: [" +:+ dq +:+ "_measurement" +:+ dq +:+ "])" +:+ nl +:+
  "  |> group()" +:+ nl +:+
  "  |> distinct(column: " +:+ dq +:+ "_measurement" +:+ dq +:+ ")" +:+ nl.

(** List measurements that contain rows for the given experimentId. *)
Definition get_measurements_for_experimentId (experimentId start : string) : io (list string) :=
  df <- _query_df (measurements_flux experimentId start) ;;
  if empty df then ret []
  else
    let col := if has_column "_measurement" df then "_measurement" else "_value" in
    values <- lift (column col df) ;;
    ret (sorted (unique (astype_str (dropna values)))).

Definition tag_values_flux (tag : string) : string :=
  nl +:+ "import " +:+ dq +:+ "influxdata/influxdb/schema" +:+ dq +:+ nl +:+
  "schema.tagValues(bucket: " +:+ dq +:+ bucket self +:+ dq +:+
  ", tag: " +:+ dq +:+ tag +:+ dq +:+ ")" +:+ nl.

(** Union of distinct IDs across the entire bucket. *)
Definition get_all_experimentIds : io (list string) :=
  ids <- for_each_tag tag_values_flux legacy_tags ∅ ;;
  ret (sorted (elements ids)).

(** The [contains(value: r._field, set: [...])] stage. *)
Definition fields_filter (fields : list string) : string :=
  "  |> filter(fn: (r) => contains(value: r._field, set: [" +:+
  join_with ", " ((fun f => dq +:+ f +:+ dq) <$> fields) +:+ "]))" +:+ nl.

(** The [limit(n: ..., offset: ...)] stage; [int()] may raise. *)
Definition limit_clause (limit offset : arg) : outcome string :=
  match limit with
  | ArgNone => Ok EmptyString
  | _ =>
      obind (int_of_arg limit) (fun n =>
      obind (match offset with
             | ArgNone => Ok EmptyString
             | _ => obind (int_of_arg offset) (fun o => Ok (", offset: " +:+ str_int o))
             end) (fun off =>
      Ok ("  |> limit(n: " +:+ str_int n +:+ off +:+ ")" +:+ nl)))
  end.

(** The Flux text [get_data] builds for one measurement. *)
Definition data_flux (m experimentId : string) (fields : list string)
    (limit offset : arg) (max_lag start : string) : outcome string :=
  obind (limit_clause limit offset) (fun lim =>
  Ok (_flux_base start +:+
      "  |> filter(fn: (r) => r._measurement == " +:+ dq +:+ m +:+ dq +:+ ")" +:+ nl +:+
      experiment_filter experimentId +:+
      (match fields with [] => EmptyString | _ => fields_filter fields end) +:+
      "  |> aggregateWindow(every: duration(v: " +:+ dq +:+ max_lag +:+ dq +:+
      "), fn: mean, createEmpty: false)" +:+ nl +:+
      "  |> pivot(rowKey: [" +:+ dq +:+ "_time" +:+ dq +:+ "], columnKey: [" +:+
      dq +:+ "_field" +:+ dq +:+ "], valueColumn: " +:+ dq +:+ "_value" +:+ dq +:+ ")" +:+ nl +:+
      lim)).

Definition helper_columns : list string :=
  ["_time"; "_start"; "_stop"; "result"; "table"].

(** Set the time index and drop the helper columns of a non-empty reply. *)
Definition tidy (df : DataFrame) : outcome DataFrame :=
  obind (if has_column "_time" df
         then obind (column "_time" df) (fun col =>
              obind (to_datetime col) (fun idx => Ok (set_index idx df)))
         else Ok df) (fun df' =>
  Ok (foldl (fun d c => if has_column c d then drop c d else d) df' helper_columns)).

(** The loop [for m in measurements], threading the list [dfs]. *)
Fixpoint for_each_measurement (experimentId : string) (fields : list string)
    (limit offset : arg) (max_lag start : string)
    (measurements : list string) (dfs : list DataFrame) : io (list DataFrame) :=
  match measurements with
  | [] => ret dfs
  | m :: measurements' =>
      flux <- lift (data_flux m experimentId fields limit offset max_lag start) ;;
      df <- _query_df flux ;;
      dfs' <- (if negb (empty df)
               then df' <- lift (tidy df) ;; ret (dfs ++ [df'])
               else ret dfs) ;;
      for_each_measurement experimentId fields limit offset max_lag start measurements' dfs'
  end.

(** Fetch time series rows filtered by ExperimentId/ExecutionId.
    [additional_clause], [chunked] and [chunk_size] are accepted and
    ignored, as in the source. *)
Definition get_data (experimentId : string) (measurements fields : list string)
    (additional_clause : option string) (chunked : bool) (chunk_size : Z)
    (limit offset : arg) (max_lag start : string) : io DataFrame :=
  measurements <- (match measurements with
                   | [] => get_measurements_for_experimentId experimentId start
                   | _ => ret measurements
                   end) ;;
  dfs <- for_each_measurement experimentId fields limit offset max_lag start measurements [] ;;
  match dfs with
  | [] => ret empty_frame
  | _ => lift (obind (concat_columns dfs) sort_index)
  end.

End methods.

(** The default of [get_data]'s [start] parameter. *)
Definition default_start : string := "-30d".

(** The default of the catalog methods' [start] parameter (the tag-value
    queries do not use it). *)
Definition catalog_start : string := "-90d".

End DataCollector.

(* ===================================================================== *)
(** ** __main__.py                                                         *)
(* ===================================================================== *)

Module Main.

(** The objects [retrieve_data] hands around: a frame (what the v2
    collector returns) or a dict of frames (what [synchronize] returns with
    [merge=False]). *)
Inductive obj : Type :=
| OFrame (df : DataFrame)
| ODict (d : list (string * DataFrame)).

Global Instance obj_eq_dec : EqDecision obj.
Proof. solve_decision. Defined.

(** The two collaborators imported from [data_handler.time_series_matching]
    and [data_handler.outlier_detection].  They are opaque transforms:
    each returns a new object (or raises) and leaves its argument alone. *)
Class Collaborators : Type := {
  synchronize : obj -> string -> bool -> outcome obj;
  remove : obj -> Z -> outcome obj
}.

(** Python objects are shared by reference: [data_cache[dataid] = data]
    and [return data] name one object.  [heap] holds the objects, a
    reference is a position in it. *)
Definition ref : Type := nat.

(** The module globals [sources], [data_cache] and [enable_cache], the
    object store, and the Flux texts sent to the stores so far. *)
Record World : Type := mkWorld {
  sources : gmap string DataCollector.t;
  data_cache : gmap string ref;
  enable_cache : bool;
  heap : list obj;
  sent : list string
}.

(** The globals as [__main__] leaves them before [app.run]. *)
Definition startup (srcs : gmap string DataCollector.t) (flag : bool) : World :=
  mkWorld srcs ∅ flag [] [].

Definition set_cache (c : gmap string ref) (w : World) : World :=
  mkWorld (sources w) c (enable_cache w) (heap w) (sent w).

Definition set_heap (h : list obj) (w : World) : World :=
  mkWorld (sources w) (data_cache w) (enable_cache w) h (sent w).

Definition set_sent (q : list string) (w : World) : World :=
  mkWorld (sources w) (data_cache w) (enable_cache w) (heap w) q.

(** A handler step: runs on the world, returns or raises, leaves a world. *)
Definition M (A : Type) : Type := World -> outcome A * World.

Definition ret {A} (a : A) : M A := fun w => (Ok a, w).

Definition raise {A} (e : exn) : M A := fun w => (Raise e, w).

Definition bind {A B} (x : M A) (f : A -> M B) : M B :=
  fun w =>
    match x w with
    | (Ok a, w') => f a w'
    | (Raise e, w') => (Raise e, w')
    end.

Definition gets {A} (f : World -> A) : M A := fun w => (Ok (f w), w).

Definition modify (f : World -> World) : M unit := fun w => (Ok tt, f w).

Definition lift {A} (x : outcome A) : M A := fun w => (x, w).

(** Run a collector method: its Flux texts go out, its outcome comes back. *)
Definition call {A} (x : DataCollector.io A) : M A :=
  fun w => (x.1, set_sent (sent w ++ x.2) w).

(** A new object. *)
Definition alloc (o : obj) : M ref :=
  fun w => (Ok (length (heap w)), set_heap (heap w ++ [o]) w).

(** The object behind a reference.  Every reference in circulation comes
    from [alloc], so the second case is never taken. *)
Definition load (r : ref) : M obj :=
  fun w => match heap w !! r with
           | Some o => (Ok o, w)
           | None => (Raise TypeError, w)
           end.

(** In-place update of the object behind a reference. *)
Definition store (r : ref) (o : obj) : M unit :=
  modify (fun w => set_heap (<[r := o]> (heap w)) w).

Declare Scope m_scope.
Delimit Scope m_scope with m.
Notation "x <- e ;; k" := (bind e (fun x => k))
  (at level 100, e at next level, k at level 200, right associativity) : m_scope.
Local Open Scope m_scope.

(** *** Responses *)

(** [json.loads(x.to_json())], left symbolic: of a column of a frame (a
    [Series]) or of a whole frame. *)
Inductive json : Type :=
| JSeries (idx : list label) (col : list cell)
| JFrame (df : DataFrame).

(** The dict a view returns. *)
Inductive body : Type :=
| BError (msg : string)                        (* {"error": msg} *)
| BMessage (msg : string)                      (* {"message": msg} *)
| BList (key : string) (values : list string)  (* {key: [...]} *)
| BTables (tables : list (string * json)).     (* {name: table, ...} *)

Definition Response : Type := body * Z.

(** [d[k] = v] on a dict kept in insertion order. *)
Fixpoint dict_set {A} (k : string) (v : A) (d : list (string * A)) : list (string * A) :=
  match d with
  | [] => [(k, v)]
  | (k', v') :: d' => if decide (k' = k) then (k, v) :: d' else (k', v') :: dict_set k v d'
  end.

Definition dict_of {A} (items : list (string * A)) : list (string * A) :=
  foldl (fun d kv => dict_set kv.1 kv.2 d) [] items.

Definition not_available (datasource : string) : Response :=
  (BError ("Data source " +:+ datasource +:+ " is not available."), 404).

Definition currently_not_available (datasource : string) : Response :=
  (BError ("Data source " +:+ datasource +:+ " is currently not available."), 404).

(** *** The cache and the catalog routes *)

Definition purge_cache : M Response :=
  _ <- modify (set_cache ∅) ;;
  ret (BMessage "Cache purged", 200).

(** [datasource not in sources or not sources[datasource].client] *)
Definition unavailable (datasource : string) (w : World) : bool :=
  match sources w !! datasource with
  | None => true
  | Some src => match DataCollector.client src with None => true | Some _ => false end
  end.

(** [sources[datasource]], once the guard above has passed. *)
Definition source (datasource : string) : M DataCollector.t :=
  fun w => match sources w !! datasource with
           | Some src => (Ok src, w)
           | None => (Raise KeyError, w)
           end.

(** The fingerprint [retrieve_data] keys the cache with. *)
Definition dataid `{Builtins} (datasource experimentId : string)
    (measurements fields : list string)
    (remove_outliers : option string) (match_series : bool)
    (additional_clause : option string) (max_lag : string) (limit : arg) : string :=
  datasource +:+ experimentId +:+ join (sorted measurements) +:+ str_list fields +:+
  str_opt remove_outliers +:+ str_bool match_series +:+ str_opt additional_clause +:+
  max_lag +:+ str_arg limit.

(** [request.args]: the query string as key/value pairs, in order. *)
Definition getlist (k : string) (args : list (string * string)) : list string :=
  snd <$> filter (fun kv => kv.1 = k) args.

Definition get (k : string) (args : list (string * string)) : option string :=
  head (getlist k args).

(** [s.lower() == 'true' if s else False] *)
Definition flag (o : option string) : bool :=
  match o with
  | Some s => if truthy s then bool_decide (lower s = "true") else false
  | None => false
  end.

Section routes.
Context `{Builtins} `{Conversions} `{Collaborators}.

Definition get_all_executionIds (datasource : string) : M Response :=
  down <- gets (unavailable datasource) ;;
  if down : bool then ret (not_available datasource)
  else
    src <- source datasource ;;
    experimentIds <- call (DataCollector.get_all_experimentIds src) ;;
    ret (BList ("ExperimentIds on " +:+ datasource) experimentIds, 200).

Definition get_excutionIds (datasource measurement : string) : M Response :=
  down <- gets (unavailable datasource) ;;
  if down : bool then ret (not_available datasource)
  else
    src <- source datasource ;;
    experimentIds <- call (DataCollector.get_experimentIds_for_measurement src measurement) ;;
    ret (BList ("ExperimentIds for measurement " +:+ measurement +:+ " on " +:+ datasource)
               experimentIds, 200).

Definition get_measurements (datasource experimentId : string) : M Response :=
  down <- gets (unavailable datasource) ;;
  if down : bool then ret (not_available datasource)
  else
    src <- source datasource ;;
    measurements <- call (DataCollector.get_measurements_for_experimentId
                            src experimentId DataCollector.catalog_start) ;;
    ret (BList ("Measurements for experimentId " +:+ experimentId +:+ " on " +:+ datasource)
               measurements, 200).

(** *** Retrieval *)

(** [getattr(sources[datasource], "get_data")(...)]: the collector's frame,
    as a new object. *)
Definition fetch (src : DataCollector.t) (experimentId : string)
    (measurements fields : list string) (additional_clause : option string)
    (chunked : bool) (chunk_size : Z) (limit offset : arg) (max_lag : string) : M ref :=
  df <- call (DataCollector.get_data src experimentId measurements fields
                additional_clause chunked chunk_size limit offset max_lag
                DataCollector.default_start) ;;
  alloc (OFrame df).

(** [data = f(data)] for a collaborator [f]. *)
Definition transform (f : obj -> outcome obj) (data : ref) : M ref :=
  o <- load data ;;
  o' <- lift (f o) ;;
  alloc o'.

(** The result [None] is Python's [None].  The clock readings and the
    prints (progress and elapsed time) are left out. *)
Definition retrieve_data (datasource experimentId : string)
    (measurements fields : list string) (match_series : bool)
    (remove_outliers additional_clause : option string)
    (chunked : bool) (chunk_size : Z) (limit offset : arg) (max_lag : string)
    : M (option ref) :=
  down <- gets (unavailable datasource) ;;
  if down : bool then ret None
  else
    let dataid := dataid datasource experimentId measurements fields remove_outliers
                         match_series additional_clause max_lag limit in
    enabled <- gets enable_cache ;;
    data <- (if enabled : bool then
               cache <- gets data_cache ;;
               match cache !! dataid with
               | None =>
                   src <- source datasource ;;
                   data <- fetch src experimentId measurements fields additional_clause
                                 chunked chunk_size limit offset max_lag ;;
                   _ <- modify (fun w => set_cache (<[dataid := data]> (data_cache w)) w) ;;
                   ret data
               | Some data => ret data
               end
             else
               src <- source datasource ;;
               fetch src experimentId measurements fields additional_clause
                     chunked chunk_size limit offset max_lag) ;;
    data <- (if match_series
             then transform (fun o => synchronize o max_lag true) data
             else ret data) ;;
    data <- (if truthy_opt remove_outliers then
               let mode := lower (str_opt remove_outliers) in
               data <- (if bool_decide (mode = "zscore")
                        then transform (fun o => remove o 0) data else ret data) ;;
               if bool_decide (mode = "mad")
               then transform (fun o => remove o 1) data else ret data
             else ret data) ;;
    ret (Some data).

(** *** The get_data route *)

(** [x = request.args.get(k)] followed by [if x: x = int(x)]. *)
Definition int_arg (k : string) (args : list (string * string)) : M arg :=
  match get k args with
  | None => ret ArgNone
  | Some s => if truthy s then n <- lift (int_of_str s) ;; ret (ArgInt n)
              else ret (ArgStr s)
  end.

(** [series.index = series.index - series.index.min()], in place. *)
Definition rebase (series : ref) : M unit :=
  o <- load series ;;
  match o with
  | OFrame df =>
      idx <- lift (index_sub_min (index df)) ;;
      store series (OFrame (set_index idx df))
  | ODict _ => raise AttributeError
  end.

(** The frame behind a reference that [rebase] has accepted. *)
Definition load_frame (series : ref) : M DataFrame :=
  o <- load series ;;
  match o with
  | OFrame df => ret df
  | ODict _ => raise AttributeError
  end.

(** [{name: json.loads(df.to_json()) for name, df in data.items()}] *)
Definition jsonobjects (data : obj) : list (string * json) :=
  match data with
  | OFrame df => dict_of ((fun kv : string * list cell => (kv.1, JSeries (index df) kv.2))
                            <$> columns df)
  | ODict d => dict_of ((fun kv : string * DataFrame => (kv.1, JFrame kv.2)) <$> d)
  end.

(** [type(data) == pd.DataFrame and data.empty or type(data) == dict and data == {}] *)
Definition no_data (data : obj) : bool :=
  match data with
  | OFrame df => empty df
  | ODict d => match d with [] => true | _ => false end
  end.

Definition get_data_single (datasource experimentId1 : string)
    (measurements fields : list string) (match_series : bool)
    (remove_outliers additional_clause : option string)
    (chunked : bool) (chunk_size : Z) (limit offset : arg) (max_lag : string)
    : M Response :=
  data <- retrieve_data datasource experimentId1 measurements fields match_series
                        remove_outliers additional_clause chunked chunk_size
                        limit offset max_lag ;;
  match data with
  | None => raise AttributeError      (* None has no [items]; the test above it is False *)
  | Some r =>
      o <- load r ;;
      if no_data o then ret (currently_not_available datasource)
      else ret (BTables (jsonobjects o), 200)
  end.

(** The two rebased series, as handed to [synchronize]; [None] when the
    first retrieval returned [None]. *)
Definition rebased_pair (datasource experimentId1 experimentId2 : string)
    (measurements fields : list string) (match_series : bool)
    (remove_outliers additional_clause : option string)
    (chunked : bool) (chunk_size : Z) (limit offset : arg) (max_lag : string)
    : M (option (list (string * DataFrame))) :=
  series1 <- retrieve_data datasource experimentId1 measurements fields match_series
                           remove_outliers additional_clause chunked chunk_size
                           limit offset max_lag ;;
  match series1 with
  | None => ret None
  | Some r1 =>
      _ <- rebase r1 ;;
      series2 <- retrieve_data datasource experimentId2 measurements fields match_series
                               remove_outliers additional_clause chunked chunk_size
                               limit offset max_lag ;;
      match series2 with
      | None => raise AttributeError
      | Some r2 =>
          _ <- rebase r2 ;;
          s1 <- load_frame r1 ;;
          s2 <- load_frame r2 ;;
          ret (Some [("series1", s1); ("series2", s2)])
      end
  end.

Definition get_data_compare (datasource experimentId1 experimentId2 : string)
    (measurements fields : list string) (match_series : bool)
    (remove_outliers additional_clause : option string)
    (chunked : bool) (chunk_size : Z) (limit offset : arg) (max_lag : string)
    : M Response :=
  pair <- rebased_pair datasource experimentId1 experimentId2 measurements fields
                       match_series remove_outliers additional_clause chunked
                       chunk_size limit offset max_lag ;;
  match pair with
  | None => ret (currently_not_available datasource)
  | Some dataframes =>
      series_dict <- lift (synchronize (ODict dataframes) max_lag false) ;;
      match series_dict with
      | ODict sd => ret (BTables ((fun kv : string * DataFrame => (kv.1, JFrame kv.2)) <$> sd), 200)
      | OFrame _ => raise TypeError   (* a frame is no response body *)
      end
  end.

Definition get_data (args : list (string * string))
    (datasource experimentId1 : string) (experimentId2 : option string) : M Response :=
  let measurements := getlist "measurement" args in
  let fields := getlist "field" args in
  let additional_clause := get "additional_clause" args in
  let chunked := flag (get "chunked" args) in
  chunk_size <- lift (match get "chunk_size" args with
                      | Some s => if truthy s then int_of_str s else Ok 10000
                      | None => Ok 10000
                      end) ;;
  let match_series := flag (get "match_series" args) in
  let remove_outliers := get "remove_outliers" args in
  limit <- int_arg "limit" args ;;
  offset <- int_arg "offset" args ;;
  let max_lag := default "1s" (get "max_lag" args) in
  if truthy_opt experimentId2 then
    get_data_compare datasource experimentId1 (str_opt experimentId2) measurements fields
                     match_series remove_outliers additional_clause chunked chunk_size
                     limit offset max_lag
  else
    get_data_single datasource experimentId1 measurements fields match_series
                    remove_outliers additional_clause chunked chunk_size
                    limit offset max_lag.

End routes.

End Main.

(* ===================================================================== *)
(** ** Vocabulary of the statements                                        *)
(* ===================================================================== *)

Import Main.

(** The parameters of one [retrieve_data] call. *)
Record request : Type := mkRequest {
  datasource : string;
  experimentId : string;
  measurements : list string;
  fields : list string;
  match_series : bool;
  remove_outliers : option string;
  additional_clause : option string;
  chunked : bool;
  chunk_size : Z;
  limit : arg;
  offset : arg;
  max_lag : string
}.

(** The request for another experiment, everything else the same. *)
Definition with_experiment (e : string) (q : request) : request :=
  mkRequest (datasource q) e (measurements q) (fields q) (match_series q)
            (remove_outliers q) (additional_clause q) (chunked q) (chunk_size q)
            (limit q) (offset q) (max_lag q).

(** One second, in the nanoseconds of a [datetime64]. *)
Definition seconds (n : Z) : Z := n * 1000000000.

(** A time index re-based on the instant [m]. *)
Definition rebased_on (m : Z) (ts : list Z) : list label :=
  (fun t => LDelta (t - m)) <$> ts.

(** The series [df] with its index replaced by [idx], as an object. *)
Definition reindexed (idx : list label) (df : DataFrame) : obj :=
  OFrame (set_index idx df).

(** The fingerprint of a request. *)
Definition fingerprint `{!Builtins} (q : request) : string :=
  dataid (datasource q) (experimentId q) (measurements q) (fields q) (remove_outliers q)
         (match_series q) (additional_clause q) (max_lag q) (limit q).

(** The world with the cache-enable flag set to [flag]. *)
Definition set_enable_cache (flag : bool) (w : World) : World :=
  mkWorld (sources w) (data_cache w) flag (heap w) (sent w).

(** [w'] is [w] with objects added and nothing else touched. *)
Definition allocated (w w' : World) : Prop :=
  exists extra, w' = set_heap (heap w ++ extra) w.

(** What the caller of [retrieve_data] holds: the object behind the
    returned reference. *)
Definition returned (x : outcome (option ref) * World) : outcome (option obj) :=
  match x.1 with
  | Ok (Some r) =>
      match heap x.2 !! r with
      | Some o => Ok (Some o)
      | None => Raise TypeError
      end
  | Ok None => Ok None
  | Raise e => Raise e
  end.

(** The world after a fetch that returned [df], having sent [sent']. *)
Definition fetched `{!Builtins} (q : request) (df : DataFrame) (sent' : list string)
    (w : World) : World :=
  mkWorld (sources w)
          (if enable_cache w then <[fingerprint q := length (heap w)]> (data_cache w)
           else data_cache w)
          (enable_cache w) (heap w ++ [OFrame df]) (sent w ++ sent').

Section vocabulary.
Context `{!Builtins, !Conversions, !Collaborators}.

(** [retrieve_data] on a request. *)
Definition retrieve (q : request) : M (option ref) :=
  retrieve_data (datasource q) (experimentId q) (measurements q) (fields q)
                (match_series q) (remove_outliers q) (additional_clause q)
                (chunked q) (chunk_size q) (limit q) (offset q) (max_lag q).

(** The collector call a request leads to. *)
Definition collected (src : DataCollector.t) (q : request) : DataCollector.io DataFrame :=
  DataCollector.get_data src (experimentId q) (measurements q) (fields q)
    (additional_clause q) (chunked q) (chunk_size q) (limit q) (offset q) (max_lag q)
    DataCollector.default_start.

(** The single-experiment path of the [get_data] route on a request. *)
Definition single (q : request) : M Response :=
  get_data_single (datasource q) (experimentId q) (measurements q) (fields q)
                  (match_series q) (remove_outliers q) (additional_clause q)
                  (chunked q) (chunk_size q) (limit q) (offset q) (max_lag q).

(** The two-experiment path of the [get_data] route on a request. *)
Definition compare (q : request) (experimentId2 : string) : M Response :=
  get_data_compare (datasource q) (experimentId q) experimentId2 (measurements q)
                   (fields q) (match_series q) (remove_outliers q) (additional_clause q)
                   (chunked q) (chunk_size q) (limit q) (offset q) (max_lag q).

(** The outlier stage of [retrieve_data], on the object itself. *)
Definition outliers_removed (remove_outliers : option string) (o : obj) : outcome obj :=
  if truthy_opt remove_outliers then
    let mode := lower (str_opt remove_outliers) in
    obind (if bool_decide (mode = "zscore") then remove o 0 else Ok o) (fun o' =>
    if bool_decide (mode = "mad") then remove o' 1 else Ok o')
  else Ok o.

(** The two stages after the cache lookup, on the object itself. *)
Definition post_processed (match_series : bool) (remove_outliers : option string)
    (max_lag : string) (o : obj) : outcome obj :=
  obind (if match_series then synchronize o max_lag true else Ok o)
        (outliers_removed remove_outliers).

(** The same two stages as [retrieve_data] runs them, on a reference. *)
Definition finish (match_series : bool) (remove_outliers : option string)
    (max_lag : string) (data : ref) : M (option ref) :=
  (data <- (if match_series
            then transform (fun o => synchronize o max_lag true) data
            else ret data) ;;
   data <- (if truthy_opt remove_outliers then
              let mode := lower (str_opt remove_outliers) in
              data <- (if bool_decide (mode = "zscore")
                       then transform (fun o => remove o 0) data else ret data) ;;
              if bool_decide (mode = "mad")
              then transform (fun o => remove o 1) data else ret data
            else ret data) ;;
   ret (Some data))%m.

(** What a retrieval computed afresh hands to the caller: the collector's
    frame, post-processed. *)
Definition recomputed (src : DataCollector.t) (q : request) : outcome (option obj) :=
  match (collected src q).1 with
  | Ok df =>
      match post_processed (match_series q) (remove_outliers q) (max_lag q) (OFrame df) with
      | Ok o => Ok (Some o)
      | Raise e => Raise e
      end
  | Raise e => Raise e
  end.

(** The calls that touch the cache. *)
Inductive action : Type :=
| Retrieve (q : request)
| Purge.

Definition after (c : action) (w : World) : World :=
  match c with
  | Retrieve q => (retrieve q w).2
  | Purge => (purge_cache w).2
  end.

(** The world after a sequence of calls, first call first. *)
Definition after_all (cs : list action) (w : World) : World :=
  foldl (fun w c => after c w) w cs.

(** Every cache entry is the frame the collector returned for some request
    with that fingerprint, as fetched: not synchronised, not filtered. *)
Definition cache_holds_fetched (w : World) : Prop :=
  forall (k : string) (r : ref),
    data_cache w !! k = Some r ->
    exists (q : request) (src : DataCollector.t) (df : DataFrame),
      fingerprint q = k /\
      sources w !! datasource q = Some src /\
      (collected src q).1 = Ok df /\
      heap w !! r = Some (OFrame df).

End vocabulary.

(** The values a tag-value reply contributes: the non-null cells of its
    [_value] column, as text. *)
Definition tag_values `{!Conversions} (df : DataFrame) : list string :=
  if negb (empty df) && has_column "_value" df then
    match column "_value" df with
    | Ok col => astype_str (dropna col)
    | Raise _ => []
    end
  else [].

(** The measurement names of a listing reply. *)
Definition listed_measurements `{!Conversions} (df : DataFrame) : list string :=
  match column (if has_column "_measurement" df then "_measurement" else "_value") df with
  | Ok col => astype_str (dropna col)
  | Raise _ => []
  end.

(** The tables of a reply that have rows and columns: the frame, or the
    frames of the list. *)
Definition tables_of (r : DataCollector.reply) : list DataFrame :=
  filter (fun t => negb (empty t))
         (match r with
          | DataCollector.RFrame df => [df]
          | DataCollector.RList l => l
          end).

(** The non-null cells of column [c] of a table, as text; none when the
    table has no such column. *)
Definition values_in `{!Conversions} (c : string) (t : DataFrame) : list string :=
  match assoc c (columns t) with
  | Some col => astype_str (dropna col)
  | None => []
  end.

(** The values a reply holds under [c], table after table. *)
Definition reply_values `{!Conversions} (c : string) (r : DataCollector.reply)
    : list string :=
  tables_of r ≫= values_in c.

(** The column in which a listing reply names the measurements:
    [_measurement] if one of its tables has it, else [_value]. *)
Definition name_column (r : DataCollector.reply) : string :=
  if existsb (has_column "_measurement") (tables_of r) then "_measurement" else "_value".

(* ===================================================================== *)
(** ** A concrete deployment                                               *)
(* ===================================================================== *)

(** The scenario of the design notes: datasource [uma] holds measurement
    [Throughput_Measures] with field [Throughput (Mbps)] for experiment
    [42], three samples one second apart.  It instantiates the open
    parameters wherever a statement is evaluated. *)
Module Scenario.

Definition digit_value (c : ascii) : option Z :=
  let n := nat_of_ascii c in
  if ((48 <=? n) && (n <=? 57))%nat then Some (Z.of_nat (n - 48)) else None.

Fixpoint decimal (acc : Z) (s : string) : outcome Z :=
  match s with
  | EmptyString => Ok acc
  | String c s' =>
      match digit_value c with
      | Some d => decimal (10 * acc + d) s'
      | None => Raise ValueError
      end
  end.

(** [int()] on plain decimal numerals. *)
Definition plain_int (s : string) : outcome Z :=
  match s with
  | EmptyString => Raise ValueError
  | String "-" s' => match s' with
                     | EmptyString => Raise ValueError
                     | _ => obind (decimal 0 s') (fun n => Ok (- n))
                     end
  | _ => decimal 0 s
  end.

(** The printable characters from 128 up, as far as Latin-1 goes: all but
    the C1 controls, the no-break space and the soft hyphen.  The texts
    below are ASCII. *)
Definition latin1_printable (cp : N) : bool :=
  ((160 <? cp) && negb (cp =? 173))%N.

Definition builtins : Builtins :=
  {| int_of_str := plain_int; isprintable := latin1_printable |}.

Definition conversions : Conversions :=
  {| parse_datetime := fun _ => Raise ValueError;
     str_of_float := fun b => "float:" +:+ str_int b;
     str_of_timestamp := fun ns => "ts:" +:+ str_int ns |}.

(** An outlier filter within its contract (same columns, a subset of the
    rows): it removes the last row. *)
Definition drop_last_row (df : DataFrame) : DataFrame :=
  mkFrame (removelast (index df))
          ((fun kv : string * list cell => (kv.1, removelast kv.2)) <$> columns df).

Definition trimming_remove (o : obj) (strategy : Z) : outcome obj :=
  match o with
  | OFrame df => Ok (OFrame (drop_last_row df))
  | ODict d => Ok (ODict ((fun kv : string * DataFrame => (kv.1, drop_last_row kv.2)) <$> d))
  end.

Definition collaborators : Collaborators :=
  {| synchronize := fun o _ _ => Ok o;
     remove := trimming_remove |}.

Definition has (sub s : string) : bool :=
  match String.index 0 sub s with Some _ => true | None => false end.

Definition second : Z := 1000000000.

(** The pivoted rows of the measurement, as the client delivers them. *)
Definition throughput_rows (experimentId : string) (times : list Z) (values : list Z)
    : DataFrame :=
  let n := length times in
  mkFrame (LInt <$> seqZ 0 (Z.of_nat n))
          [("result", replicate n (CStr "_result"));
           ("table", replicate n (CInt 0));
           ("_start", replicate n (CTime (-2592000 * second)));
           ("_stop", replicate n (CTime (3 * second)));
           ("_time", CTime <$> times);
           ("ExperimentId", replicate n (CStr experimentId));
           ("_measurement", replicate n (CStr "Throughput_Measures"));
           ("Throughput (Mbps)", CFloat <$> values)].

Definition values_frame (values : list string) : DataFrame :=
  mkFrame (LInt <$> seqZ 0 (Z.of_nat (length values)))
          [("result", replicate (length values) (CStr "_result"));
           ("table", replicate (length values) (CInt 0));
           ("_value", CStr <$> values)].

Definition selects (experimentId flux : string) : bool :=
  has ("r.ExperimentId == " +:+ dq +:+ experimentId +:+ dq) flux.

(** What the store behind [uma] answers.  Experiment [42] started at
    wall-clock 1000 s and experiment [43] at 5000 s; the only field is
    [Throughput (Mbps)]; for [42] the store serves the two pagination
    clauses used below. *)
Definition uma_store (flux org : string) : outcome DataCollector.reply :=
  if has "schema.tagValues" flux then
    if has "ExperimentId" flux then Ok (DataCollector.RFrame (values_frame ["43"; "42"]))
    else Ok (DataCollector.RList [])
  else if has "distinct(column" flux then
    if selects "42" flux || selects "43" flux
    then Ok (DataCollector.RFrame (values_frame ["Throughput_Measures"]))
    else Ok (DataCollector.RList [])
  else if has "contains(value: r._field" flux && negb (has "Throughput (Mbps)" flux) then
    Ok (DataCollector.RList [])
  else if has "Throughput_Measures" flux then
    if selects "42" flux then
      if has "limit(n: 1, offset: 1)" flux
      then Ok (DataCollector.RFrame (throughput_rows "42" [1001 * second] [12]))
      else if has "limit(n: 1, offset: 0)" flux
      then Ok (DataCollector.RFrame (throughput_rows "42" [1000 * second] [10]))
      else Ok (DataCollector.RFrame
                 (throughput_rows "42" [1000 * second; 1001 * second; 1002 * second]
                                 [10; 12; 11]))
    else if selects "43" flux then
      Ok (DataCollector.RFrame
            (throughput_rows "43" [5000 * second; 5001 * second; 5002 * second]
                            [20; 21; 22]))
    else Ok (DataCollector.RList [])
  else Ok (DataCollector.RList []).

Definition uma : DataCollector.t :=
  DataCollector.mk "http://influxdb:8086" "uma-org" "testdb" "token"
    (Some (DataCollector.Client "http://influxdb:8086" "token" "uma-org" 30000))
    uma_store.

Definition deployment (flag : bool) : World :=
  startup {[ "uma" := uma ]} flag.

(** The series [get_data] makes of the pivoted rows. *)
Definition throughput_series (experimentId : string) (times values : list Z) : DataFrame :=
  let n := length times in
  mkFrame (LTime <$> times)
          [("ExperimentId", replicate n (CStr experimentId));
           ("_measurement", replicate n (CStr "Throughput_Measures"));
           ("Throughput (Mbps)", CFloat <$> values)].

(** The requests of the examples: experiment [42] as it is, its first and
    second page of one row, and with the z-score filter. *)
Definition plain : request :=
  mkRequest "uma" "42" [] [] false None None false 10000 ArgNone ArgNone "1s".

Definition page (n : Z) : request :=
  mkRequest "uma" "42" ["Throughput_Measures"] [] false None None false 10000
            (ArgInt 1) (ArgInt n) "1s".

(** A measurement the store has no rows for. *)
Definition nothing : request :=
  mkRequest "uma" "42" ["Nothing_Measured"] [] false None None false 10000
            ArgNone ArgNone "1s".

Definition filtered : request :=
  mkRequest "uma" "42" [] [] false (Some "zscore") None false 10000 ArgNone ArgNone "1s".

End Scenario.

(* ===================================================================== *)
(** ** More vocabulary, and deployments that fail                          *)
(* ===================================================================== *)

(** Requests that differ from [q] in one parameter group. *)
Definition with_remove_outliers (mode : option string) (q : request) : request :=
  mkRequest (datasource q) (experimentId q) (measurements q) (fields q) (match_series q)
            mode (additional_clause q) (chunked q) (chunk_size q)
            (limit q) (offset q) (max_lag q).

Definition with_chunking (chunked' : bool) (chunk_size' : Z) (q : request) : request :=
  mkRequest (datasource q) (experimentId q) (measurements q) (fields q) (match_series q)
            (remove_outliers q) (additional_clause q) chunked' chunk_size'
            (limit q) (offset q) (max_lag q).

Definition with_additional_clause (clause : option string) (q : request) : request :=
  mkRequest (datasource q) (experimentId q) (measurements q) (fields q) (match_series q)
            (remove_outliers q) clause (chunked q) (chunk_size q)
            (limit q) (offset q) (max_lag q).

Definition with_offset (offset' : arg) (q : request) : request :=
  mkRequest (datasource q) (experimentId q) (measurements q) (fields q) (match_series q)
            (remove_outliers q) (additional_clause q) (chunked q) (chunk_size q)
            (limit q) offset' (max_lag q).

(** The request finds nothing to reuse: the cache is off, or has no entry
    under the request's fingerprint. *)
Definition misses `{!Builtins} (q : request) (w : World) : Prop :=
  (if enable_cache w then data_cache w !! fingerprint q else None) = None.

(** The query string gives [k] a text that [int()] refuses. *)
Definition unparsable `{!Builtins} (k : string) (args : list (string * string)) : Prop :=
  exists s e, get k args = Some s /\ truthy s = true /\ int_of_str s = Raise e.

Module Outage.

(** A datasource whose store refuses every query. *)
Definition down_store (flux org : string) : outcome DataCollector.reply :=
  Raise ApiException.

Definition down : DataCollector.t :=
  DataCollector.mk "http://influxdb:8086" "uma-org" "testdb" "token"
    (Some (DataCollector.Client "http://influxdb:8086" "token" "uma-org" 30000))
    down_store.

(** The store of [uma], failing on one measurement. *)
Definition flaky_store (flux org : string) : outcome DataCollector.reply :=
  if Scenario.has "Broken_Measures" flux then Raise ApiException
  else Scenario.uma_store flux org.

Definition flaky : DataCollector.t :=
  DataCollector.mk "http://influxdb:8086" "uma-org" "testdb" "token"
    (Some (DataCollector.Client "http://influxdb:8086" "token" "uma-org" 30000))
    flaky_store.

(** An outlier filter that raises. *)
Definition failing_filter : Collaborators :=
  {| synchronize := fun o _ _ => Ok o;
     remove := fun _ _ => Raise ValueError |}.

(** A store without a single row. *)
Definition blank_store (flux org : string) : outcome DataCollector.reply :=
  Ok (DataCollector.RList []).

Definition blank : DataCollector.t :=
  DataCollector.mk "http://influxdb:8086" "uma-org" "testdb" "token"
    (Some (DataCollector.Client "http://influxdb:8086" "token" "uma-org" 30000))
    blank_store.

Definition deployment (src : DataCollector.t) (flag : bool) : World :=
  startup {[ "uma" := src ]} flag.

End Outage.

(** A store that answers in several tables, some of them without rows, as the
    client does for a result of more than one group. *)
Module Tabled.

Definition no_rows : DataFrame :=
  mkFrame [] [("result", []); ("table", []); ("_value", [])].

Definition names_frame (names : list string) : DataFrame :=
  mkFrame (LInt <$> seqZ 0 (Z.of_nat (length names)))
          [("_measurement", CStr <$> names)].

(** The replies to the two tag-value queries and to the listing query. *)
Definition ids_reply : DataCollector.reply :=
  DataCollector.RList [Scenario.values_frame ["43"]; no_rows;
                       Scenario.values_frame ["42"; "43"]].

Definition more_ids_reply : DataCollector.reply :=
  DataCollector.RList [no_rows; Scenario.values_frame ["7"]].

Definition names_reply : DataCollector.reply :=
  DataCollector.RList [names_frame ["Throughput_Measures"]; no_rows;
                       names_frame ["Delay_Measures"; "Throughput_Measures"]].

Definition store (flux org : string) : outcome DataCollector.reply :=
  if Scenario.has "schema.tagValues" flux then
    if Scenario.has "ExperimentId" flux then Ok ids_reply else Ok more_ids_reply
  else if Scenario.has "distinct(column" flux then Ok names_reply
  else Ok (DataCollector.RList [no_rows; no_rows]).

Definition src : DataCollector.t :=
  DataCollector.mk "http://influxdb:8086" "uma-org" "testdb" "token"
    (Some (DataCollector.Client "http://influxdb:8086" "token" "uma-org" 30000))
    store.

End Tabled.

(* ===================================================================== *)
(** * Connection settings and start-up                                     *)
(* ===================================================================== *)

(** The constructor of the collector and the start-up block of the service
    take the connection details from YAML.  What [yaml.safe_load] returns
    has no fixed type, and the code tells the cases apart with [isinstance],
    with truth tests and with [in]; so the values are modelled as Python has
    them, and the collector under construction by the four settings it
    saves. *)

Module Config.
Import Py.

(** What [yaml.safe_load] produces from untagged YAML.  [VOther] is a scalar
    of another class (a [float], a [date], a [datetime]): it is not a mapping,
    not a string and not iterable, and it is known by its truth value and by
    its [str()]. *)
#[warnings="-register-all"] Inductive value : Type :=
| VNone
| VBool (b : bool)
| VInt (n : Z)
| VStr (s : string)
| VList (l : list value)
| VDict (items : list (value * value))   (* the items, in the order of the dict *)
| VOther (truth' : bool) (text : string).

(** [bool(v)] *)
Definition truth (v : value) : bool :=
  match v with
  | VNone => false
  | VBool b => b
  | VInt n => negb (n =? 0)
  | VStr s => truthy s
  | VList l => match l with [] => false | _ => true end
  | VDict items => match items with [] => false | _ => true end
  | VOther b _ => b
  end.

(** [repr(v)] *)
Fixpoint repr `{!Builtins} (v : value) : string :=
  match v with
  | VNone => "None"
  | VBool b => str_bool b
  | VInt n => str_int n
  | VStr s => repr_str s
  | VList l => "[" +:+ join_with ", " (map repr l) +:+ "]"
  | VDict items =>
      "{" +:+ join_with ", "
                (map (fun kv => match kv with
                                | (k, x) => repr k +:+ ": " +:+ repr x
                                end) items) +:+ "}"
  | VOther _ text => text
  end.

(** [str(v)], which is also what an f-string puts for [{v}]. *)
Definition str `{!Builtins} (v : value) : string :=
  match v with
  | VStr s => s
  | _ => repr v
  end.

(** The value a dict holds under the [str] key [k], if it has that key.  A
    key of another class never equals a [str]. *)
Fixpoint item (k : string) (items : list (value * value)) : option value :=
  match items with
  | [] => None
  | (VStr s, x) :: rest => if decide (s = k) then Some x else item k rest
  | _ :: rest => item k rest
  end.

(** [k in d] *)
Definition contains (k : string) (items : list (value * value)) : bool :=
  match item k items with Some _ => true | None => false end.

(** [all(k in d for k in ks)] *)
Definition contains_all (ks : list string) (items : list (value * value)) : bool :=
  forallb (fun k => contains k items) ks.

(** [d[k]], once [k in d] has been checked. *)
Definition at_key (k : string) (items : list (value * value)) : value :=
  default VNone (item k items).

(** [v.get(k)]: only a dict has the method. *)
Definition get (k : string) (v : value) : outcome value :=
  match v with
  | VDict items => Ok (default VNone (item k items))
  | _ => Raise AttributeError
  end.

(** [for x in v]: a list gives its elements, a dict its keys, a string its
    characters; nothing else here can be iterated. *)
Definition iterate (v : value) : outcome (list value) :=
  match v with
  | VList l => Ok l
  | VDict items => Ok (map fst items)
  | VStr s => Ok (map (fun c => VStr (String c EmptyString)) (list_ascii_of_string s))
  | _ => Raise TypeError
  end.

(** What [open(path)] finds. *)
Inductive file : Type :=
| Missing                  (* FileNotFoundError *)
| Unreadable (e : exn)     (* another IOError *)
| Text (s : string).

(** The machine the process runs on: the environment variable
    [ANALYTICS_CONN_FILE], the files, [str.strip], [yaml.safe_load], and
    what building the client for a url, a token and an org does
    ([InfluxDBClient(...)] and [client.query_api()]). *)
Record Host : Type := mkHost {
  conn_file : option string;
  files : string -> file;
  strip : string -> string;
  safe_load : string -> outcome value;
  connect : value -> value -> value -> outcome unit
}.

Definition secret_file : string := "/run/secrets/analytics_connections".

(** The result of a call that may raise [FileNotFoundError], the one class
    the constructor catches. *)
Inductive loaded (A : Type) : Type :=
| Got (a : A)
| NotFound
| Failed (e : exn).
Arguments Got {A} a.
Arguments NotFound {A}.
Arguments Failed {A} e.

(** [_load_secret(path)] *)
Definition _load_secret (h : Host) (path : option string) : loaded value :=
  let path := if truthy_opt path then str_opt path
              else default secret_file (conn_file h) in
  match files h path with
  | Missing => NotFound
  | Unreadable e => Failed e
  | Text s =>
      match safe_load h s with
      | Raise e => Failed e
      | Ok data =>
          let data := if truth data then data else VDict [] in
          match data with
          | VDict items => Got (default data (item "uma" items))
          | _ => Failed AttributeError
          end
      end
  end.

(** What the constructor saves on the object. *)
Record Settings : Type := mkSettings {
  url : value;
  org : value;
  bucket : value;
  token : value
}.

(** [x or cfg.get(k)]: [cfg] is not asked when [x] is true. *)
Definition or_get (x : value) (k : string) (cfg : value) : outcome value :=
  if truth x then Ok x else get k cfg.

(** The settings after the secret has been consulted. *)
Definition consult (h : Host) (url org bucket token : value)
    (secret_path : option string) : outcome (value * value * value * value) :=
  if truth url && truth org && truth bucket && truth token
  then Ok (url, org, bucket, token)
  else match _load_secret h secret_path with
       | NotFound => Ok (url, org, bucket, token)
       | Failed e => Raise e
       | Got cfg =>
           obind (or_get url "url" cfg) (fun url =>
           obind (or_get org "org" cfg) (fun org =>
           obind (or_get bucket "bucket" cfg) (fun bucket =>
           obind (or_get token "token" cfg) (fun token =>
           Ok (url, org, bucket, token)))))
       end.

(** [DataCollector.__init__], up to the client: the secret, the two
    fall-backs, the validation, the saved settings and the connection.
    [user] and [password] are never read and [timeout_ms] only reaches the
    client; the snapshot of experiment ids that follows swallows every
    exception and is read by nothing. *)
Definition __init__ `{!Builtins} (h : Host)
    (host port database url org bucket token : value)
    (secret_path : option string) : outcome Settings :=
  obind (consult h url org bucket token secret_path)
    (fun '(url, org, bucket, token) =>
       let url := if negb (truth url) && truth host && truth port
                  then VStr ("http://" +:+ str host +:+ ":" +:+ str port)
                  else url in
       let bucket := if truth database && negb (truth bucket)
                     then database else bucket in
       if truth url && truth org && truth bucket && truth token
       then obind (connect h url token org)
                  (fun _ => Ok (mkSettings url org bucket token))
       else Raise ValueError).

(** [cfg[k]] *)
Definition subscript (k : string) (v : value) : outcome value :=
  match v with
  | VDict items => match item k items with
                   | Some x => Ok x
                   | None => Raise KeyError
                   end
  | _ => Raise TypeError
  end.

(** [DataCollector.from_secret(secret_path)] *)
Definition from_secret `{!Builtins} (h : Host) (secret_path : option string)
    : loaded Settings :=
  match _load_secret h secret_path with
  | NotFound => NotFound
  | Failed e => Failed e
  | Got cfg =>
      match obind (subscript "url" cfg) (fun url =>
            obind (subscript "org" cfg) (fun org =>
            obind (subscript "bucket" cfg) (fun bucket =>
            obind (subscript "token" cfg) (fun token =>
            __init__ h VNone VNone VNone url org bucket token None)))) with
      | Ok s => Got s
      | Raise e => Failed e
      end
  end.

(** [get_secrets()] *)
Definition get_secrets (h : Host) : option string :=
  match files h secret_file with
  | Text s => Some (strip h s)
  | _ => None
  end.

(** The lines the start-up prints. *)
Inductive warning : Type :=
| NotADict (con_name : value)
| LegacyIncomplete (con_name : value)
| Unrecognized (con_name : value) (keys : list value).

(** [sources] is built by assignments [sources[key] = collector]; the list
    holds them in the order in which they are made. *)
Definition assignments : Type := list (value * Settings).

(** The loop over the databases of a legacy entry. *)
Fixpoint each_database `{!Builtins} (h : Host) (con_name url org token : value)
    (dbs : list value) : outcome assignments :=
  match dbs with
  | [] => Ok []
  | db :: rest =>
      let bucket := match db with VStr s => s | _ => str db end in
      let key := str con_name +:+ "_" +:+ bucket in
      obind (__init__ h VNone VNone VNone url org (VStr bucket) token None) (fun c =>
      obind (each_database h con_name url org token rest) (fun a =>
      Ok ((VStr key, c) :: a)))
  end.

(** The body of the loop over the entries. *)
Definition entry `{!Builtins} (h : Host) (con_name con_details : value)
    : outcome (assignments * list warning) :=
  match con_details with
  | VDict d =>
      if contains_all ["url"; "org"; "bucket"; "token"] d then
        obind (__init__ h VNone VNone VNone (at_key "url" d) (at_key "org" d)
                        (at_key "bucket" d) (at_key "token" d) None)
              (fun c => Ok ([(con_name, c)], []))
      else if contains "databases" d then
        if contains_all ["url"; "org"; "token"] d then
          obind (iterate (at_key "databases" d)) (fun dbs =>
          obind (each_database h con_name (at_key "url" d) (at_key "org" d)
                               (at_key "token" d) dbs)
                (fun a => Ok (a, [])))
        else Ok ([], [LegacyIncomplete con_name])
      else Ok ([], [Unrecognized con_name (map fst d)])
  | _ => Ok ([], [NotADict con_name])
  end.

Fixpoint entries `{!Builtins} (h : Host) (iterable : list (value * value))
    : outcome (assignments * list warning) :=
  match iterable with
  | [] => Ok ([], [])
  | (con_name, con_details) :: rest =>
      obind (entry h con_name con_details) (fun '(a, p) =>
      obind (entries h rest) (fun '(a', p') =>
      Ok (a ++ a', p ++ p')))
  end.

(** The start-up block of [__main__]: the assignments to [sources] and the
    warnings, or the exception that ends the process. *)
Definition load_sources `{!Builtins} (h : Host)
    : outcome (assignments * list warning) :=
  match get_secrets h with
  | Some secrets =>
      if truthy secrets then
        obind (safe_load h secrets) (fun connections =>
        entries h (match connections with
                   | VDict items => items
                   | _ => [(VStr "default", connections)]
                   end))
      else Ok ([], [])
  | None => Ok ([], [])
  end.

End Config.

(** An entry the start-up passes over: no dict, or a dict that has neither
    the four settings nor the makings of a legacy entry. *)
Definition skipped (con_details : Config.value) : bool :=
  match con_details with
  | Config.VDict d =>
      negb (Config.contains_all ["url"; "org"; "bucket"; "token"] d)
      && (negb (Config.contains "databases" d)
          || negb (Config.contains_all ["url"; "org"; "token"] d))
  | _ => true
  end.

(** The four settings are all there. *)
Definition complete (url org bucket token : Config.value) : bool :=
  Config.truth url && Config.truth org && Config.truth bucket && Config.truth token.

(** The setting [k] of an entry [d], or, where that is not true, what the
    secret [cfg] has under [k]. *)
Definition filled (k : string) (d cfg : list (Config.value * Config.value))
    : Config.value :=
  if Config.truth (Config.at_key k d) then Config.at_key k d else Config.at_key k cfg.

(** What the start-up assigned, without what it printed. *)
Definition assigned (r : outcome (Config.assignments * list Config.warning))
    : outcome Config.assignments :=
  obind r (fun ap => Ok ap.1).

(** A machine with one connection file, and the texts it may hold. *)
Module Site.
Import Config.

(** [str.strip] on ASCII text. *)
Definition is_space (c : ascii) : bool :=
  let n := nat_of_ascii c in
  ((9 <=? n) && (n <=? 13) || (28 <=? n) && (n <=? 32))%nat.

Fixpoint lstrip (l : list ascii) : list ascii :=
  match l with
  | c :: l' => if is_space c then lstrip l' else l
  | [] => []
  end.

Definition strip (s : string) : string :=
  string_of_list_ascii
    (reverse (lstrip (reverse (lstrip (list_ascii_of_string s))))).

Definition lines (l : list string) : string :=
  join (map (fun s => s +:+ nl) l).

(** Named entries: one complete, one that is no mapping, one legacy. *)
Definition named : string :=
  lines ["uma:";
         "  url: http://influxdb:8086";
         "  org: uma-org";
         "  bucket: testdb";
         "  token: s3cret";
         "notes: migrated";
         "athens:";
         "  url: http://athens:8086";
         "  org: athens-org";
         "  token: t0ken";
         "  databases: [metrics, 5]"].

Definition uma_details : list (value * value) :=
  [(VStr "url", VStr "http://influxdb:8086"); (VStr "org", VStr "uma-org");
   (VStr "bucket", VStr "testdb"); (VStr "token", VStr "s3cret")].

Definition athens_details : list (value * value) :=
  [(VStr "url", VStr "http://athens:8086"); (VStr "org", VStr "athens-org");
   (VStr "token", VStr "t0ken");
   (VStr "databases", VList [VStr "metrics"; VInt 5])].

Definition named_value : value :=
  VDict [(VStr "uma", VDict uma_details); (VStr "notes", VStr "migrated");
         (VStr "athens", VDict athens_details)].

(** The flat shape: the four settings at the top. *)
Definition flat : string :=
  lines ["url: http://influxdb:8086";
         "org: uma-org";
         "bucket: testdb";
         "token: s3cret"].

Definition flat_value : value := VDict uma_details.

(** An entry whose token was left empty. *)
Definition no_token : string :=
  lines ["uma:";
         "  url: http://influxdb:8086";
         "  org: uma-org";
         "  bucket: testdb";
         "  token:"].

Definition no_token_details : list (value * value) :=
  [(VStr "url", VStr "http://influxdb:8086"); (VStr "org", VStr "uma-org");
   (VStr "bucket", VStr "testdb"); (VStr "token", VNone)].

Definition no_token_value : value := VDict [(VStr "uma", VDict no_token_details)].

(** A complete [uma] section, and an entry without a token beside it. *)
Definition borrowing : string :=
  lines ["uma:";
         "  url: http://influxdb:8086";
         "  org: uma-org";
         "  bucket: testdb";
         "  token: s3cret";
         "athens:";
         "  url: http://athens:8086";
         "  org: athens-org";
         "  bucket: metrics";
         "  token:"].

Definition athens_no_token : list (value * value) :=
  [(VStr "url", VStr "http://athens:8086"); (VStr "org", VStr "athens-org");
   (VStr "bucket", VStr "metrics"); (VStr "token", VNone)].

Definition borrowing_value : value :=
  VDict [(VStr "uma", VDict uma_details); (VStr "athens", VDict athens_no_token)].

(** A section without content. *)
Definition null_uma : string := lines ["uma:"].

Definition null_uma_value : value := VDict [(VStr "uma", VNone)].

(** [yaml.safe_load] on the texts above, with or without the white space
    around them; it is asked for no other text. *)
Definition yaml (s : string) : outcome value :=
  let s := strip s in
  if decide (s = strip named) then Ok named_value
  else if decide (s = strip flat) then Ok flat_value
  else if decide (s = strip no_token) then Ok no_token_value
  else if decide (s = strip borrowing) then Ok borrowing_value
  else if decide (s = strip null_uma) then Ok null_uma_value
  else if decide (s = EmptyString) then Ok VNone
  else Raise ValueError.

(** The machine whose connection file holds [text]; the client can always
    be built. *)
Definition holding (text : string) : Host :=
  mkHost None
         (fun path => if decide (path = secret_file) then Text text else Missing)
         strip yaml (fun _ _ _ => Ok tt).

(** The machine without a connection file. *)
Definition bare : Host :=
  mkHost None (fun _ => Missing) strip yaml (fun _ _ _ => Ok tt).

End Site.

(* ===================================================================== *)
(** * Properties                                                           *)
(* ===================================================================== *)

(** ** The fingerprint *)

Section fingerprint.

(** Sorting forgets the order of its input. *)
Lemma sorted_Permutation (l1 l2 : list string) :
  l1 ≡ₚ l2 -> sorted l1 = sorted l2.
Proof.
  intros Hp. unfold sorted.
  apply (Sorted_unique String.le).
  - apply Sorted_merge_sort, _.
  - apply Sorted_merge_sort, _.
  - by rewrite !merge_sort_Permutation.
Qed.

Lemma sorted_is_Sorted (l : list string) : StronglySorted String.le (sorted l).
Proof. apply StronglySorted_merge_sort; apply _. Qed.

Lemma sorted_elem_of (l : list string) (x : string) : x ∈ sorted l <-> x ∈ l.
Proof. unfold sorted. by rewrite merge_sort_Permutation. Qed.

Lemma sorted_nil : sorted [] = [].
Proof. reflexivity. Qed.

(** [sorted(ids)] of a set: ascending, without repetition, the same
    members. *)
Lemma sorted_elements (ids : gset string) :
  StronglySorted String.le (sorted (elements ids)) /\
  NoDup (sorted (elements ids)) /\
  forall x, x ∈ sorted (elements ids) <-> x ∈ ids.
Proof.
  split; [apply sorted_is_Sorted |]. split.
  - unfold sorted. rewrite merge_sort_Permutation. apply NoDup_elements.
  - intros x. rewrite sorted_elem_of. apply elem_of_elements.
Qed.

Lemma unique_from_spec (seen l : list string) :
  NoDup (unique_from seen l) /\
  forall x, x ∈ unique_from seen l <-> x ∈ l /\ x ∉ seen.
Proof.
  revert seen. induction l as [|y l IH]; intros seen; simpl.
  - split; [constructor |]. intros x. rewrite elem_of_nil. tauto.
  - case_bool_decide as Hy.
    + destruct (IH seen) as [Hnd Hin]. split; [done |].
      intros x. rewrite Hin, elem_of_cons. split.
      * tauto.
      * intros [[-> | Hx] Hs]; [done | tauto].
    + destruct (IH (y :: seen)) as [Hnd Hin]. split.
      * constructor; [| done]. rewrite Hin, elem_of_cons. tauto.
      * intros x. rewrite elem_of_cons, Hin, !elem_of_cons.
        destruct (decide (x = y)) as [-> | Hne]; [| tauto].
        split; [intros _; split; [by left | done] | intros _; by left].
Qed.

Lemma sorted_unique (l : list string) :
  StronglySorted String.le (sorted (unique l)) /\
  NoDup (sorted (unique l)) /\
  forall x, x ∈ sorted (unique l) <-> x ∈ l.
Proof.
  destruct (unique_from_spec [] l) as [Hnd Hin].
  split; [apply sorted_is_Sorted |]. split.
  - unfold sorted. by rewrite merge_sort_Permutation.
  - intros x. rewrite sorted_elem_of. unfold unique. rewrite Hin, elem_of_nil.
    tauto.
Qed.

End fingerprint.

(** The fingerprint has no part for [offset], [chunked] and [chunk_size]. *)
Lemma fingerprint_ignores_offset `{!Builtins} (q : request) (offset' : arg) :
  fingerprint (mkRequest (datasource q) (experimentId q) (measurements q) (fields q)
                 (match_series q) (remove_outliers q) (additional_clause q)
                 (chunked q) (chunk_size q) (limit q) offset' (max_lag q))
  = fingerprint q.
Proof. reflexivity. Qed.

(** Its parts are joined without separators. *)
Lemma fingerprint_has_no_separators `{!Builtins} :
  dataid "uma" "4" ["2x"] [] None false None "1s" ArgNone
  = dataid "uma" "42" ["x"] [] None false None "1s" ArgNone.
Proof. reflexivity. Qed.

(** C2, as the code has it: the fingerprint does not depend on the order
    of the measurements list (which is sorted before it is joined); the
    fields list enters through [str(fields)], in request order. *)
Theorem dataid_measurements_order `{!Builtins}
    (datasource experimentId : string) (measurements measurements' fields : list string)
    (remove_outliers : option string) (match_series : bool)
    (additional_clause : option string) (max_lag : string) (limit : arg) :
  measurements ≡ₚ measurements' ->
  dataid datasource experimentId measurements fields remove_outliers match_series
         additional_clause max_lag limit
  = dataid datasource experimentId measurements' fields remove_outliers match_series
           additional_clause max_lag limit.
Proof.
  intros Hp. unfold dataid. by rewrite (sorted_Permutation _ _ Hp).
Qed.

Lemma dataid_measurements_order_witness :
  ["Throughput_Measures"; "Delay_Measures"] ≡ₚ ["Delay_Measures"; "Throughput_Measures"] /\
  @dataid Scenario.builtins "uma" "42" ["Throughput_Measures"; "Delay_Measures"]
          ["Throughput (Mbps)"] None false None "1s" ArgNone
  = @dataid Scenario.builtins "uma" "42" ["Delay_Measures"; "Throughput_Measures"]
            ["Throughput (Mbps)"] None false None "1s" ArgNone.
Proof.
  split; [apply Permutation_swap |].
  apply (@dataid_measurements_order Scenario.builtins), Permutation_swap.
Defined.

(** C2 as stated fails on the fields: two orders of one field list give
    two fingerprints. *)
Lemma dataid_fields_order_matters :
  ["Delay (ms)"; "Throughput (Mbps)"] ≡ₚ ["Throughput (Mbps)"; "Delay (ms)"] /\
  @dataid Scenario.builtins "uma" "42" ["Throughput_Measures"]
          ["Delay (ms)"; "Throughput (Mbps)"] None false None "1s" ArgNone
  <> @dataid Scenario.builtins "uma" "42" ["Throughput_Measures"]
             ["Throughput (Mbps)"; "Delay (ms)"] None false None "1s" ArgNone.
Proof.
  split; [apply Permutation_swap |].
  vm_compute. discriminate.
Qed.


(** ** What one retrieval does *)

Section retrieval.
Context `{!Builtins, !Conversions, !Collaborators}.

Lemma allocated_refl w : allocated w w.
Proof. exists []. destruct w. unfold set_heap. simpl. by rewrite app_nil_r. Qed.

Lemma allocated_trans w1 w2 w3 : allocated w1 w2 -> allocated w2 w3 -> allocated w1 w3.
Proof.
  intros [e1 ->] [e2 ->]. exists (e1 ++ e2).
  unfold set_heap. simpl. by rewrite app_assoc.
Qed.

Lemma allocated_lookup w w' r o :
  allocated w w' -> heap w !! r = Some o -> heap w' !! r = Some o.
Proof. intros [e ->] Hr. simpl. by apply lookup_app_l_Some. Qed.

Lemma transform_run (f : obj -> outcome obj) (r : ref) (o : obj) (w : World) :
  heap w !! r = Some o ->
  transform f r w =
    match f o with
    | Ok o' => (Ok (length (heap w)), set_heap (heap w ++ [o']) w)
    | Raise e => (Raise e, w)
    end.
Proof.
  intros Hr. unfold transform, bind, load, lift, alloc. rewrite Hr.
  by destruct (f o).
Qed.

(** A stage that is either skipped or a [transform]. *)
Lemma stage_run (b : bool) (f : obj -> outcome obj) (r : ref) (o : obj) (w : World) :
  heap w !! r = Some o ->
  exists w', allocated w w' /\
    match (if b then f o else Ok o) with
    | Ok o' => exists r', (if b then transform f r else ret r) w = (Ok r', w')
                          /\ heap w' !! r' = Some o'
    | Raise e => (if b then transform f r else ret r) w = (Raise e, w')
    end.
Proof.
  intros Hr. destruct b.
  - rewrite (transform_run _ _ _ _ Hr). destruct (f o) as [o'|e].
    + eexists. split; [by exists [o'] |].
      eexists. split; [done |]. simpl. by apply list_lookup_middle.
    + exists w. split; [apply allocated_refl | done].
  - exists w. split; [apply allocated_refl |]. by exists r.
Qed.

Lemma bind_Ok {A B} (x : M A) (f : A -> M B) (w w' : World) (a : A) :
  x w = (Ok a, w') -> bind x f w = f a w'.
Proof. unfold bind. by intros ->. Qed.

Lemma bind_Raise {A B} (x : M A) (f : A -> M B) (w w' : World) (e : exn) :
  x w = (Raise e, w') -> bind x f w = (Raise e, w').
Proof. unfold bind. by intros ->. Qed.

(** [finish] computes [post_processed] and only allocates. *)
Lemma finish_run match_series remove_outliers max_lag (r : ref) (o : obj) (w : World) :
  heap w !! r = Some o ->
  exists res w',
    finish match_series remove_outliers max_lag r w = (res, w') /\
    allocated w w' /\
    returned (res, w') =
      match post_processed match_series remove_outliers max_lag o with
      | Ok o' => Ok (Some o')
      | Raise e => Raise e
      end.
Proof.
  intros Hr.
  unfold finish, post_processed, outliers_removed, returned.
  destruct (stage_run match_series (fun o => synchronize o max_lag true) r o w Hr)
    as (w1 & Hw1 & Hs1).
  destruct (if match_series then synchronize o max_lag true else Ok o) as [o1|e1];
    simpl obind; cycle 1.
  { rewrite (bind_Raise _ _ _ _ _ Hs1). by eexists _, _. }
  destruct Hs1 as (r1 & Hs1 & Hr1). rewrite (bind_Ok _ _ _ _ _ Hs1).
  destruct (truthy_opt remove_outliers); cycle 1.
  { eexists _, _. split; [done |]. split; [done |]. simpl. by rewrite Hr1. }
  set (mode := lower (str_opt remove_outliers)).
  destruct (stage_run (bool_decide (mode = "zscore")) (fun o => remove o 0) r1 o1 w1 Hr1)
    as (w2 & Hw2 & Hs2).
  destruct (if bool_decide (mode = "zscore") then remove o1 0 else Ok o1) as [o2|e2];
    simpl obind; cycle 1.
  { rewrite (bind_Raise _ _ _ _ _ (bind_Raise _ _ _ _ _ Hs2)).
    eexists _, _. split; [done |]. split; [by eapply allocated_trans | done]. }
  destruct Hs2 as (r2 & Hs2 & Hr2).
  destruct (stage_run (bool_decide (mode = "mad")) (fun o => remove o 1) r2 o2 w2 Hr2)
    as (w3 & Hw3 & Hs3).
  destruct (if bool_decide (mode = "mad") then remove o2 1 else Ok o2) as [o3|e3].
  - destruct Hs3 as (r3 & Hs3 & Hr3).
    rewrite (bind_Ok _ _ _ _ _ (eq_trans (bind_Ok _ _ _ _ _ Hs2) Hs3)).
    eexists _, _. split; [done |]. split; [eauto using allocated_trans |].
    simpl. by rewrite Hr3.
  - rewrite (bind_Raise _ _ _ _ _ (eq_trans (bind_Ok _ _ _ _ _ Hs2) Hs3)).
    eexists _, _. split; [done |]. split; [eauto using allocated_trans | done].
Qed.

Lemma unavailable_false (name : string) (w : World) :
  unavailable name w = false ->
  exists src, sources w !! name = Some src /\ DataCollector.client src <> None.
Proof.
  unfold unavailable. destruct (sources w !! name) as [src|]; [| done].
  destruct (DataCollector.client src) eqn:Hc; [| done].
  intros _. exists src. by rewrite Hc.
Qed.

(** An unavailable datasource: [None], and nothing happens. *)
Lemma retrieve_unavailable (q : request) (w : World) :
  unavailable (datasource q) w = true -> retrieve q w = (Ok None, w).
Proof.
  intros Hd. unfold retrieve, retrieve_data, bind, gets. by rewrite Hd.
Qed.

(** An available datasource: a hit finishes on the cached object; a miss,
    or a disabled cache, calls the collector, and finishes on its frame. *)
Lemma retrieve_available (q : request) (src : DataCollector.t) (w : World) :
  unavailable (datasource q) w = false ->
  sources w !! datasource q = Some src ->
  retrieve q w =
    match (if enable_cache w then data_cache w !! fingerprint q else None) with
    | Some r => finish (match_series q) (remove_outliers q) (max_lag q) r w
    | None =>
        match (collected src q).1 with
        | Ok df => finish (match_series q) (remove_outliers q) (max_lag q)
                          (length (heap w)) (fetched q df (collected src q).2 w)
        | Raise e => (Raise e, set_sent (sent w ++ (collected src q).2) w)
        end
    end.
Proof.
  intros Hd Hsrc.
  unfold retrieve, retrieve_data. fold (fingerprint q).
  fold (finish (match_series q) (remove_outliers q) (max_lag q)).
  unfold bind at 1. unfold gets at 1. rewrite Hd.
  unfold bind at 1. unfold gets at 1.
  unfold fetched, collected, fetch, source, call, alloc, modify, bind, gets, ret.
  destruct (enable_cache w) eqn:Hen; simpl.
  - destruct (data_cache w !! fingerprint q) as [r|] eqn:Hk; [done |].
    rewrite Hsrc. simpl.
    destruct (DataCollector.get_data _ _ _ _ _ _ _ _ _ _ _) as [[df|e] sq]; simpl;
      unfold set_cache, set_heap, set_sent; simpl; by rewrite ?Hen.
  - rewrite Hsrc. simpl.
    destruct (DataCollector.get_data _ _ _ _ _ _ _ _ _ _ _) as [[df|e] sq]; simpl;
      unfold set_cache, set_heap, set_sent; simpl; by rewrite ?Hen.
Qed.

(** A cache hit: the cached object is post-processed again; no query
    goes out and the cache stays as it is. *)
Lemma retrieve_hit (q : request) (w : World) (r : ref) (o : obj) :
  unavailable (datasource q) w = false ->
  enable_cache w = true ->
  data_cache w !! fingerprint q = Some r ->
  heap w !! r = Some o ->
  allocated w (retrieve q w).2 /\
  returned (retrieve q w) =
    match post_processed (match_series q) (remove_outliers q) (max_lag q) o with
    | Ok o' => Ok (Some o')
    | Raise e => Raise e
    end.
Proof.
  intros Hd Hen Hk Hr.
  destruct (unavailable_false _ _ Hd) as (src & Hsrc & _).
  rewrite (retrieve_available q src w Hd Hsrc), Hen, Hk.
  destruct (finish_run (match_series q) (remove_outliers q) (max_lag q) r o w Hr)
    as (res & w' & -> & Ha & Hv).
  done.
Qed.

(** A retrieval that does not find its fingerprint in the cache (or runs
    with the cache disabled) calls the collector: the collector's Flux
    texts go out, the caller gets the post-processed frame, and the frame
    as fetched is the object the cache is given. *)
Lemma retrieve_miss (q : request) (src : DataCollector.t) (w : World) :
  unavailable (datasource q) w = false ->
  sources w !! datasource q = Some src ->
  (if enable_cache w then data_cache w !! fingerprint q else None) = None ->
  returned (retrieve q w) = recomputed src q /\
  match (collected src q).1 with
  | Ok df => allocated (fetched q df (collected src q).2 w) (retrieve q w).2
  | Raise e => (retrieve q w).2 = set_sent (sent w ++ (collected src q).2) w
  end.
Proof.
  intros Hd Hsrc Hk.
  rewrite (retrieve_available q src w Hd Hsrc), Hk.
  unfold recomputed.
  destruct (collected src q).1 as [df|e]; [| done].
  assert (heap (fetched q df (collected src q).2 w) !! length (heap w) = Some (OFrame df))
    as Hr by (simpl; by apply list_lookup_middle).
  destruct (finish_run (match_series q) (remove_outliers q) (max_lag q) _ _ _ Hr)
    as (res & w' & -> & Ha & Hv).
  done.
Qed.

Lemma allocated_fields (w w' : World) :
  allocated w w' ->
  sources w' = sources w /\ data_cache w' = data_cache w /\
  enable_cache w' = enable_cache w /\ sent w' = sent w /\
  exists extra, heap w' = heap w ++ extra.
Proof. intros [extra ->]. simpl. eauto 10. Qed.

End retrieval.

(** ** The cache is a memoisation layer *)

Section cache.
Context `{!Builtins, !Conversions, !Collaborators}.

Lemma unavailable_set_enable_cache (name : string) (flag : bool) (w : World) :
  unavailable name (set_enable_cache flag w) = unavailable name w.
Proof. reflexivity. Qed.

Lemma unavailable_set_cache (name : string) (c : gmap string ref) (w : World) :
  unavailable name (set_cache c w) = unavailable name w.
Proof. reflexivity. Qed.

(** With the flag unset a retrieval is the collector call, whatever the
    cache holds, and the cache is left as it was. *)
Lemma retrieve_disabled (q : request) (src : DataCollector.t) (w : World) :
  unavailable (datasource q) w = false ->
  sources w !! datasource q = Some src ->
  enable_cache w = false ->
  returned (retrieve q w) = recomputed src q /\
  data_cache (retrieve q w).2 = data_cache w /\
  sent (retrieve q w).2 = sent w ++ (collected src q).2.
Proof.
  intros Hd Hsrc Hen.
  destruct (retrieve_miss q src w Hd Hsrc) as [Hv Hw]; [by rewrite Hen |].
  split; [done |].
  destruct (collected src q).1 as [df|e].
  - destruct (allocated_fields _ _ Hw) as (_ & -> & _ & -> & _).
    simpl. by rewrite Hen.
  - by rewrite Hw.
Qed.

(** With the flag set and no entry under the fingerprint, likewise; the
    fetched frame becomes the entry. *)
Lemma retrieve_enabled_miss (q : request) (src : DataCollector.t) (w : World) :
  unavailable (datasource q) w = false ->
  sources w !! datasource q = Some src ->
  enable_cache w = true ->
  data_cache w !! fingerprint q = None ->
  returned (retrieve q w) = recomputed src q /\
  sent (retrieve q w).2 = sent w ++ (collected src q).2.
Proof.
  intros Hd Hsrc Hen Hk.
  destruct (retrieve_miss q src w Hd Hsrc) as [Hv Hw]; [by rewrite Hen |].
  split; [done |].
  destruct (collected src q).1 as [df|e].
  - by destruct (allocated_fields _ _ Hw) as (_ & _ & _ & -> & _).
  - by rewrite Hw.
Qed.

End cache.

(** Where the cache holds nothing under the request's fingerprint (as at
    startup, or after a purge) or holds the frame the collector returns for
    this request, one retrieval hands the caller the same object with the
    cache-enable flag set as with the flag unset.  With the flag unset the
    cache is neither read (the outcome is the same whatever the cache holds)
    nor written (the cache afterwards is the cache before). *)
Lemma transparency_of_fetched_entries `{!Builtins, !Conversions, !Collaborators}
    (q : request) (w : World) :
  (forall r : ref,
     data_cache w !! fingerprint q = Some r ->
     exists (src : DataCollector.t) (df : DataFrame),
       sources w !! datasource q = Some src /\
       (collected src q).1 = Ok df /\
       heap w !! r = Some (OFrame df)) ->
  returned (retrieve q (set_enable_cache true w))
  = returned (retrieve q (set_enable_cache false w)) /\
  forall c : gmap string ref,
    returned (retrieve q (set_cache c (set_enable_cache false w)))
    = returned (retrieve q (set_enable_cache false w)) /\
    data_cache (retrieve q (set_cache c (set_enable_cache false w))).2 = c.
Proof.
  intros Hentry.
  destruct (unavailable (datasource q) w) eqn:Hd.
  { rewrite !retrieve_unavailable by done.
    split; [done |]. intros c. by rewrite retrieve_unavailable. }
  destruct (unavailable_false _ _ Hd) as (src & Hsrc & _).
  destruct (retrieve_disabled q src (set_enable_cache false w)) as (Hoff & _ & _);
    [done .. |].
  split.
  - rewrite Hoff. destruct (data_cache w !! fingerprint q) as [r|] eqn:Hk.
    + destruct (Hentry r eq_refl) as (src' & df & Hsrc' & Hdf & Hr).
      assert (src' = src) as -> by congruence.
      destruct (retrieve_hit q (set_enable_cache true w) r (OFrame df)) as [_ ->];
        [done .. |].
      unfold recomputed. by rewrite Hdf.
    + by destruct (retrieve_enabled_miss q src (set_enable_cache true w)) as [-> _].
  - intros c.
    destruct (retrieve_disabled q src (set_cache c (set_enable_cache false w)))
      as (Hc & Hcc & _); [done .. |].
    split; [by rewrite Hc, Hoff | done].
Qed.

(** [purge_cache] leaves the cache empty, and the next retrieval calls the
    collector again: its Flux texts go out once more, and the caller gets the
    frame computed afresh, whatever the purged entry held. *)
Lemma retrieve_after_purge `{!Builtins, !Conversions, !Collaborators}
    (q : request) (src : DataCollector.t) (w : World) :
  sources w !! datasource q = Some src ->
  DataCollector.client src <> None ->
  enable_cache w = true ->
  data_cache (purge_cache w).2 = ∅ /\
  sent (retrieve q (purge_cache w).2).2 = sent w ++ (collected src q).2 /\
  returned (retrieve q (purge_cache w).2) = recomputed src q.
Proof.
  intros Hs Hc Hen.
  assert (unavailable (datasource q) (purge_cache w).2 = false) as Hav.
  { unfold unavailable. simpl. rewrite Hs. by destruct (DataCollector.client src). }
  split; [done |].
  destruct (retrieve_enabled_miss q src (purge_cache w).2) as [Hv Hsent]; done.
Qed.

(** ** What the cache holds *)

Section invariant.
Context `{!Builtins, !Conversions, !Collaborators}.

Lemma cache_holds_fetched_allocated (w w' : World) :
  allocated w w' -> cache_holds_fetched w -> cache_holds_fetched w'.
Proof.
  intros Ha Inv k r Hk.
  destruct (allocated_fields _ _ Ha) as (Hs & Hc & _ & _ & _).
  rewrite Hc in Hk. destruct (Inv k r Hk) as (q & src & df & Hq & Hsrc & Hdf & Hr).
  exists q, src, df. rewrite Hs. eauto using allocated_lookup.
Qed.

Lemma cache_holds_fetched_fetched (q : request) (src : DataCollector.t)
    (df : DataFrame) (w : World) :
  sources w !! datasource q = Some src ->
  (collected src q).1 = Ok df ->
  cache_holds_fetched w ->
  cache_holds_fetched (fetched q df (collected src q).2 w).
Proof.
  intros Hsrc Hdf Inv k r Hk. simpl in *.
  assert (data_cache w !! k = Some r -> exists q' src' df',
            fingerprint q' = k /\ sources w !! datasource q' = Some src' /\
            (collected src' q').1 = Ok df' /\
            (heap w ++ [OFrame df]) !! r = Some (OFrame df')) as Hold.
  { intros Hk'. destruct (Inv k r Hk') as (q' & src' & df' & ? & ? & ? & Hr).
    exists q', src', df'. eauto using lookup_app_l_Some. }
  destruct (enable_cache w); [| by apply Hold].
  destruct (decide (fingerprint q = k)) as [<- | Hne].
  - rewrite lookup_insert_eq in Hk. injection Hk as <-.
    exists q, src, df. eauto using list_lookup_middle.
  - rewrite lookup_insert_ne in Hk by done. by apply Hold.
Qed.

Lemma retrieve_keeps_invariant (q : request) (w : World) :
  cache_holds_fetched w -> cache_holds_fetched (retrieve q w).2.
Proof.
  intros Inv.
  destruct (unavailable (datasource q) w) eqn:Hd.
  { by rewrite retrieve_unavailable. }
  destruct (unavailable_false _ _ Hd) as (src & Hsrc & _).
  destruct (if enable_cache w then data_cache w !! fingerprint q else None)
    as [r|] eqn:Hk.
  - destruct (enable_cache w) eqn:Hen; [| done].
    destruct (Inv _ _ Hk) as (q' & src' & df & _ & _ & _ & Hr).
    destruct (retrieve_hit q w r _ Hd Hen Hk Hr) as [Ha _].
    by eapply cache_holds_fetched_allocated.
  - destruct (retrieve_miss q src w Hd Hsrc Hk) as [_ Hw].
    destruct (collected src q).1 as [df|e] eqn:Hdf.
    + eapply cache_holds_fetched_allocated; [done |].
      by apply cache_holds_fetched_fetched.
    + rewrite Hw. intros k r Hkr. apply (Inv k r Hkr).
Qed.

Lemma after_keeps_invariant (c : action) (w : World) :
  cache_holds_fetched w -> cache_holds_fetched (after c w).
Proof.
  destruct c as [q|]; simpl.
  - apply retrieve_keeps_invariant.
  - intros _ k r Hk. simpl in Hk. by rewrite lookup_empty in Hk.
Qed.

Lemma after_all_keeps_invariant (cs : list action) (w : World) :
  cache_holds_fetched w -> cache_holds_fetched (after_all cs w).
Proof.
  revert w. induction cs as [|c cs IH]; intros w Inv; [done |].
  simpl. apply IH. by apply after_keeps_invariant.
Qed.

(** A miss with the cache enabled: the frame as fetched becomes the entry,
    whatever post-processing then does, and the caller gets that frame
    post-processed. *)
Lemma retrieve_stores (q : request) (src : DataCollector.t) (df : DataFrame) (w : World) :
  sources w !! datasource q = Some src ->
  DataCollector.client src <> None ->
  enable_cache w = true ->
  data_cache w !! fingerprint q = None ->
  (collected src q).1 = Ok df ->
  exists r,
    data_cache (retrieve q w).2 = <[fingerprint q := r]> (data_cache w) /\
    heap (retrieve q w).2 !! r = Some (OFrame df) /\
    returned (retrieve q w) =
      match post_processed (match_series q) (remove_outliers q) (max_lag q) (OFrame df) with
      | Ok o' => Ok (Some o')
      | Raise e => Raise e
      end.
Proof.
  intros Hsrc Hc Hen Hk Hdf.
  assert (unavailable (datasource q) w = false) as Hd.
  { unfold unavailable. rewrite Hsrc. by destruct (DataCollector.client src). }
  destruct (retrieve_miss q src w Hd Hsrc) as [Hv Hw]; [by rewrite Hen |].
  unfold recomputed in Hv. rewrite Hdf in Hv, Hw.
  exists (length (heap w)).
  destruct (allocated_fields _ _ Hw) as (_ & -> & _ & _ & _).
  split; [simpl; by rewrite Hen |]. split; [| done].
  apply (allocated_lookup _ _ _ _ Hw). simpl. by apply list_lookup_middle.
Qed.

End invariant.

(** C3, as the code has it.  After any sequence of [retrieve_data] calls
    and purges since startup, every entry of the cache is the frame the
    collector returned for a request with that fingerprint, as fetched.  On
    a miss the fetched frame is stored before synchronisation and outlier
    removal run (and stays stored if they raise); these are applied after
    the cache lookup, on hits and misses alike, to what the caller gets:
    on a hit to the entry, on a miss to the fetched frame. *)
Theorem cache_entries_are_fetched_frames `{!Builtins, !Conversions, !Collaborators}
    (srcs : gmap string DataCollector.t) (flag : bool) (cs : list action) :
  cache_holds_fetched (after_all cs (startup srcs flag)) /\
  (forall (q : request) (r : ref) (o : obj),
    unavailable (datasource q) (after_all cs (startup srcs flag)) = false ->
    enable_cache (after_all cs (startup srcs flag)) = true ->
    data_cache (after_all cs (startup srcs flag)) !! fingerprint q = Some r ->
    heap (after_all cs (startup srcs flag)) !! r = Some o ->
    returned (retrieve q (after_all cs (startup srcs flag))) =
      match post_processed (match_series q) (remove_outliers q) (max_lag q) o with
      | Ok o' => Ok (Some o')
      | Raise e => Raise e
      end) /\
  (forall (q : request) (src : DataCollector.t) (df : DataFrame),
    sources (after_all cs (startup srcs flag)) !! datasource q = Some src ->
    DataCollector.client src <> None ->
    enable_cache (after_all cs (startup srcs flag)) = true ->
    data_cache (after_all cs (startup srcs flag)) !! fingerprint q = None ->
    (collected src q).1 = Ok df ->
    exists r : ref,
      data_cache (retrieve q (after_all cs (startup srcs flag))).2
      = <[fingerprint q := r]> (data_cache (after_all cs (startup srcs flag))) /\
      heap (retrieve q (after_all cs (startup srcs flag))).2 !! r = Some (OFrame df) /\
      returned (retrieve q (after_all cs (startup srcs flag))) =
        match post_processed (match_series q) (remove_outliers q) (max_lag q)
                             (OFrame df) with
        | Ok o' => Ok (Some o')
        | Raise e => Raise e
        end).
Proof.
  split; [| split].
  - apply after_all_keeps_invariant.
    intros k r Hk. simpl in Hk. by rewrite lookup_empty in Hk.
  - intros q r o Hd Hen Hk Hr. by apply (retrieve_hit q _ r o).
  - intros q src df. apply retrieve_stores.
Qed.

(** ** The cache on the concrete deployment *)

Section deployment.
#[local] Existing Instances Scenario.builtins Scenario.conversions Scenario.collaborators.

Lemma cache_entries_are_fetched_frames_witness :
  cache_holds_fetched
    (after_all [Retrieve Scenario.filtered; Purge; Retrieve (Scenario.page 0)]
               (startup {[ "uma" := Scenario.uma ]} true)) /\
  exists r : ref,
    data_cache (retrieve Scenario.filtered
                  (after_all [] (startup {[ "uma" := Scenario.uma ]} true))).2
    = <[fingerprint Scenario.filtered := r]>
        (data_cache (after_all [] (startup {[ "uma" := Scenario.uma ]} true))) /\
    heap (retrieve Scenario.filtered
            (after_all [] (startup {[ "uma" := Scenario.uma ]} true))).2 !! r
    = Some (OFrame (Scenario.throughput_series "42"
                      [seconds 1000; seconds 1001; seconds 1002] [10; 12; 11])) /\
    returned (retrieve Scenario.filtered
                (after_all [] (startup {[ "uma" := Scenario.uma ]} true)))
    = match post_processed (match_series Scenario.filtered)
              (remove_outliers Scenario.filtered) (max_lag Scenario.filtered)
              (OFrame (Scenario.throughput_series "42"
                         [seconds 1000; seconds 1001; seconds 1002] [10; 12; 11])) with
      | Ok o' => Ok (Some o')
      | Raise e => Raise e
      end.
Proof.
  split.
  - apply (cache_entries_are_fetched_frames {[ "uma" := Scenario.uma ]} true
             [Retrieve Scenario.filtered; Purge; Retrieve (Scenario.page 0)]).
  - apply (proj2 (proj2 (cache_entries_are_fetched_frames
                           {[ "uma" := Scenario.uma ]} true [])))
      with (src := Scenario.uma);
      [reflexivity | discriminate | reflexivity | reflexivity | vm_compute; reflexivity].
Defined.

(** C4 on the code.  The output of one retrieval does depend on the flag,
    in states the service reaches with unchanged backing data.  After one
    request for the first page of experiment [42], the request for the
    second page returns the first page with the flag set and the second
    page with the flag unset: the two requests share a fingerprint, which
    has no [offset] in it.  After one comparison of experiments [42] and
    [43], the plain request for [42] returns offsets from the first sample
    with the flag set and the stored timestamps with the flag unset: the
    comparison has rebased the cached object in place. *)
Theorem stale_entry_breaks_transparency :
  let first_page := (retrieve (Scenario.page 0) (Scenario.deployment true)).2 in
  let compared := (get_data [] "uma" "42" (Some "43") (Scenario.deployment true)).2 in
  (enable_cache first_page = true /\
   returned (retrieve (Scenario.page 1) (set_enable_cache true first_page))
   = Ok (Some (OFrame (Scenario.throughput_series "42" [seconds 1000] [10]))) /\
   returned (retrieve (Scenario.page 1) (set_enable_cache false first_page))
   = Ok (Some (OFrame (Scenario.throughput_series "42" [seconds 1001] [12]))) /\
   returned (retrieve (Scenario.page 1) (set_enable_cache true first_page))
   <> returned (retrieve (Scenario.page 1) (set_enable_cache false first_page))) /\
  (enable_cache compared = true /\
   returned (retrieve Scenario.plain (set_enable_cache true compared))
   = Ok (Some (reindexed [LDelta 0; LDelta (seconds 1); LDelta (seconds 2)]
                 (Scenario.throughput_series "42"
                    [seconds 1000; seconds 1001; seconds 1002] [10; 12; 11]))) /\
   returned (retrieve Scenario.plain (set_enable_cache false compared))
   = Ok (Some (OFrame (Scenario.throughput_series "42"
                         [seconds 1000; seconds 1001; seconds 1002] [10; 12; 11]))) /\
   returned (retrieve Scenario.plain (set_enable_cache true compared))
   <> returned (retrieve Scenario.plain (set_enable_cache false compared))).
Proof.
  vm_compute.
  split; (split; [reflexivity |]; split; [reflexivity |];
          split; [reflexivity | discriminate]).
Qed.

(** C5 on the code.  The purge empties the cache and the next retrieval
    asks the collector again and returns what it computes afresh; but that
    is not always the value served before the purge, though the backing
    data are the same.  After one request for the first page, the request
    for the second page is served the first page from the cache, and the
    second page once the cache is purged.  After one comparison of
    experiments [42] and [43], the plain request for [42] is served the
    rebased entry, and the stored timestamps once the cache is purged. *)
Theorem purge_changes_the_value_served :
  let first_page := (retrieve (Scenario.page 0) (Scenario.deployment true)).2 in
  let compared := (get_data [] "uma" "42" (Some "43") (Scenario.deployment true)).2 in
  (data_cache first_page !! fingerprint (Scenario.page 1) = Some 0%nat /\
   sent (retrieve (Scenario.page 1) first_page).2 = sent first_page /\
   data_cache (purge_cache first_page).2 = ∅ /\
   sent (retrieve (Scenario.page 1) (purge_cache first_page).2).2
   = sent first_page ++ (collected Scenario.uma (Scenario.page 1)).2 /\
   (collected Scenario.uma (Scenario.page 1)).2 <> [] /\
   returned (retrieve (Scenario.page 1) (purge_cache first_page).2)
   = recomputed Scenario.uma (Scenario.page 1) /\
   returned (retrieve (Scenario.page 1) first_page)
   <> returned (retrieve (Scenario.page 1) (purge_cache first_page).2)) /\
  (data_cache compared !! fingerprint Scenario.plain = Some 0%nat /\
   sent (retrieve Scenario.plain compared).2 = sent compared /\
   data_cache (purge_cache compared).2 = ∅ /\
   sent (retrieve Scenario.plain (purge_cache compared).2).2
   = sent compared ++ (collected Scenario.uma Scenario.plain).2 /\
   (collected Scenario.uma Scenario.plain).2 <> [] /\
   returned (retrieve Scenario.plain (purge_cache compared).2)
   = recomputed Scenario.uma Scenario.plain /\
   returned (retrieve Scenario.plain compared)
   <> returned (retrieve Scenario.plain (purge_cache compared).2)).
Proof.
  vm_compute.
  split; (split; [reflexivity |]; split; [reflexivity |]; split; [reflexivity |];
          split; [reflexivity |]; split; [discriminate |];
          split; [reflexivity | discriminate]).
Qed.

End deployment.

(** C3 as stated fails: with outlier removal requested (here by a filter
    that removes one row, as its contract allows), the entry the cache
    holds under the request's fingerprint is the three fetched rows, while
    the caller is handed the filtered table. *)
Lemma cache_entry_is_not_post_processed :
  let x := @retrieve Scenario.builtins Scenario.conversions Scenario.collaborators
             Scenario.filtered (Scenario.deployment true) in
  exists (r : ref) (entry handed : obj),
    data_cache x.2 !! @fingerprint Scenario.builtins Scenario.filtered = Some r /\
    heap x.2 !! r = Some entry /\
    returned x = Ok (Some handed) /\
    entry <> handed.
Proof.
  vm_compute. eexists _, _, _.
  split; [reflexivity |]. split; [reflexivity |]. split; [reflexivity |].
  discriminate.
Qed.

(** C1 on the code: [offset] is passed to the collector but is no part of
    the fingerprint.  With the cache enabled, the request for the second
    page of experiment [42] has the fingerprint of the request for the
    first page, finds that entry, and is handed the first page; the same
    request computed afresh yields the second page. *)
Theorem offset_is_not_in_the_fingerprint :
  @fingerprint Scenario.builtins (Scenario.page 0)
  = @fingerprint Scenario.builtins (Scenario.page 1) /\
  let first := @retrieve Scenario.builtins Scenario.conversions Scenario.collaborators
                 (Scenario.page 0) (Scenario.deployment true) in
  let second := @retrieve Scenario.builtins Scenario.conversions Scenario.collaborators
                  (Scenario.page 1) first.2 in
  returned second = returned first /\
  returned second <> @recomputed Scenario.builtins Scenario.conversions
                       Scenario.collaborators Scenario.uma (Scenario.page 1) /\
  sent second.2 = sent first.2.
Proof.
  split; [reflexivity |].
  vm_compute. split; [reflexivity |]. split; [discriminate | reflexivity].
Qed.

(** ** The response layer *)

Section responses.
Context `{!Builtins, !Conversions, !Collaborators}.

(** The catalog routes answer an unavailable datasource with 404. *)
Lemma catalog_routes_unavailable (name x : string) (w : World) :
  unavailable name w = true ->
  get_all_executionIds name w = (Ok (not_available name), w) /\
  get_excutionIds name x w = (Ok (not_available name), w) /\
  get_measurements name x w = (Ok (not_available name), w).
Proof.
  intros Hd.
  unfold get_all_executionIds, get_excutionIds, get_measurements, bind, gets.
  by rewrite Hd.
Qed.

(** So does the two-experiment path of [get_data]. *)
Lemma compare_unavailable (q : request) (experimentId2 : string) (w : World) :
  unavailable (datasource q) w = true ->
  compare q experimentId2 w = (Ok (currently_not_available (datasource q)), w).
Proof.
  intros Hd. unfold compare, get_data_compare, rebased_pair.
  fold (retrieve q). unfold bind at 1 2.
  by rewrite (retrieve_unavailable q w Hd).
Qed.

(** The single-experiment path calls [items] on the [None] it gets. *)
Lemma single_unavailable (q : request) (w : World) :
  unavailable (datasource q) w = true ->
  single q w = (Raise AttributeError, w).
Proof.
  intros Hd. unfold single, get_data_single.
  fold (retrieve q). unfold bind at 1.
  by rewrite (retrieve_unavailable q w Hd).
Qed.

(** The single-experiment path on a retrieval that yields no data. *)
Lemma single_no_data (q : request) (w : World) (o : obj) :
  returned (retrieve q w) = Ok (Some o) ->
  no_data o = true ->
  (single q w).1 = Ok (currently_not_available (datasource q)).
Proof.
  intros Hv Ho. unfold single, get_data_single.
  fold (retrieve q). unfold bind at 1. unfold returned in Hv.
  destruct (retrieve q w) as [[[r|]|e] w1]; simpl in Hv; [| done..].
  unfold bind, load.
  destruct (heap w1 !! r) as [o'|]; [| done].
  injection Hv as ->. by rewrite Ho.
Qed.

Lemma responses_differ (name : string) :
  currently_not_available name <> not_available name.
Proof.
  unfold currently_not_available, not_available. intros Heq.
  injection Heq as Heq.
  apply (inj (String.app EmptyString)), (inj (String.app name)) in Heq.
  discriminate.
Qed.

End responses.

(** C6, as the code has it.  On the single-experiment path an empty table
    retrieved from an available datasource is answered with the 404 error
    [Data source <name> is currently not available.]; that is the response
    the two-experiment path gives when the datasource is unavailable.  The
    empty result has no signal of its own; the response is told apart only
    from the [is not available.] of the catalog routes. *)
Theorem empty_result_is_reported_as_unavailable
    `{!Builtins, !Conversions, !Collaborators}
    (q : request) (w : World) (o : obj) :
  unavailable (datasource q) w = false ->
  returned (retrieve q w) = Ok (Some o) ->
  no_data o = true ->
  (single q w).1 = Ok (currently_not_available (datasource q)) /\
  (forall (experimentId2 : string) (w' : World),
     unavailable (datasource q) w' = true ->
     (compare q experimentId2 w').1 = (single q w).1) /\
  currently_not_available (datasource q) <> not_available (datasource q).
Proof.
  intros _ Hv Ho.
  pose proof (single_no_data q w o Hv Ho) as Hs.
  split; [done |]. split; [| apply responses_differ].
  intros e2 w' Hd. by rewrite Hs, compare_unavailable.
Qed.

Lemma empty_result_is_reported_as_unavailable_witness :
  unavailable "uma" (Scenario.deployment true) = false /\
  no_data (OFrame empty_frame) = true /\
  (@single Scenario.builtins Scenario.conversions Scenario.collaborators
     Scenario.nothing (Scenario.deployment true)).1
  = Ok (currently_not_available "uma").
Proof.
  split; [reflexivity |]. split; [reflexivity |].
  apply (@empty_result_is_reported_as_unavailable
           Scenario.builtins Scenario.conversions Scenario.collaborators
           Scenario.nothing (Scenario.deployment true) (OFrame empty_frame));
    [reflexivity | vm_compute; reflexivity | reflexivity].
Defined.

(** C6 as stated fails: the response to an empty table from the available
    datasource [uma] (single-experiment path) is the response to the same
    datasource when it is not configured (two-experiment path). *)
Lemma empty_and_unavailable_share_a_response :
  unavailable "uma" (Scenario.deployment true) = false /\
  @returned (@retrieve Scenario.builtins Scenario.conversions Scenario.collaborators
               Scenario.nothing (Scenario.deployment true))
  = Ok (Some (OFrame empty_frame)) /\
  unavailable "uma" (startup ∅ true) = true /\
  (@get_data Scenario.builtins Scenario.conversions Scenario.collaborators
     [("measurement", "Nothing_Measured")] "uma" "42" None (Scenario.deployment true)).1
  = (@get_data Scenario.builtins Scenario.conversions Scenario.collaborators
       [("measurement", "Nothing_Measured")] "uma" "42" (Some "43") (startup ∅ true)).1.
Proof.
  split; [reflexivity |]. split; [vm_compute; reflexivity |].
  split; [reflexivity |]. vm_compute. reflexivity.
Qed.

(** C7 on the code: for a datasource that is not configured, the
    single-experiment path of the [get_data] route raises: [retrieve_data]
    returns [None], neither test of the emptiness check applies to it, and
    [data.items()] is an [AttributeError].  No response is produced. *)
Theorem single_experiment_path_raises `{!Builtins, !Conversions, !Collaborators}
    (name experimentId1 : string) (flag : bool) :
  get_data [] name experimentId1 None (startup ∅ flag)
  = (Raise AttributeError, startup ∅ flag).
Proof.
  unfold get_data. simpl.
  do 3 (erewrite bind_Ok; [| reflexivity]).
  apply (single_unavailable
           (mkRequest name experimentId1 [] [] false None None false 10000
                      ArgNone ArgNone "1s")).
  unfold unavailable. simpl. by rewrite lookup_empty.
Qed.

(** ** The collector *)

Section collector.
Context `{!Builtins, !Conversions}.
Variable self : DataCollector.t.

Import DataCollector.

Lemma io_bind_Ok {A B} (x : io A) (f : A -> io B) (a : A) :
  x.1 = Ok a -> (bind x f).1 = (f a).1 /\ (bind x f).2 = x.2 ++ (f a).2.
Proof. unfold bind. by intros ->. Qed.

Lemma io_bind_Raise {A B} (x : io A) (f : A -> io B) (e : exn) :
  x.1 = Raise e -> (bind x f).1 = Raise e /\ (bind x f).2 = x.2.
Proof. unfold bind. by intros ->. Qed.

(** A query sends its text, and nothing else. *)
Lemma _query_df_sent (flux : string) : (_query_df self flux).2 = [flux].
Proof.
  unfold _query_df, bind. simpl.
  destruct (query_data_frame self flux (org self)) as [[df|l]|e]; simpl; try done.
  by destruct (filter _ l).
Qed.

Lemma has_column_column (c : string) (df : DataFrame) :
  has_column c df = true -> exists col, column c df = Ok col.
Proof.
  unfold has_column, column, column_names. intros Hc%bool_decide_eq_true.
  induction (columns df) as [|[k v] l IH]; simpl in *.
  - by apply elem_of_nil in Hc.
  - destruct (decide (k = c)) as [->|Hne]; [by eexists |].
    apply IH. apply elem_of_cons in Hc as [?|?]; [congruence | done].
Qed.

(** One pass of the loop over the tag names adds the reply's values. *)
Lemma collect_values_Ok (flux : string) (ids : gset string) (df : DataFrame) :
  (_query_df self flux).1 = Ok df ->
  (collect_values self flux ids).1 = Ok (ids ∪ list_to_set (tag_values df)).
Proof.
  intros Hq. unfold collect_values, tag_values.
  rewrite (proj1 (io_bind_Ok _ _ _ Hq)).
  destruct (negb (empty df) && has_column "_value" df) eqn:Hc.
  - apply andb_prop in Hc as [_ Hc].
    destruct (has_column_column _ _ Hc) as [col Hcol]. rewrite Hcol. done.
  - simpl. f_equal. by rewrite (right_id_L ∅ (∪)).
Qed.

Lemma for_both_tags (flux_of : string -> string) (df1 df2 : DataFrame) :
  (_query_df self (flux_of "ExperimentId")).1 = Ok df1 ->
  (_query_df self (flux_of "ExecutionId")).1 = Ok df2 ->
  (for_each_tag self flux_of legacy_tags ∅).1
  = Ok (list_to_set (tag_values df1) ∪ list_to_set (tag_values df2)).
Proof.
  intros Hq1 Hq2. simpl.
  rewrite (proj1 (io_bind_Ok _ _ _ (collect_values_Ok _ ∅ _ Hq1))).
  rewrite (proj1 (io_bind_Ok _ _ _ (collect_values_Ok _ _ _ Hq2))).
  simpl. f_equal. by rewrite (left_id_L ∅ (∪)).
Qed.

Lemma empty_tag_values (df : DataFrame) : empty df = true -> tag_values df = [].
Proof. unfold tag_values. by intros ->. Qed.

Lemma get_all_experimentIds_Ok (df1 df2 : DataFrame) :
  (_query_df self (tag_values_flux self "ExperimentId")).1 = Ok df1 ->
  (_query_df self (tag_values_flux self "ExecutionId")).1 = Ok df2 ->
  (get_all_experimentIds self).1
  = Ok (sorted (elements (list_to_set (tag_values df1) ∪ list_to_set (tag_values df2)
                          : gset string))).
Proof.
  intros Hq1 Hq2. unfold get_all_experimentIds.
  by rewrite (proj1 (io_bind_Ok _ _ _ (for_both_tags (tag_values_flux self) _ _ Hq1 Hq2))).
Qed.

Lemma get_experimentIds_for_measurement_Ok (measurement : string) (df1 df2 : DataFrame) :
  (_query_df self (tag_values_for_measurement_flux self "ExperimentId" measurement)).1
  = Ok df1 ->
  (_query_df self (tag_values_for_measurement_flux self "ExecutionId" measurement)).1
  = Ok df2 ->
  (get_experimentIds_for_measurement self measurement).1
  = Ok (sorted (elements (list_to_set (tag_values df1) ∪ list_to_set (tag_values df2)
                          : gset string))).
Proof.
  intros Hq1 Hq2. unfold get_experimentIds_for_measurement.
  by rewrite (proj1 (io_bind_Ok _ _ _
                       (for_both_tags (fun tag => tag_values_for_measurement_flux self tag measurement)
                                      _ _ Hq1 Hq2))).
Qed.

Lemma get_measurements_for_experimentId_Ok (experimentId start : string) (df : DataFrame) :
  (_query_df self (measurements_flux self experimentId start)).1 = Ok df ->
  (get_measurements_for_experimentId self experimentId start).1
  = if empty df then Ok []
    else if has_column "_measurement" df || has_column "_value" df
         then Ok (sorted (unique (listed_measurements df)))
         else Raise KeyError.
Proof.
  intros Hq. unfold get_measurements_for_experimentId, listed_measurements.
  rewrite (proj1 (io_bind_Ok _ _ _ Hq)).
  destruct (empty df); [done |].
  destruct (has_column "_measurement" df) eqn:Hm; simpl.
  - destruct (has_column_column _ _ Hm) as [col Hcol]. unfold bind, lift. simpl.
    by rewrite Hcol.
  - destruct (has_column "_value" df) eqn:Hv.
    + destruct (has_column_column _ _ Hv) as [col Hcol]. unfold bind, lift. simpl.
      by rewrite Hcol.
    + unfold bind, lift, column. simpl.
      destruct (assoc "_value" (columns df)) as [col|] eqn:Hcol; [| done].
      exfalso. revert Hv Hcol. unfold has_column, column_names.
      intros Hv%bool_decide_eq_false Hcol. apply Hv. clear Hv.
      induction (columns df) as [|[k v] l IH]; simpl in *; [done |].
      destruct (decide (k = "_value")) as [->|Hne]; [left | right; by apply IH].
Qed.

End collector.

(** ** What [_query_df] makes of a reply *)

Section replies.
Context `{!Conversions}.

Lemma unique_nil_inv (l : list string) : unique l = [] -> l = [].
Proof.
  unfold unique. destruct l as [|x l]; [done |]. cbn [unique_from].
  by rewrite bool_decide_eq_false_2 by apply not_elem_of_nil.
Qed.

Lemma elem_of_unique (l : list string) (x : string) : x ∈ unique l <-> x ∈ l.
Proof.
  unfold unique. destruct (unique_from_spec [] l) as [_ Hin].
  rewrite Hin. split; [by intros [? _] | intros Hx; split; [done | apply not_elem_of_nil]].
Qed.

Lemma assoc_None {A} (c : string) (l : list (string * A)) :
  assoc c l = None <-> c ∉ l.*1.
Proof.
  induction l as [|[k v] l IH]; simpl.
  - split; [intros _; apply not_elem_of_nil | done].
  - destruct (decide (k = c)) as [->|Hne].
    + split; [done | intros Hc; destruct Hc; left].
    + rewrite IH, not_elem_of_cons. split; [by intros ? | by intros [_ ?]].
Qed.

Lemma has_column_assoc (c : string) (t : DataFrame) :
  has_column c t = false <-> assoc c (columns t) = None.
Proof.
  unfold has_column, column_names. rewrite bool_decide_eq_false. by rewrite assoc_None.
Qed.

Lemma assoc_named {A} (c : string) (f : string -> A) (names : list string) :
  assoc c ((fun c => (c, f c)) <$> names) = if bool_decide (c ∈ names) then Some (f c) else None.
Proof.
  induction names as [|k names IH]; cbn [fmap list_fmap assoc].
  - by rewrite bool_decide_eq_false_2 by apply not_elem_of_nil.
  - destruct (decide (k = c)) as [->|Hne].
    + by rewrite bool_decide_eq_true_2 by left.
    + rewrite IH. apply (f_equal (fun b : bool => if b then Some (f c) else None)).
      apply bool_decide_ext. rewrite elem_of_cons. split; [by right | by intros [?|?]].
Qed.

Lemma dropna_nulls (n : nat) : filter (fun c => c <> CNull) (replicate n CNull) = [].
Proof.
  induction n as [|n IH]; [done |].
  cbn [replicate]. by rewrite filter_cons_False by (by intros ?).
Qed.

(** The column [c] of appended tables holds the values the tables hold
    under [c], table after table. *)
Lemma padded_values (c : string) (l : list DataFrame) :
  astype_str (dropna (l ≫= padded_column c)) = l ≫= values_in c.
Proof.
  unfold astype_str, dropna. induction l as [|t l IH]; [done |].
  cbn [mbind list_bind]. rewrite filter_app, fmap_app. f_equal; [| exact IH].
  unfold padded_column, values_in, astype_str, dropna.
  destruct (assoc c (columns t)) as [col|]; [done |]. by rewrite dropna_nulls.
Qed.

Lemma no_column_no_values (c : string) (l : list DataFrame) :
  c ∉ l ≫= column_names -> l ≫= values_in c = [].
Proof.
  induction l as [|t l IH]; [done |].
  cbn [mbind list_bind]. fold (l ≫= column_names). fold (l ≫= values_in c).
  rewrite not_elem_of_app. intros [Ht Hl]. rewrite (IH Hl), app_nil_r.
  unfold values_in. by rewrite (proj2 (assoc_None c (columns t)) Ht).
Qed.

Lemma existsb_has_column (c : string) (l : list DataFrame) :
  existsb (has_column c) l = bool_decide (c ∈ l ≫= column_names).
Proof.
  induction l as [|t l IH]; cbn [existsb mbind list_bind].
  - by rewrite bool_decide_eq_false_2 by apply not_elem_of_nil.
  - fold (l ≫= column_names). rewrite IH. unfold has_column.
    destruct (bool_decide (c ∈ column_names t)) eqn:Ht; simpl.
    + apply bool_decide_eq_true in Ht. symmetry. apply bool_decide_eq_true.
      apply elem_of_app. by left.
    + apply bool_decide_eq_false in Ht. apply bool_decide_ext.
      rewrite elem_of_app. split; [by right | by intros [?|?]].
Qed.

(** Appending tables of which the first has rows and columns gives a frame
    with rows and columns, whose columns are those of the tables. *)
Lemma concat_rows_cons (t : DataFrame) (ts : list DataFrame) :
  empty t = false ->
  exists df, concat_rows (t :: ts) = Ok df /\ empty df = false /\
    forall c, has_column c df = existsb (has_column c) (t :: ts) /\
              values_in c df = (t :: ts) ≫= values_in c.
Proof.
  intros Ht. eexists. split; [reflexivity |]. split.
  - unfold empty in *. apply orb_false_elim in Ht as [Hi Hc].
    apply Nat.eqb_neq in Hi. apply Nat.eqb_neq in Hc.
    cbn [index columns]. rewrite !length_fmap, length_seqZ.
    apply orb_false_intro; apply Nat.eqb_neq.
    + cbn [mbind list_bind]. rewrite length_app, Nat2Z.id. lia.
    + intros Hu. apply Hc. apply length_zero_iff_nil in Hu.
      apply unique_nil_inv in Hu. cbn [mbind list_bind] in Hu.
      apply app_eq_nil in Hu as [Hn _]. unfold column_names in Hn.
      apply fmap_nil_inv in Hn. by rewrite Hn.
  - intros c. set (l := t :: ts).
    assert (column_names (mkFrame (LInt <$> seqZ 0 (Z.of_nat (length (l ≫= index))))
                                  ((fun c => (c, l ≫= padded_column c))
                                     <$> unique (l ≫= column_names)))
            = unique (l ≫= column_names)) as Hnames.
    { unfold column_names. cbn [columns]. rewrite <- list_fmap_compose.
      apply list_fmap_id. }
    split.
    + rewrite existsb_has_column. unfold has_column. rewrite Hnames.
      apply bool_decide_ext, elem_of_unique.
    + unfold values_in at 1. cbn [columns]. rewrite assoc_named.
      case_bool_decide as Hc.
      * apply padded_values.
      * symmetry. apply no_column_no_values. by rewrite <- elem_of_unique.
Qed.

End replies.

Section query.
Context `{!Builtins, !Conversions}.
Variable self : DataCollector.t.

(** What [_query_df] returns for a reply of the store: a frame that is empty
    exactly when the reply has no table with rows and columns, and that has
    the columns and holds the values of these tables. *)
Lemma _query_df_reply (flux : string) (r : DataCollector.reply) :
  DataCollector.query_data_frame self flux (DataCollector.org self) = Ok r ->
  exists df,
    DataCollector._query_df self flux = (Ok df, [flux]) /\
    (empty df = true <-> tables_of r = []) /\
    forall c, negb (empty df) && has_column c df = existsb (has_column c) (tables_of r) /\
              (if empty df then [] else values_in c df) = reply_values c r.
Proof.
  intros Hq. unfold DataCollector._query_df, DataCollector.bind. rewrite Hq.
  cbn [fst snd]. unfold reply_values, tables_of. destruct r as [df|l].
  - exists df. split; [done |]. rewrite filter_cons, filter_nil.
    destruct (empty df) eqn:He; cbn [negb].
    + rewrite decide_False by (by intros []). done.
    + rewrite decide_True by done. split; [done |]. intros c. cbn.
      by rewrite orb_false_r, app_nil_r.
  - destruct (filter (fun t => negb (empty t)) l) as [|t ts] eqn:Hl.
    { exists empty_frame. done. }
    assert (empty t = false) as Ht.
    { assert (t ∈ filter (fun t => negb (empty t)) l) as Hin by (rewrite Hl; left).
      apply list_elem_of_filter in Hin as [Hin _]. by destruct (empty t). }
    destruct (concat_rows_cons t ts Ht) as (df & Hdf & He & Hcols).
    exists df. unfold DataCollector.lift. rewrite Hdf. split; [done |].
    rewrite He. split; [done |]. intros c. destruct (Hcols c) as [Hh Hv].
    by rewrite Hh, Hv.
Qed.

(** The values a tag-value reply contributes are the values its tables hold
    under [_value]. *)
Lemma tag_values_reply (df : DataFrame) (r : DataCollector.reply) :
  (forall c, negb (empty df) && has_column c df = existsb (has_column c) (tables_of r) /\
             (if empty df then [] else values_in c df) = reply_values c r) ->
  tag_values df = reply_values "_value" r.
Proof.
  intros Hr. destruct (Hr "_value") as [_ <-]. unfold tag_values, values_in, column.
  destruct (empty df); [done |]. cbn [negb andb].
  destruct (has_column "_value" df) eqn:Hc.
  - by destruct (assoc "_value" (columns df)).
  - apply has_column_assoc in Hc. by rewrite Hc.
Qed.

End query.

(** C9.  Each catalog discovery operation, on what the store replies (one
    frame, or a list of tables, of which those without rows or columns are
    left out).  The two experiment-id listings return, in ascending
    lexicographic order and without repetition, exactly the values that the
    replies to the [ExperimentId] query and to the [ExecutionId] query hold
    under [_value]; the measurement listing (one query, filtered on either
    tag) returns so the values its reply holds in the name column.  Replies
    without rows give the empty list, not an error. *)
Theorem catalog_discovery `{!Builtins, !Conversions} (self : DataCollector.t) :
  (forall r1 r2 : DataCollector.reply,
     DataCollector.query_data_frame self (DataCollector.tag_values_flux self "ExperimentId")
       (DataCollector.org self) = Ok r1 ->
     DataCollector.query_data_frame self (DataCollector.tag_values_flux self "ExecutionId")
       (DataCollector.org self) = Ok r2 ->
     exists ids,
       (DataCollector.get_all_experimentIds self).1 = Ok ids /\
       StronglySorted String.le ids /\ NoDup ids /\
       (forall x, x ∈ ids <->
                  x ∈ reply_values "_value" r1 \/ x ∈ reply_values "_value" r2) /\
       (tables_of r1 = [] -> tables_of r2 = [] -> ids = [])) /\
  (forall (measurement : string) (r1 r2 : DataCollector.reply),
     DataCollector.query_data_frame self
       (DataCollector.tag_values_for_measurement_flux self "ExperimentId" measurement)
       (DataCollector.org self) = Ok r1 ->
     DataCollector.query_data_frame self
       (DataCollector.tag_values_for_measurement_flux self "ExecutionId" measurement)
       (DataCollector.org self) = Ok r2 ->
     exists ids,
       (DataCollector.get_experimentIds_for_measurement self measurement).1 = Ok ids /\
       StronglySorted String.le ids /\ NoDup ids /\
       (forall x, x ∈ ids <->
                  x ∈ reply_values "_value" r1 \/ x ∈ reply_values "_value" r2) /\
       (tables_of r1 = [] -> tables_of r2 = [] -> ids = [])) /\
  (forall (experimentId start : string) (r : DataCollector.reply),
     DataCollector.query_data_frame self
       (DataCollector.measurements_flux self experimentId start)
       (DataCollector.org self) = Ok r ->
     tables_of r = [] \/ existsb (has_column (name_column r)) (tables_of r) = true ->
     exists names,
       (DataCollector.get_measurements_for_experimentId self experimentId start).1
       = Ok names /\
       StronglySorted String.le names /\ NoDup names /\
       (forall x, x ∈ names <-> x ∈ reply_values (name_column r) r) /\
       (tables_of r = [] -> names = [])).
Proof.
  assert (forall (flux1 flux2 : string) (r1 r2 : DataCollector.reply),
            DataCollector.query_data_frame self flux1 (DataCollector.org self) = Ok r1 ->
            DataCollector.query_data_frame self flux2 (DataCollector.org self) = Ok r2 ->
            exists d1 d2,
              (DataCollector._query_df self flux1).1 = Ok d1 /\
              (DataCollector._query_df self flux2).1 = Ok d2 /\
              let ids := sorted (elements (list_to_set (tag_values d1)
                                           ∪ list_to_set (tag_values d2) : gset string)) in
              StronglySorted String.le ids /\ NoDup ids /\
              (forall x, x ∈ ids <->
                         x ∈ reply_values "_value" r1 \/ x ∈ reply_values "_value" r2) /\
              (tables_of r1 = [] -> tables_of r2 = [] -> ids = [])) as Hids.
  { intros flux1 flux2 r1 r2 Hq1 Hq2.
    destruct (_query_df_reply self flux1 r1 Hq1) as (d1 & Hd1 & _ & Hc1).
    destruct (_query_df_reply self flux2 r2 Hq2) as (d2 & Hd2 & _ & Hc2).
    exists d1, d2. rewrite Hd1, Hd2. split; [done |]. split; [done |].
    rewrite (tag_values_reply d1 r1 Hc1), (tag_values_reply d2 r2 Hc2).
    destruct (sorted_elements (list_to_set (reply_values "_value" r1)
                               ∪ list_to_set (reply_values "_value" r2)))
      as (Hs & Hn & Hm).
    split; [done |]. split; [done |]. split.
    - intros x. rewrite Hm, elem_of_union, !elem_of_list_to_set. done.
    - unfold reply_values. intros -> ->. simpl.
      rewrite (left_id_L ∅ (∪)), elements_empty. done. }
  split; [| split].
  - intros r1 r2 Hq1 Hq2.
    destruct (Hids _ _ r1 r2 Hq1 Hq2) as (d1 & d2 & Hd1 & Hd2 & Hprops).
    eexists. split; [by apply get_all_experimentIds_Ok |]. apply Hprops.
  - intros measurement r1 r2 Hq1 Hq2.
    destruct (Hids _ _ r1 r2 Hq1 Hq2) as (d1 & d2 & Hd1 & Hd2 & Hprops).
    eexists. split; [by apply get_experimentIds_for_measurement_Ok |]. apply Hprops.
  - intros experimentId start r Hq Hcol.
    destruct (_query_df_reply self _ r Hq) as (df & Hdf & He & Hc).
    rewrite (get_measurements_for_experimentId_Ok self experimentId start df)
      by (by rewrite Hdf).
    destruct (empty df) eqn:Hempty.
    + pose proof (proj1 He eq_refl) as Hnone.
      exists []. unfold reply_values. rewrite Hnone.
      repeat split; try done; constructor.
    + destruct Hcol as [Hnone | Hcol]; [by apply He in Hnone |].
      assert (forall c, has_column c df = existsb (has_column c) (tables_of r)) as Hhas.
      { intros c. by destruct (Hc c) as [<- _]. }
      assert (name_column r
              = if has_column "_measurement" df then "_measurement" else "_value")
        as Hname.
      { unfold name_column. by rewrite Hhas. }
      assert (listed_measurements df = reply_values (name_column r) r) as Hlisted.
      { destruct (Hc (name_column r)) as [_ <-].
        unfold listed_measurements, values_in, column. rewrite <- Hname.
        by destruct (assoc (name_column r) (columns df)). }
      assert (has_column "_measurement" df || has_column "_value" df = true) as ->.
      { rewrite <- Hhas, Hname in Hcol.
        destruct (has_column "_measurement" df); [done | by rewrite Hcol]. }
      destruct (sorted_unique (listed_measurements df)) as (Hs & Hn & Hm).
      eexists. split; [done |]. split; [done |]. split; [done |].
      split; [by rewrite <- Hlisted |].
      intros Hnone. by apply He in Hnone.
Qed.

Lemma catalog_discovery_witness :
  (exists ids,
     (@DataCollector.get_all_experimentIds Scenario.conversions Tabled.src).1 = Ok ids /\
     StronglySorted String.le ids /\ NoDup ids /\
     (forall x, x ∈ ids <->
                x ∈ @reply_values Scenario.conversions "_value" Tabled.ids_reply \/
                x ∈ @reply_values Scenario.conversions "_value" Tabled.more_ids_reply) /\
     (tables_of Tabled.ids_reply = [] -> tables_of Tabled.more_ids_reply = [] ->
      ids = [])) /\
  (exists names,
     (@DataCollector.get_measurements_for_experimentId Scenario.conversions Tabled.src
        "42" "-90d").1 = Ok names /\
     StronglySorted String.le names /\ NoDup names /\
     (forall x, x ∈ names <->
                x ∈ @reply_values Scenario.conversions
                      (name_column Tabled.names_reply) Tabled.names_reply) /\
     (tables_of Tabled.names_reply = [] -> names = [])) /\
  (@DataCollector.get_all_experimentIds Scenario.conversions Tabled.src).1
  = Ok ["42"; "43"; "7"] /\
  (@DataCollector.get_measurements_for_experimentId Scenario.conversions Tabled.src
     "42" "-90d").1 = Ok ["Delay_Measures"; "Throughput_Measures"].
Proof.
  destruct (@catalog_discovery Scenario.builtins Scenario.conversions Tabled.src)
    as (Hall & _ & Hlisting).
  split; [apply (Hall Tabled.ids_reply Tabled.more_ids_reply); reflexivity |].
  split; [apply (Hlisting "42" "-90d" Tabled.names_reply);
          [reflexivity | right; reflexivity] |].
  split; vm_compute; reflexivity.
Defined.

Section fetch.
Context `{!Builtins, !Conversions}.
Variable self : DataCollector.t.

Import DataCollector.

(** Measurements whose query returns no rows leave [dfs] as it is. *)
Lemma for_each_measurement_no_rows (experimentId : string) (fields : list string)
    (limit offset : arg) (max_lag start : string)
    (measurements : list string) (dfs : list DataFrame) :
  (forall m, m ∈ measurements ->
     exists flux df,
       data_flux self m experimentId fields limit offset max_lag start = Ok flux /\
       (_query_df self flux).1 = Ok df /\ empty df = true) ->
  (for_each_measurement self experimentId fields limit offset max_lag start
                        measurements dfs).1 = Ok dfs.
Proof.
  induction measurements as [|m ms IH]; intros Hrows; [done |].
  destruct (Hrows m) as (flux & df & Hflux & Hq & He); [by left |].
  simpl. rewrite Hflux.
  rewrite (proj1 (io_bind_Ok (lift (Ok flux)) _ flux eq_refl)).
  rewrite (proj1 (io_bind_Ok _ _ _ Hq)).
  rewrite He. simpl.
  apply IH. intros m' Hm'. apply Hrows. by right.
Qed.

(** The listing sends its one query, whatever comes back. *)
Lemma listing_sent (experimentId start : string) :
  (get_measurements_for_experimentId self experimentId start).2
  = [measurements_flux self experimentId start].
Proof.
  pose proof (_query_df_sent self (measurements_flux self experimentId start)) as Hsent.
  unfold get_measurements_for_experimentId, bind.
  destruct (_query_df self _) as [[df|e] q]; simpl in *; [| done].
  destruct (empty df); simpl; [by rewrite app_nil_r |].
  unfold lift. destruct (column _ df); simpl; by rewrite ?app_nil_r.
Qed.

(** [get_data] on a list that is not empty does not ask for the listing. *)
Lemma get_data_given (experimentId : string) (fields : list string)
    (additional_clause : option string) (chunked : bool) (chunk_size : Z)
    (limit offset : arg) (max_lag start : string) (ms : list string) :
  ms <> [] ->
  get_data self experimentId ms fields additional_clause chunked chunk_size
           limit offset max_lag start
  = (dfs <- for_each_measurement self experimentId fields limit offset max_lag start ms [] ;;
     match dfs with
     | [] => ret empty_frame
     | _ => lift (obind (concat_columns dfs) sort_index)
     end)%io.
Proof.
  intros Hms. unfold get_data. destruct ms as [|m ms]; [done |].
  unfold bind at 1, ret. cbn [fst snd app].
  by destruct (bind _ _).
Qed.

(** [get_data] without a list is the listing, then the same loop. *)
Lemma get_data_resolved (experimentId : string) (fields : list string)
    (additional_clause : option string) (chunked : bool) (chunk_size : Z)
    (limit offset : arg) (max_lag start : string) :
  get_data self experimentId [] fields additional_clause chunked chunk_size
           limit offset max_lag start
  = (ms <- get_measurements_for_experimentId self experimentId start ;;
     dfs <- for_each_measurement self experimentId fields limit offset max_lag start ms [] ;;
     match dfs with
     | [] => ret empty_frame
     | _ => lift (obind (concat_columns dfs) sort_index)
     end)%io.
Proof. reflexivity. Qed.

(** Measurements for which the store has no rows leave [dfs] as it is. *)
Lemma for_each_measurement_no_tables (experimentId : string) (fields : list string)
    (limit offset : arg) (max_lag start : string)
    (measurements : list string) (dfs : list DataFrame) :
  (forall m, m ∈ measurements ->
     exists flux r,
       data_flux self m experimentId fields limit offset max_lag start = Ok flux /\
       query_data_frame self flux (org self) = Ok r /\ tables_of r = []) ->
  (for_each_measurement self experimentId fields limit offset max_lag start
                        measurements dfs).1 = Ok dfs.
Proof.
  intros Hrows. apply for_each_measurement_no_rows. intros m Hm.
  destruct (Hrows m Hm) as (flux & r & Hflux & Hq & Hr).
  destruct (_query_df_reply self flux r Hq) as (df & Hdf & He & _).
  exists flux, df. rewrite Hdf. split; [done |]. split; [done |]. by apply He.
Qed.

End fetch.

(** C8.  Every call of the collector's [get_data] with no measurements
    begins with the listing query of [get_measurements_for_experimentId] for
    that experiment identifier, and goes on with the list it returns: if
    the listing raises, so does the call, and nothing else is sent; if it
    returns measurements, the call returns what [get_data] returns for that
    list, whose queries follow the listing query; if it returns none, the
    call returns the empty table.  And when the store has no rows for any
    of the listed measurements, the call returns the empty table, not an
    error. *)
Theorem get_data_without_measurements `{!Builtins, !Conversions}
    (self : DataCollector.t) (experimentId : string) (fields : list string)
    (additional_clause : option string) (chunked : bool) (chunk_size : Z)
    (limit offset : arg) (max_lag start : string) :
  let listing := DataCollector.get_measurements_for_experimentId self experimentId start in
  let call := fun measurements : list string =>
    DataCollector.get_data self experimentId measurements fields additional_clause
      chunked chunk_size limit offset max_lag start in
  listing.2 = [DataCollector.measurements_flux self experimentId start] /\
  (forall e, listing.1 = Raise e -> call [] = (Raise e, listing.2)) /\
  (forall listed, listing.1 = Ok listed -> listed <> [] ->
     call [] = ((call listed).1, listing.2 ++ (call listed).2)) /\
  (listing.1 = Ok [] -> call [] = (Ok empty_frame, listing.2)) /\
  (forall listed, listing.1 = Ok listed ->
     (forall m, m ∈ listed ->
        exists flux r,
          DataCollector.data_flux self m experimentId fields limit offset max_lag start
          = Ok flux /\
          DataCollector.query_data_frame self flux (DataCollector.org self) = Ok r /\
          tables_of r = []) ->
     (call []).1 = Ok empty_frame).
Proof.
  intros listing call. subst call. cbn beta.
  split; [apply listing_sent |].
  rewrite get_data_resolved. fold listing.
  split; [| split; [| split]].
  - intros e He. unfold DataCollector.bind at 1. by rewrite He.
  - intros listed Hl Hne. rewrite (get_data_given self) by done.
    unfold DataCollector.bind at 1. by rewrite Hl.
  - intros Hl. unfold DataCollector.bind at 1. rewrite Hl. cbn.
    by rewrite app_nil_r.
  - intros listed Hl Hrows.
    rewrite (proj1 (io_bind_Ok _ _ _ Hl)).
    rewrite (proj1 (io_bind_Ok _ _ _
                      (for_each_measurement_no_tables self experimentId fields limit
                         offset max_lag start listed [] Hrows))).
    done.
Qed.

Lemma get_data_without_measurements_witness :
  let listing := @DataCollector.get_measurements_for_experimentId Scenario.conversions
                   Scenario.uma "42" "-30d" in
  let call := fun measurements : list string =>
    @DataCollector.get_data Scenario.builtins Scenario.conversions Scenario.uma "42"
      measurements ["Delay (ms)"] None false 10000 ArgNone ArgNone "1s" "-30d" in
  listing.1 = Ok ["Throughput_Measures"] /\
  call [] = ((call ["Throughput_Measures"]).1,
             listing.2 ++ (call ["Throughput_Measures"]).2) /\
  (call []).1 = Ok empty_frame.
Proof.
  intros listing call.
  destruct (@get_data_without_measurements Scenario.builtins Scenario.conversions
              Scenario.uma "42" ["Delay (ms)"] None false 10000 ArgNone ArgNone
              "1s" "-30d") as (_ & _ & Hlisted & _ & Hrows).
  split; [vm_compute; reflexivity |].
  split; [apply (Hlisted ["Throughput_Measures"]); [vm_compute; reflexivity | done] |].
  apply (Hrows ["Throughput_Measures"]); [vm_compute; reflexivity |].
  intros m ->%list_elem_of_singleton.
  eexists _, (DataCollector.RList []).
  split; [reflexivity |]. split; vm_compute; reflexivity.
Defined.

(** ** Rebasing *)

Section rebasing.

Lemma index_min_times (ts : list Z) :
  ts <> [] ->
  exists m, index_min (LTime <$> ts) = Some (LTime m) /\ m ∈ ts /\
            forall t, t ∈ ts -> m <= t.
Proof.
  induction ts as [|t ts IH]; [done |]. intros _.
  destruct ts as [|u ts].
  { exists t. simpl. split; [done |]. split; [by left |].
    intros t' ->%list_elem_of_singleton. lia. }
  destruct IH as (m & Hm & Hin & Hle); [done |].
  change (index_min (LTime <$> t :: u :: ts))
    with (match index_min (LTime <$> u :: ts) with
          | None => Some (LTime t)
          | Some m' => match payload m' with
                       | Some b => if t <=? b then Some (LTime t) else Some m'
                       | None => Some (LTime t)
                       end
          end).
  rewrite Hm. simpl. destruct (Z.leb_spec t m) as [Htm | Htm].
  - exists t. split; [done |]. split; [by left |].
    intros t' [-> | Ht']%elem_of_cons; [lia |]. specialize (Hle t' Ht'). lia.
  - exists m. split; [done |]. split; [by right |].
    intros t' [-> | Ht']%elem_of_cons; [lia | by apply Hle].
Qed.

Lemma index_sub_times (ts : list Z) (m : Z) :
  (forall t, t ∈ ts -> m <= t <= m + int64_max) ->
  index_sub (LTime <$> ts) (LTime m) = Ok (rebased_on m ts).
Proof.
  induction ts as [|t ts IH]; intros Hb; [done |].
  rewrite fmap_cons.
  change (index_sub (LTime t :: (LTime <$> ts)) (LTime m))
    with (obind (label_sub (LTime t) (LTime m)) (fun d =>
          obind (index_sub (LTime <$> ts) (LTime m)) (fun ds => Ok (d :: ds)))).
  rewrite IH by (intros t' Ht'; apply Hb; by right).
  unfold label_sub, checked64.
  assert (m <= t <= m + int64_max) as Ht by (apply Hb; by left).
  assert (((int64_min <? t - m) && (t - m <=? int64_max)) = true) as ->.
  { apply andb_true_intro. split; [apply Z.ltb_lt | apply Z.leb_le];
      unfold int64_min, int64_max in *; lia. }
  done.
Qed.

(** [idx - idx.min()] on a non-empty index of timestamps spanning less
    than the int64 range: every label becomes its distance from the
    earliest one. *)
Lemma index_sub_min_times (ts : list Z) :
  ts <> [] ->
  (forall t u, t ∈ ts -> u ∈ ts -> t - u <= int64_max) ->
  exists m, m ∈ ts /\ (forall t, t ∈ ts -> m <= t) /\
            index_sub_min (LTime <$> ts) = Ok (rebased_on m ts).
Proof.
  intros Hne Hspan.
  destruct (index_min_times ts Hne) as (m & Hm & Hin & Hle).
  exists m. split; [done |]. split; [done |].
  unfold index_sub_min. rewrite Hm. apply index_sub_times.
  intros t Ht. specialize (Hle t Ht). specialize (Hspan t m Ht Hin). lia.
Qed.

(** The example of the design notes. *)
Lemma index_sub_min_example (T : Z) :
  index_sub_min [LTime T; LTime (T + seconds 5); LTime (T + seconds 10)]
  = Ok [LDelta 0; LDelta (seconds 5); LDelta (seconds 10)].
Proof.
  unfold index_sub_min. simpl.
  assert ((T + seconds 5 <=? T + seconds 10) = true) as -> by (apply Z.leb_le; unfold seconds; lia).
  simpl.
  assert ((T <=? T + seconds 5) = true) as -> by (apply Z.leb_le; unfold seconds; lia).
  simpl. unfold checked64.
  replace (T - T) with 0 by lia.
  replace (T + seconds 5 - T) with (seconds 5) by lia.
  replace (T + seconds 10 - T) with (seconds 10) by lia.
  reflexivity.
Qed.

End rebasing.

Section comparison.
Context `{!Builtins, !Conversions, !Collaborators}.

(** A retrieval only adds objects: the ones there stay as they are. *)
Lemma finish_allocates match_series remove_outliers max_lag (r : ref) (w : World) :
  allocated w (finish match_series remove_outliers max_lag r w).2.
Proof.
  destruct (heap w !! r) as [o|] eqn:Hr.
  - destruct (finish_run match_series remove_outliers max_lag r o w Hr)
      as (res & w' & -> & Ha & _). done.
  - unfold finish, transform, bind, load, ret, lift.
    destruct match_series, (truthy_opt remove_outliers),
      (bool_decide (lower (str_opt remove_outliers) = "zscore")),
      (bool_decide (lower (str_opt remove_outliers) = "mad"));
      simpl; rewrite ?Hr; simpl; apply allocated_refl.
Qed.

Lemma retrieve_grows (q : request) (w : World) :
  exists extra, heap (retrieve q w).2 = heap w ++ extra.
Proof.
  destruct (unavailable (datasource q) w) eqn:Hd.
  { rewrite retrieve_unavailable by done. exists []. by rewrite app_nil_r. }
  destruct (unavailable_false _ _ Hd) as (src & Hsrc & _).
  rewrite (retrieve_available q src w Hd Hsrc).
  destruct (if enable_cache w then data_cache w !! fingerprint q else None) as [r|].
  { by destruct (allocated_fields _ _ (finish_allocates (match_series q)
                   (remove_outliers q) (max_lag q) r w)) as (_ & _ & _ & _ & ?). }
  destruct (collected src q).1 as [df|e].
  - destruct (allocated_fields _ _ (finish_allocates (match_series q)
                (remove_outliers q) (max_lag q) (length (heap w))
                (fetched q df (collected src q).2 w))) as (_ & _ & _ & _ & extra & ->).
    simpl. exists ([OFrame df] ++ extra). by rewrite app_assoc.
  - exists []. simpl. by rewrite app_nil_r.
Qed.

(** Rebasing replaces the index of the object, in place. *)
Lemma rebase_run (r : ref) (df : DataFrame) (idx : list label) (w : World) :
  heap w !! r = Some (OFrame df) ->
  index_sub_min (index df) = Ok idx ->
  rebase r w = (Ok tt, set_heap (<[r := reindexed idx df]> (heap w)) w).
Proof.
  intros Hr Hidx. unfold rebase, bind, load, lift, store, modify.
  by rewrite Hr, Hidx.
Qed.

Lemma load_frame_run (r : ref) (df : DataFrame) (w : World) :
  heap w !! r = Some (OFrame df) -> load_frame r w = (Ok df, w).
Proof. intros Hr. unfold load_frame, bind, load, ret. by rewrite Hr. Qed.

End comparison.

(** C10.  In the two-experiment comparison path each retrieved series has
    its own earliest timestamp subtracted from its time index, in place,
    before the pair is handed to [synchronize]: the rebased index starts at
    zero and keeps the distances between samples.  On an index
    [T, T+5s, T+10s] that is [0s, 5s, 10s]. *)
Theorem comparison_path_rebases `{!Builtins, !Conversions, !Collaborators}
    (q : request) (experimentId2 : string) (w w1 w2 : World) (r1 r2 : ref)
    (series1 series2 : DataFrame) (ts1 ts2 : list Z) (m1 m2 : Z) :
  retrieve q w = (Ok (Some r1), w1) ->
  heap w1 !! r1 = Some (OFrame series1) ->
  index series1 = LTime <$> ts1 ->
  m1 ∈ ts1 -> (forall t, t ∈ ts1 -> m1 <= t <= m1 + int64_max) ->
  retrieve (with_experiment experimentId2 q)
    (set_heap (<[r1 := reindexed (rebased_on m1 ts1) series1]> (heap w1)) w1)
  = (Ok (Some r2), w2) ->
  heap w2 !! r2 = Some (OFrame series2) ->
  index series2 = LTime <$> ts2 ->
  m2 ∈ ts2 -> (forall t, t ∈ ts2 -> m2 <= t <= m2 + int64_max) ->
  (rebased_pair (datasource q) (experimentId q) experimentId2 (measurements q)
     (fields q) (match_series q) (remove_outliers q) (additional_clause q)
     (chunked q) (chunk_size q) (limit q) (offset q) (max_lag q) w).1
  = Ok (Some [("series1", set_index (rebased_on m1 ts1) series1);
              ("series2", set_index (rebased_on m2 ts2) series2)]) /\
  (forall T : Z,
     index_sub_min [LTime T; LTime (T + seconds 5); LTime (T + seconds 10)]
     = Ok [LDelta 0; LDelta (seconds 5); LDelta (seconds 10)]).
Proof.
  intros Hq1 Hr1 Hi1 Hin1 Hb1 Hq2 Hr2 Hi2 Hin2 Hb2.
  split; [| apply index_sub_min_example].
  assert (forall (ts : list Z) (m : Z),
            m ∈ ts -> (forall t, t ∈ ts -> m <= t <= m + int64_max) ->
            index_sub_min (LTime <$> ts) = Ok (rebased_on m ts)) as Hsub.
  { intros ts m Hin Hb.
    destruct (index_sub_min_times ts) as (m' & Hin' & Hle' & ->).
    - intros ->. by apply elem_of_nil in Hin.
    - intros t u Ht Hu. pose proof (Hb t Ht). pose proof (Hb u Hu). lia.
    - replace m' with m; [done |].
      pose proof (Hle' m Hin). pose proof (Hb m' Hin'). lia. }
  pose proof (Hsub ts1 m1 Hin1 Hb1) as Hsub1. pose proof (Hsub ts2 m2 Hin2 Hb2) as Hsub2.
  rewrite <- Hi1 in Hsub1. rewrite <- Hi2 in Hsub2.
  set (w1' := set_heap (<[r1 := reindexed (rebased_on m1 ts1) series1]> (heap w1)) w1)
    in *.
  assert (heap w1' !! r1 = Some (reindexed (rebased_on m1 ts1) series1)) as Hr1'.
  { simpl. apply list_lookup_insert_eq. by eapply lookup_lt_Some. }
  destruct (retrieve_grows (with_experiment experimentId2 q) w1') as [extra Hgrow].
  rewrite Hq2 in Hgrow. simpl fst in Hgrow. simpl snd in Hgrow.
  assert (heap w2 !! r1 = Some (reindexed (rebased_on m1 ts1) series1)) as Hr12.
  { rewrite Hgrow. by apply lookup_app_l_Some. }
  assert (r1 <> r2) as Hne.
  { intros ->. rewrite Hr2 in Hr12. injection Hr12 as ->.
    simpl in Hi2.
    destruct ts1, ts2;
      first [done | by apply elem_of_nil in Hin1 | by apply elem_of_nil in Hin2]. }
  set (w2' := set_heap (<[r2 := reindexed (rebased_on m2 ts2) series2]> (heap w2)) w2).
  assert (heap w2' !! r1 = Some (reindexed (rebased_on m1 ts1) series1)) as Hr1''.
  { simpl. by rewrite list_lookup_insert_ne. }
  assert (heap w2' !! r2 = Some (reindexed (rebased_on m2 ts2) series2)) as Hr2'.
  { simpl. apply list_lookup_insert_eq. by eapply lookup_lt_Some. }
  unfold rebased_pair. fold (retrieve q).
  change (retrieve_data (datasource q) experimentId2 (measurements q) (fields q)
            (match_series q) (remove_outliers q) (additional_clause q) (chunked q)
            (chunk_size q) (limit q) (offset q) (max_lag q))
    with (retrieve (with_experiment experimentId2 q)).
  rewrite (bind_Ok _ _ _ _ _ Hq1).
  rewrite (bind_Ok _ _ _ _ _ (rebase_run r1 series1 _ w1 Hr1 Hsub1)).
  fold w1'. rewrite (bind_Ok _ _ _ _ _ Hq2).
  rewrite (bind_Ok _ _ _ _ _ (rebase_run r2 series2 _ w2 Hr2 Hsub2)).
  fold w2'.
  rewrite (bind_Ok _ _ _ _ _ (load_frame_run r1 _ w2' Hr1'')).
  rewrite (bind_Ok _ _ _ _ _ (load_frame_run r2 _ w2' Hr2')).
  done.
Qed.

Lemma comparison_path_rebases_witness :
  (@rebased_pair Scenario.builtins Scenario.conversions Scenario.collaborators
     "uma" "42" "43" [] [] false None None false 10000 ArgNone ArgNone "1s"
     (Scenario.deployment true)).1
  = Ok (Some [("series1",
               set_index [LDelta 0; LDelta (seconds 1); LDelta (seconds 2)]
                 (Scenario.throughput_series "42"
                    [seconds 1000; seconds 1001; seconds 1002] [10; 12; 11]));
              ("series2",
               set_index [LDelta 0; LDelta (seconds 1); LDelta (seconds 2)]
                 (Scenario.throughput_series "43"
                    [seconds 5000; seconds 5001; seconds 5002] [20; 21; 22]))]).
Proof.
  pose (w := Scenario.deployment true).
  pose (s1 := Scenario.throughput_series "42"
                [seconds 1000; seconds 1001; seconds 1002] [10; 12; 11]).
  pose (w1 := (@retrieve Scenario.builtins Scenario.conversions Scenario.collaborators
                 Scenario.plain w).2).
  pose (w1' := set_heap (<[0%nat := reindexed
                             (rebased_on (seconds 1000)
                                [seconds 1000; seconds 1001; seconds 1002]) s1]>
                           (heap w1)) w1).
  pose (w2 := (@retrieve Scenario.builtins Scenario.conversions Scenario.collaborators
                 (with_experiment "43" Scenario.plain) w1').2).
  apply (proj1 (@comparison_path_rebases
                  Scenario.builtins Scenario.conversions Scenario.collaborators
                  Scenario.plain "43" w w1 w2 0%nat 1%nat s1
                  (Scenario.throughput_series "43"
                     [seconds 5000; seconds 5001; seconds 5002] [20; 21; 22])
                  [seconds 1000; seconds 1001; seconds 1002]
                  [seconds 5000; seconds 5001; seconds 5002]
                  (seconds 1000) (seconds 5000)
                  ltac:(vm_compute; reflexivity) ltac:(vm_compute; reflexivity)
                  ltac:(reflexivity) ltac:(by left)
                  ltac:(intros t Ht; repeat (apply elem_of_cons in Ht as [-> | Ht]);
                        [vm_compute; split; discriminate .. | by apply elem_of_nil in Ht])
                  ltac:(vm_compute; reflexivity) ltac:(vm_compute; reflexivity)
                  ltac:(reflexivity) ltac:(by left)
                  ltac:(intros t Ht; repeat (apply elem_of_cons in Ht as [-> | Ht]);
                        [vm_compute; split; discriminate .. | by apply elem_of_nil in Ht]))).
Defined.

(** The object that is rebased is the object the cache holds: after one
    comparison request with the cache enabled, the entry of experiment [42]
    carries the rebased index. *)
Lemma comparison_path_rebases_the_cached_object :
  let w := (@get_data Scenario.builtins Scenario.conversions Scenario.collaborators
              [] "uma" "42" (Some "43") (Scenario.deployment true)).2 in
  exists r,
    data_cache w !! @fingerprint Scenario.builtins Scenario.plain = Some r /\
    heap w !! r
    = Some (reindexed [LDelta 0; LDelta (seconds 1); LDelta (seconds 2)]
              (Scenario.throughput_series "42"
                 [seconds 1000; seconds 1001; seconds 1002] [10; 12; 11])).
Proof.
  vm_compute. eexists. split; reflexivity.
Qed.

(* ===================================================================== *)
(** * Further properties of the code                                       *)
(* ===================================================================== *)

(** ** What [retrieve_data] leaves alone *)

(** The frame of a retrieval, as the later proofs use it. *)
Lemma retrieve_frame `{!Builtins, !Conversions, !Collaborators}
    (q : request) (w : World) :
  sources (retrieve q w).2 = sources w /\
  enable_cache (retrieve q w).2 = enable_cache w /\
  (exists extra, heap (retrieve q w).2 = heap w ++ extra) /\
  (exists new, sent (retrieve q w).2 = sent w ++ new) /\
  (forall k r, data_cache w !! k = Some r -> data_cache (retrieve q w).2 !! k = Some r) /\
  (forall k, k <> fingerprint q ->
             data_cache (retrieve q w).2 !! k = data_cache w !! k).
Proof.
  destruct (unavailable (datasource q) w) eqn:Hd.
  { rewrite retrieve_unavailable by done. simpl.
    repeat split; try done; exists []; by rewrite app_nil_r. }
  destruct (unavailable_false _ _ Hd) as (src & Hsrc & _).
  rewrite (retrieve_available q src w Hd Hsrc).
  destruct (if enable_cache w then data_cache w !! fingerprint q else None)
    as [r|] eqn:Hk.
  { destruct (allocated_fields _ _ (finish_allocates (match_series q)
                (remove_outliers q) (max_lag q) r w)) as (Hs & Hc & Hen & Hse & He).
    rewrite Hs, Hc, Hen, Hse.
    repeat split; try done. exists []. by rewrite app_nil_r. }
  destruct (collected src q).1 as [df|e].
  - destruct (allocated_fields _ _ (finish_allocates (match_series q)
                (remove_outliers q) (max_lag q) (length (heap w))
                (fetched q df (collected src q).2 w)))
      as (Hs & Hc & Hen & Hse & extra & He).
    rewrite Hs, Hc, Hen, Hse, He. simpl.
    split; [done |]. split; [done |].
    split; [exists ([OFrame df] ++ extra); by rewrite app_assoc |].
    split; [by eexists |].
    destruct (enable_cache w); [| done]. split.
    + intros k r Hkr. destruct (decide (fingerprint q = k)) as [<- | Hne].
      * by rewrite Hk in Hkr.
      * by rewrite lookup_insert_ne.
    + intros k Hne. by rewrite lookup_insert_ne.
  - simpl. split; [done |]. split; [done |].
    split; [exists []; by rewrite app_nil_r |].
    split; [by eexists |]. done.
Qed.

(** X1. A retrieval never changes [sources] or the flag, never touches an
    object that exists, only appends to what was sent, and never removes or
    overwrites a cache entry: the only key it may add is the request's own
    fingerprint. *)
Theorem retrieve_data_frame `{!Builtins, !Conversions, !Collaborators}
    (q : request) (w : World) :
  sources (retrieve q w).2 = sources w /\
  enable_cache (retrieve q w).2 = enable_cache w /\
  (exists extra, heap (retrieve q w).2 = heap w ++ extra) /\
  (exists new, sent (retrieve q w).2 = sent w ++ new) /\
  (forall k r, data_cache w !! k = Some r -> data_cache (retrieve q w).2 !! k = Some r) /\
  (forall k, k <> fingerprint q ->
             data_cache (retrieve q w).2 !! k = data_cache w !! k).
Proof.
  apply retrieve_frame.
Qed.

Section hits_and_failures.
Context `{!Builtins, !Conversions, !Collaborators}.

(** When post-processing raises, so does [finish]. *)
Lemma finish_raises match_series remove_outliers max_lag (r : ref) (o : obj) (w : World)
    (e : exn) :
  heap w !! r = Some o ->
  post_processed match_series remove_outliers max_lag o = Raise e ->
  (finish match_series remove_outliers max_lag r w).1 = Raise e.
Proof.
  intros Hr. unfold finish, post_processed, outliers_removed.
  destruct (stage_run match_series (fun o => synchronize o max_lag true) r o w Hr)
    as (w1 & Hw1 & Hs1).
  destruct (if match_series then synchronize o max_lag true else Ok o) as [o1|e1];
    simpl obind; cycle 1.
  { intros [= <-]. by rewrite (bind_Raise _ _ _ _ _ Hs1). }
  destruct Hs1 as (r1 & Hs1 & Hr1). rewrite (bind_Ok _ _ _ _ _ Hs1).
  destruct (truthy_opt remove_outliers); [| done].
  set (mode := lower (str_opt remove_outliers)).
  destruct (stage_run (bool_decide (mode = "zscore")) (fun o => remove o 0) r1 o1 w1 Hr1)
    as (w2 & Hw2 & Hs2).
  destruct (if bool_decide (mode = "zscore") then remove o1 0 else Ok o1) as [o2|e2];
    simpl obind; cycle 1.
  { intros [= <-]. by rewrite (bind_Raise _ _ _ _ _ (bind_Raise _ _ _ _ _ Hs2)). }
  destruct Hs2 as (r2 & Hs2 & Hr2).
  destruct (stage_run (bool_decide (mode = "mad")) (fun o => remove o 1) r2 o2 w2 Hr2)
    as (w3 & Hw3 & Hs3).
  destruct (if bool_decide (mode = "mad") then remove o2 1 else Ok o2) as [o3|e3];
    [done |].
  intros [= <-].
  by rewrite (bind_Raise _ _ _ _ _ (eq_trans (bind_Ok _ _ _ _ _ Hs2) Hs3)).
Qed.

Lemma available (name : string) (src : DataCollector.t) (w : World) :
  sources w !! name = Some src -> DataCollector.client src <> None ->
  unavailable name w = false.
Proof.
  intros Hsrc Hc. unfold unavailable. rewrite Hsrc.
  by destruct (DataCollector.client src).
Qed.

End hits_and_failures.

(** X2. A cache hit asks the store nothing and leaves the cache as it is. *)
Theorem cache_hit_sends_nothing `{!Builtins, !Conversions, !Collaborators}
    (q : request) (w : World) (r : ref) :
  unavailable (datasource q) w = false ->
  enable_cache w = true ->
  data_cache w !! fingerprint q = Some r ->
  sent (retrieve q w).2 = sent w /\
  data_cache (retrieve q w).2 = data_cache w.
Proof.
  intros Hd Hen Hk.
  destruct (unavailable_false _ _ Hd) as (src & Hsrc & _).
  rewrite (retrieve_available q src w Hd Hsrc), Hen, Hk.
  by destruct (allocated_fields _ _ (finish_allocates (match_series q)
                 (remove_outliers q) (max_lag q) r w)) as (_ & -> & _ & -> & _).
Qed.

(** X3. A failure of the collector is not memoised: the exception reaches the
    caller, the texts sent so far are on record, and the cache and the
    objects are as before, so the next call asks the store again. *)
Theorem failed_fetch_is_not_cached `{!Builtins, !Conversions, !Collaborators}
    (q : request) (src : DataCollector.t) (w : World) (e : exn) :
  sources w !! datasource q = Some src ->
  DataCollector.client src <> None ->
  (if enable_cache w then data_cache w !! fingerprint q else None) = None ->
  (collected src q).1 = Raise e ->
  retrieve q w = (Raise e, set_sent (sent w ++ (collected src q).2) w) /\
  (retrieve q (retrieve q w).2).1 = Raise e /\
  sent (retrieve q (retrieve q w).2).2
  = sent w ++ (collected src q).2 ++ (collected src q).2.
Proof.
  intros Hsrc Hc Hk He.
  pose proof (available _ _ _ Hsrc Hc) as Hd.
  assert (forall w', sources w' = sources w -> enable_cache w' = enable_cache w ->
                     data_cache w' = data_cache w ->
                     retrieve q w' = (Raise e, set_sent (sent w' ++ (collected src q).2) w'))
    as Hrun.
  { intros w' Hs Hen Hc'.
    rewrite (retrieve_available q src w'); [| unfold unavailable in *; by rewrite Hs
                                            | by rewrite Hs].
    by rewrite Hen, Hc', Hk, He. }
  rewrite (Hrun w) by done. split; [done |]. simpl.
  rewrite Hrun by done. simpl. by rewrite app_assoc.
Qed.

(** X4. The fetched frame becomes the cache entry before post-processing runs:
    when synchronisation or outlier removal raises, the caller gets the
    exception, and the entry is there all the same. *)
Theorem entry_is_stored_before_post_processing
    `{!Builtins, !Conversions, !Collaborators}
    (q : request) (src : DataCollector.t) (w : World) (df : DataFrame) :
  sources w !! datasource q = Some src ->
  DataCollector.client src <> None ->
  enable_cache w = true ->
  data_cache w !! fingerprint q = None ->
  (collected src q).1 = Ok df ->
  data_cache (retrieve q w).2 !! fingerprint q = Some (length (heap w)) /\
  heap (retrieve q w).2 !! length (heap w) = Some (OFrame df) /\
  forall e, post_processed (match_series q) (remove_outliers q) (max_lag q) (OFrame df)
            = Raise e ->
            (retrieve q w).1 = Raise e.
Proof.
  intros Hsrc Hc Hen Hk Hdf.
  pose proof (available _ _ _ Hsrc Hc) as Hd.
  rewrite (retrieve_available q src w Hd Hsrc), Hen, Hk, Hdf.
  assert (heap (fetched q df (collected src q).2 w) !! length (heap w) = Some (OFrame df))
    as Hr by (simpl; by apply list_lookup_middle).
  destruct (allocated_fields _ _ (finish_allocates (match_series q) (remove_outliers q)
                (max_lag q) (length (heap w)) (fetched q df (collected src q).2 w)))
    as (_ & Hc' & _ & _ & extra & Hh).
  rewrite Hc', Hh. simpl. rewrite Hen.
  split; [by rewrite lookup_insert_eq |].
  split; [rewrite <- app_assoc; by apply list_lookup_middle |].
  intros e He. by apply (finish_raises _ _ _ _ _ _ e Hr).
Qed.

Lemma cache_hit_sends_nothing_witness :
  let w := (@retrieve Scenario.builtins Scenario.conversions Scenario.collaborators
              Scenario.plain (Scenario.deployment true)).2 in
  data_cache w !! @fingerprint Scenario.builtins Scenario.plain = Some 0%nat /\
  sent (@retrieve Scenario.builtins Scenario.conversions Scenario.collaborators
          Scenario.plain w).2 = sent w.
Proof.
  split; [vm_compute; reflexivity |].
  apply (@cache_hit_sends_nothing Scenario.builtins Scenario.conversions
           Scenario.collaborators Scenario.plain _ 0%nat);
    [reflexivity | reflexivity | vm_compute; reflexivity].
Defined.

Lemma failed_fetch_is_not_cached_witness :
  (@collected Scenario.builtins Scenario.conversions Outage.down Scenario.plain).1
  = Raise ApiException /\
  @retrieve Scenario.builtins Scenario.conversions Scenario.collaborators
    Scenario.plain (Outage.deployment Outage.down true)
  = (Raise ApiException,
     set_sent [DataCollector.measurements_flux Outage.down "42" "-30d"]
              (Outage.deployment Outage.down true)).
Proof.
  split; [vm_compute; reflexivity |].
  apply (@failed_fetch_is_not_cached Scenario.builtins Scenario.conversions
           Scenario.collaborators Scenario.plain Outage.down
           (Outage.deployment Outage.down true) ApiException);
    [reflexivity | discriminate | reflexivity | vm_compute; reflexivity].
Defined.

Lemma entry_is_stored_before_post_processing_witness :
  let x := @retrieve Scenario.builtins Scenario.conversions Outage.failing_filter
             Scenario.filtered (Scenario.deployment true) in
  x.1 = Raise ValueError /\
  data_cache x.2 !! @fingerprint Scenario.builtins Scenario.filtered = Some 0%nat.
Proof.
  destruct (@entry_is_stored_before_post_processing
              Scenario.builtins Scenario.conversions Outage.failing_filter
              Scenario.filtered Scenario.uma (Scenario.deployment true)
              (Scenario.throughput_series "42"
                 [seconds 1000; seconds 1001; seconds 1002] [10; 12; 11]))
    as (Hentry & _ & Hraise);
    [reflexivity | discriminate | reflexivity | reflexivity | vm_compute; reflexivity |].
  split; [apply Hraise; vm_compute; reflexivity | exact Hentry].
Defined.

(** ** Parameters that are matched loosely, or not at all *)

Section parameters.
Context `{!Builtins, !Conversions, !Collaborators}.

Lemma truthy_lower (s : string) : truthy (lower s) = truthy s.
Proof. by destruct s. Qed.

Lemma outliers_removed_lower (s s' : string) (o : obj) :
  lower s = lower s' ->
  outliers_removed (Some s) o = outliers_removed (Some s') o.
Proof.
  intros Hl. unfold outliers_removed. simpl.
  rewrite <- (truthy_lower s), <- (truthy_lower s'), Hl. done.
Qed.

Lemma recomputed_miss (q : request) (w : World) :
  misses q w ->
  returned (retrieve q w)
  = match sources w !! datasource q with
    | Some src => if unavailable (datasource q) w then Ok None else recomputed src q
    | None => Ok None
    end.
Proof.
  intros Hm. destruct (unavailable (datasource q) w) eqn:Hd.
  - rewrite retrieve_unavailable by done. by destruct (sources w !! datasource q).
  - destruct (unavailable_false _ _ Hd) as (src & Hsrc & _). rewrite Hsrc.
    by destruct (retrieve_miss q src w Hd Hsrc Hm) as [-> _].
Qed.

Lemma io_bind_ext {A B} (x : DataCollector.io A) (f g : A -> DataCollector.io B) :
  (forall a, f a = g a) -> DataCollector.bind x f = DataCollector.bind x g.
Proof. intros Hfg. unfold DataCollector.bind. destruct x.1; by rewrite ?Hfg. Qed.

(** Without a limit the collector never reads [offset]. *)
Lemma for_each_measurement_offset (self : DataCollector.t) (experimentId : string)
    (fields : list string) (offset offset' : arg) (max_lag start : string)
    (measurements : list string) (dfs : list DataFrame) :
  DataCollector.for_each_measurement self experimentId fields ArgNone offset
    max_lag start measurements dfs
  = DataCollector.for_each_measurement self experimentId fields ArgNone offset'
      max_lag start measurements dfs.
Proof.
  revert dfs. induction measurements as [|m ms IH]; intros dfs; [done |].
  simpl.
  change (DataCollector.data_flux self m experimentId fields ArgNone offset max_lag start)
    with (DataCollector.data_flux self m experimentId fields ArgNone offset' max_lag start).
  apply io_bind_ext; intros flux. apply io_bind_ext; intros df.
  apply io_bind_ext; intros dfs'. apply IH.
Qed.

Lemma collected_offset (src : DataCollector.t) (q : request) (offset' : arg) :
  limit q = ArgNone -> collected src (with_offset offset' q) = collected src q.
Proof.
  intros Hl. unfold collected, DataCollector.get_data. simpl. rewrite Hl.
  apply io_bind_ext; intros ms.
  by rewrite (for_each_measurement_offset src _ _ offset' (offset q)).
Qed.

Lemma with_chunking_retrieve (q : request) (c : bool) (cs : Z) :
  retrieve (with_chunking c cs q) = retrieve q.
Proof. reflexivity. Qed.

End parameters.

(** X5. [chunked] and [chunk_size] are accepted and change nothing: not the
    outcome, not the queries, not the cache key.  [additional_clause] is
    part of the cache key and of nothing else: with the cache off it
    changes nothing either. *)
Theorem chunking_and_clause_are_ignored `{!Builtins, !Conversions, !Collaborators}
    (q : request) (chunked' : bool) (chunk_size' : Z) (clause : option string) :
  (forall w, retrieve (with_chunking chunked' chunk_size' q) w = retrieve q w) /\
  (forall src, collected src (with_additional_clause clause q) = collected src q) /\
  (forall w, enable_cache w = false ->
             retrieve (with_additional_clause clause q) w = retrieve q w).
Proof.
  split; [done |]. split; [done |].
  intros w Hen.
  destruct (unavailable (datasource q) w) eqn:Hd.
  { by rewrite !retrieve_unavailable. }
  destruct (unavailable_false _ _ Hd) as (src & Hsrc & _).
  rewrite (retrieve_available q src w Hd Hsrc).
  rewrite (retrieve_available (with_additional_clause clause q) src w Hd Hsrc).
  rewrite Hen. unfold fetched. by rewrite Hen.
Qed.

(** X6. The outlier mode is matched without regard to case: two spellings of
    one mode give the caller the same result whenever both requests are
    computed (the spelling is part of the cache key). *)
Theorem outlier_mode_ignores_case `{!Builtins, !Conversions, !Collaborators}
    (q : request) (mode mode' : string) (w : World) :
  lower mode = lower mode' ->
  misses (with_remove_outliers (Some mode) q) w ->
  misses (with_remove_outliers (Some mode') q) w ->
  returned (retrieve (with_remove_outliers (Some mode) q) w)
  = returned (retrieve (with_remove_outliers (Some mode') q) w).
Proof.
  intros Hl Hm Hm'. rewrite !recomputed_miss by done. simpl.
  destruct (sources w !! datasource q) as [src|]; [| done].
  destruct (unavailable (datasource q) w); [done |].
  unfold recomputed, post_processed. simpl.
  change (collected src (with_remove_outliers (Some mode) q)) with (collected src q).
  change (collected src (with_remove_outliers (Some mode') q)) with (collected src q).
  destruct (collected src q).1 as [df|e]; [| done].
  destruct (if match_series q then synchronize (OFrame df) (max_lag q) true
            else Ok (OFrame df)) as [o|e]; [| done].
  simpl. by rewrite (outliers_removed_lower mode mode' o Hl).
Qed.

(** X7. A mode that is neither [zscore] nor [mad] is not rejected: the
    request is answered as if no outlier removal had been asked for. *)
Theorem unknown_outlier_mode_is_ignored `{!Builtins, !Conversions, !Collaborators}
    (q : request) (mode : string) (w : World) :
  lower mode <> "zscore" -> lower mode <> "mad" ->
  misses (with_remove_outliers (Some mode) q) w ->
  misses (with_remove_outliers None q) w ->
  returned (retrieve (with_remove_outliers (Some mode) q) w)
  = returned (retrieve (with_remove_outliers None q) w).
Proof.
  intros Hz Hmad Hm Hm'. rewrite !recomputed_miss by done. simpl.
  destruct (sources w !! datasource q) as [src|]; [| done].
  destruct (unavailable (datasource q) w); [done |].
  unfold recomputed, post_processed. simpl.
  change (collected src (with_remove_outliers (Some mode) q)) with (collected src q).
  change (collected src (with_remove_outliers None q)) with (collected src q).
  destruct (collected src q).1 as [df|e]; [| done].
  destruct (if match_series q then synchronize (OFrame df) (max_lag q) true
            else Ok (OFrame df)) as [o|e]; [| done].
  simpl. unfold outliers_removed. simpl.
  destruct (truthy mode); [| done].
  by rewrite !bool_decide_eq_false_2.
Qed.

(** X8. [offset] is read only together with [limit]: without a limit, any
    offset (even one that is no number) gives the very same retrieval. *)
Theorem offset_without_limit_is_ignored `{!Builtins, !Conversions, !Collaborators}
    (q : request) (offset' : arg) (w : World) :
  limit q = ArgNone ->
  retrieve (with_offset offset' q) w = retrieve q w.
Proof.
  intros Hl. unfold retrieve, retrieve_data, fetch. simpl.
  pose proof (collected_offset) as Hc. unfold collected in Hc. simpl in Hc.
  assert (forall src, DataCollector.get_data src (experimentId q) (measurements q)
                        (fields q) (additional_clause q) (chunked q) (chunk_size q)
                        (limit q) offset' (max_lag q) DataCollector.default_start
                      = DataCollector.get_data src (experimentId q) (measurements q)
                          (fields q) (additional_clause q) (chunked q) (chunk_size q)
                          (limit q) (offset q) (max_lag q) DataCollector.default_start)
    as Heq by (intros src; apply (Hc src q offset' Hl)).
  unfold bind, gets.
  destruct (unavailable (datasource q) w); [done |].
  destruct (enable_cache w).
  - destruct (data_cache w !! _); [done |].
    unfold source. destruct (sources w !! datasource q) as [src|]; [| done].
    unfold call. by rewrite Heq.
  - unfold source. destruct (sources w !! datasource q) as [src|]; [| done].
    unfold call. by rewrite Heq.
Qed.

Lemma outlier_mode_ignores_case_witness :
  lower "ZScore" = lower "zscore" /\
  returned (@retrieve Scenario.builtins Scenario.conversions Scenario.collaborators
              (with_remove_outliers (Some "ZScore") Scenario.plain)
              (Scenario.deployment true))
  = returned (@retrieve Scenario.builtins Scenario.conversions Scenario.collaborators
                (with_remove_outliers (Some "zscore") Scenario.plain)
                (Scenario.deployment true)).
Proof.
  split; [reflexivity |].
  apply (@outlier_mode_ignores_case Scenario.builtins Scenario.conversions
           Scenario.collaborators Scenario.plain "ZScore" "zscore"
           (Scenario.deployment true)); reflexivity.
Defined.

Lemma unknown_outlier_mode_is_ignored_witness :
  lower "Median" <> "zscore" /\
  returned (@retrieve Scenario.builtins Scenario.conversions Scenario.collaborators
              (with_remove_outliers (Some "Median") Scenario.plain)
              (Scenario.deployment true))
  = returned (@retrieve Scenario.builtins Scenario.conversions Scenario.collaborators
                (with_remove_outliers None Scenario.plain)
                (Scenario.deployment true)).
Proof.
  split; [discriminate |].
  apply (@unknown_outlier_mode_is_ignored Scenario.builtins Scenario.conversions
           Scenario.collaborators Scenario.plain "Median" (Scenario.deployment true));
    [discriminate | discriminate | reflexivity | reflexivity].
Defined.

Lemma offset_without_limit_is_ignored_witness :
  limit Scenario.plain = ArgNone /\
  @retrieve Scenario.builtins Scenario.conversions Scenario.collaborators
    (with_offset (ArgStr "abc") Scenario.plain) (Scenario.deployment true)
  = @retrieve Scenario.builtins Scenario.conversions Scenario.collaborators
      Scenario.plain (Scenario.deployment true).
Proof.
  split; [reflexivity |].
  apply (@offset_without_limit_is_ignored Scenario.builtins Scenario.conversions
           Scenario.collaborators Scenario.plain (ArgStr "abc")
           (Scenario.deployment true)).
  reflexivity.
Defined.

(** ** The catalog routes, on an available datasource *)

Section catalog_routes.
Context `{!Builtins, !Conversions, !Collaborators}.

Lemma catalog_route_run (name : string) (src : DataCollector.t) (w : World)
    (c : DataCollector.t -> DataCollector.io (list string)) (key : string) :
  unavailable name w = false ->
  sources w !! name = Some src ->
  (down <- gets (unavailable name) ;;
   if down : bool then ret (not_available name)
   else src <- source name ;;
        l <- call (c src) ;;
        ret (BList key l, 200))%m w
  = (match (c src).1 with
     | Ok l => Ok (BList key l, 200)
     | Raise e => Raise e
     end, set_sent (sent w ++ (c src).2) w).
Proof.
  intros Hd Hsrc. unfold bind, gets, source, call, ret. rewrite Hd, Hsrc. simpl.
  by destruct (c src).1.
Qed.

End catalog_routes.

(** X9. A store without rows is no error for the catalog routes: each answers
    200 with an empty list (where the [get_data] route answers 404), and
    touches neither the cache nor the objects. *)
Theorem catalog_routes_on_an_empty_store `{!Builtins, !Conversions, !Collaborators}
    (name x : string) (src : DataCollector.t) (w : World) :
  sources w !! name = Some src ->
  DataCollector.client src <> None ->
  (forall flux, exists r,
     DataCollector.query_data_frame src flux (DataCollector.org src) = Ok r /\
     tables_of r = []) ->
  (get_all_executionIds name w).1 = Ok (BList ("ExperimentIds on " +:+ name) [], 200) /\
  (get_excutionIds name x w).1
  = Ok (BList ("ExperimentIds for measurement " +:+ x +:+ " on " +:+ name) [], 200) /\
  (get_measurements name x w).1
  = Ok (BList ("Measurements for experimentId " +:+ x +:+ " on " +:+ name) [], 200) /\
  (data_cache (get_all_executionIds name w).2 = data_cache w /\
   heap (get_all_executionIds name w).2 = heap w) /\
  (data_cache (get_excutionIds name x w).2 = data_cache w /\
   heap (get_excutionIds name x w).2 = heap w) /\
  (data_cache (get_measurements name x w).2 = data_cache w /\
   heap (get_measurements name x w).2 = heap w).
Proof.
  intros Hsrc Hc Hstore.
  assert (forall flux, exists df,
            (DataCollector._query_df src flux).1 = Ok df /\ empty df = true) as Hempty.
  { intros flux. destruct (Hstore flux) as (r & Hq & Hr).
    destruct (_query_df_reply src flux r Hq) as (df & Hdf & He & _).
    exists df. rewrite Hdf. split; [done | by apply He]. }
  pose proof (available _ _ _ Hsrc Hc) as Hd.
  assert (forall flux_of : string -> string,
            (DataCollector.for_each_tag src flux_of DataCollector.legacy_tags ∅).1
            = Ok ∅) as Htags.
  { intros flux_of.
    destruct (Hempty (flux_of "ExperimentId")) as (d1 & Hq1 & He1).
    destruct (Hempty (flux_of "ExecutionId")) as (d2 & Hq2 & He2).
    rewrite (for_both_tags src flux_of d1 d2 Hq1 Hq2).
    rewrite (empty_tag_values _ He1), (empty_tag_values _ He2). simpl.
    by rewrite (left_id_L ∅ (∪)). }
  unfold get_all_executionIds, get_excutionIds, get_measurements.
  rewrite (catalog_route_run name src w
             (fun src => DataCollector.get_all_experimentIds src)) by done.
  rewrite (catalog_route_run name src w
             (fun src => DataCollector.get_experimentIds_for_measurement src x)) by done.
  rewrite (catalog_route_run name src w
             (fun src => DataCollector.get_measurements_for_experimentId
                           src x DataCollector.catalog_start)) by done.
  simpl.
  unfold DataCollector.get_all_experimentIds, DataCollector.get_experimentIds_for_measurement.
  rewrite !(proj1 (io_bind_Ok _ _ _ (Htags _))). simpl.
  rewrite elements_empty, sorted_nil.
  destruct (Hempty (DataCollector.measurements_flux src x DataCollector.catalog_start))
    as (d & Hq & He).
  rewrite (get_measurements_for_experimentId_Ok src _ _ d Hq), He.
  done.
Qed.

Lemma catalog_routes_on_an_empty_store_witness :
  let w := Outage.deployment Outage.blank true in
  (@get_all_executionIds Scenario.conversions "uma" w).1
  = Ok (BList ("ExperimentIds on " +:+ "uma") [], 200) /\
  (@get_excutionIds Scenario.conversions "uma" "42" w).1
  = Ok (BList ("ExperimentIds for measurement " +:+ "42" +:+ " on " +:+ "uma") [], 200) /\
  (@get_measurements Scenario.conversions "uma" "42" w).1
  = Ok (BList ("Measurements for experimentId " +:+ "42" +:+ " on " +:+ "uma") [], 200) /\
  (data_cache (@get_all_executionIds Scenario.conversions "uma" w).2 = data_cache w /\
   heap (@get_all_executionIds Scenario.conversions "uma" w).2 = heap w) /\
  (data_cache (@get_excutionIds Scenario.conversions "uma" "42" w).2 = data_cache w /\
   heap (@get_excutionIds Scenario.conversions "uma" "42" w).2 = heap w) /\
  (data_cache (@get_measurements Scenario.conversions "uma" "42" w).2 = data_cache w /\
   heap (@get_measurements Scenario.conversions "uma" "42" w).2 = heap w).
Proof.
  intros w.
  apply (@catalog_routes_on_an_empty_store Scenario.builtins Scenario.conversions
           Scenario.collaborators "uma" "42" Outage.blank w);
    [reflexivity | discriminate |].
  intros flux. exists (DataCollector.RList []). split; reflexivity.
Defined.

(** X10. A store failure is not turned into a response: the catalog route
    raises what the first failing query raised, and the second tag is not
    asked for. *)
Theorem catalog_route_propagates_failure `{!Builtins, !Conversions, !Collaborators}
    (name : string) (src : DataCollector.t) (w : World) (e : exn) :
  sources w !! name = Some src ->
  DataCollector.client src <> None ->
  (DataCollector._query_df src (DataCollector.tag_values_flux src "ExperimentId")).1
  = Raise e ->
  get_all_executionIds name w
  = (Raise e, set_sent (sent w ++ [DataCollector.tag_values_flux src "ExperimentId"]) w).
Proof.
  intros Hsrc Hc Hq.
  pose proof (available _ _ _ Hsrc Hc) as Hd.
  unfold get_all_executionIds.
  rewrite (catalog_route_run name src w
             (fun src => DataCollector.get_all_experimentIds src)) by done.
  assert (DataCollector.collect_values src
            (DataCollector.tag_values_flux src "ExperimentId") ∅
          = (Raise e, [DataCollector.tag_values_flux src "ExperimentId"])) as Hcv.
  { unfold DataCollector.collect_values, DataCollector.bind. rewrite Hq.
    by rewrite _query_df_sent. }
  unfold DataCollector.get_all_experimentIds, DataCollector.legacy_tags.
  simpl DataCollector.for_each_tag. rewrite Hcv. done.
Qed.

Lemma catalog_route_propagates_failure_witness :
  @get_all_executionIds Scenario.conversions "uma" (Outage.deployment Outage.down true)
  = (Raise ApiException,
     set_sent [DataCollector.tag_values_flux Outage.down "ExperimentId"]
              (Outage.deployment Outage.down true)).
Proof.
  apply (@catalog_route_propagates_failure Scenario.builtins Scenario.conversions
           Scenario.collaborators "uma" Outage.down
           (Outage.deployment Outage.down true) ApiException);
    [reflexivity | discriminate | reflexivity].
Defined.

(** ** One failing measurement *)

Section partial_results.
Context `{!Builtins, !Conversions}.
Variable self : DataCollector.t.

Lemma io_bind_inv_Ok {A B} (x : DataCollector.io A) (f : A -> DataCollector.io B) (b : B) :
  (DataCollector.bind x f).1 = Ok b ->
  exists a, x.1 = Ok a /\ (f a).1 = Ok b.
Proof. unfold DataCollector.bind. destruct x.1 as [a|e]; [by exists a | done]. Qed.

Lemma io_bind_Ok_eq {A B} (x : DataCollector.io A) (f : A -> DataCollector.io B) (a : A) :
  x.1 = Ok a -> DataCollector.bind x f = ((f a).1, x.2 ++ (f a).2).
Proof. unfold DataCollector.bind. by intros ->. Qed.

(** If the loop gets through [before] and the query for [m] raises, the
    loop raises there: what was fetched is dropped and nothing after [m]
    is asked for. *)
Lemma for_each_measurement_aborts (experimentId : string) (fields : list string)
    (limit offset : arg) (max_lag start : string)
    (before after : list string) (m flux : string) (e : exn) :
  forall dfs dfs1 : list DataFrame,
  (DataCollector.for_each_measurement self experimentId fields limit offset max_lag
     start before dfs).1 = Ok dfs1 ->
  DataCollector.data_flux self m experimentId fields limit offset max_lag start = Ok flux ->
  (DataCollector._query_df self flux).1 = Raise e ->
  DataCollector.for_each_measurement self experimentId fields limit offset max_lag
    start (before ++ m :: after) dfs
  = (Raise e,
     (DataCollector.for_each_measurement self experimentId fields limit offset max_lag
        start before dfs).2 ++ [flux]).
Proof.
  induction before as [|b before IH]; intros dfs dfs1 Hbefore Hflux Hq.
  - simpl. rewrite Hflux. unfold DataCollector.bind, DataCollector.lift. simpl.
    by rewrite Hq, _query_df_sent.
  - simpl in *.
    apply io_bind_inv_Ok in Hbefore as (fb & Hfb & Hbefore).
    apply io_bind_inv_Ok in Hbefore as (dfb & Hdfb & Hbefore).
    apply io_bind_inv_Ok in Hbefore as (dfs' & Hstep & Hbefore).
    assert (DataCollector.data_flux self b experimentId fields limit offset max_lag start
            = Ok fb) as Hfb' by (by destruct (DataCollector.data_flux _ _ _ _ _ _ _ _)).
    rewrite Hfb'. specialize (IH dfs' dfs1 Hbefore Hflux Hq).
    rewrite !(io_bind_Ok_eq (DataCollector.lift (Ok fb)) _ fb eq_refl).
    rewrite !(io_bind_Ok_eq _ _ dfb Hdfb).
    rewrite !(io_bind_Ok_eq _ _ dfs' Hstep).
    rewrite IH. simpl. by rewrite !app_assoc.
Qed.

End partial_results.

(** X11. A failure on one measurement fails the whole fetch: the collector
    raises what that query raised, the frames of the measurements before
    it are lost with it, and the measurements after it are not queried. *)
Theorem one_failed_measurement_fails_get_data `{!Builtins, !Conversions}
    (self : DataCollector.t) (experimentId : string) (fields : list string)
    (additional_clause : option string) (chunked : bool) (chunk_size : Z)
    (limit offset : arg) (max_lag start : string)
    (before after : list string) (m flux : string) (e : exn) (dfs : list DataFrame) :
  (DataCollector.for_each_measurement self experimentId fields limit offset max_lag
     start before []).1 = Ok dfs ->
  DataCollector.data_flux self m experimentId fields limit offset max_lag start = Ok flux ->
  (DataCollector._query_df self flux).1 = Raise e ->
  DataCollector.get_data self experimentId (before ++ m :: after) fields
    additional_clause chunked chunk_size limit offset max_lag start
  = (Raise e,
     (DataCollector.for_each_measurement self experimentId fields limit offset max_lag
        start before []).2 ++ [flux]).
Proof.
  intros Hbefore Hflux Hq. unfold DataCollector.get_data.
  assert (match before ++ m :: after with
          | [] => DataCollector.get_measurements_for_experimentId self experimentId start
          | _ :: _ => DataCollector.ret (before ++ m :: after)
          end = DataCollector.ret (before ++ m :: after)) as ->
    by (by destruct before).
  unfold DataCollector.bind at 1. simpl fst. simpl snd. simpl app.
  unfold DataCollector.bind.
  by rewrite (for_each_measurement_aborts self experimentId fields limit offset max_lag
                start before after m flux e [] dfs Hbefore Hflux Hq).
Qed.

Lemma one_failed_measurement_fails_get_data_witness :
  (@DataCollector.get_data Scenario.builtins Scenario.conversions Outage.flaky
     "42" ["Throughput_Measures"; "Broken_Measures"; "Delay_Measures"] []
     None false 10000 ArgNone ArgNone "1s" "-30d").1
  = Raise ApiException.
Proof.
  pose proof (@one_failed_measurement_fails_get_data
                Scenario.builtins Scenario.conversions Outage.flaky "42" []
                None false 10000 ArgNone ArgNone "1s" "-30d"
                ["Throughput_Measures"] ["Delay_Measures"] "Broken_Measures"
                _ ApiException _
                ltac:(vm_compute; reflexivity) ltac:(reflexivity)
                ltac:(vm_compute; reflexivity)) as Hrun.
  simpl app in Hrun. by rewrite Hrun.
Defined.

(** ** What a fetched frame keeps *)

Section tidy.
Context `{!Conversions}.

Lemma filter_absent (c : string) (l : list (string * list cell)) :
  c ∉ l.*1 -> filter (fun kv => kv.1 <> c) l = l.
Proof.
  induction l as [|[k v] l IH]; [done |]. simpl. intros Hc.
  rewrite filter_cons. simpl. destruct (decide (k <> c)) as [Hne | Heq].
  - f_equal. apply IH. intros Hin. apply Hc. by right.
  - destruct (decide (k = c)) as [-> | Hne]; [| done].
    exfalso. apply Hc. by left.
Qed.

(** Dropping a column that may be absent. *)
Lemma drop_if_present (c : string) (d : DataFrame) :
  (if has_column c d then drop c d else d)
  = mkFrame (index d) (filter (fun kv => kv.1 <> c) (columns d)).
Proof.
  unfold has_column, column_names, drop. case_bool_decide as Hc; [done |].
  rewrite filter_absent by done. by destruct d.
Qed.

Lemma drop_helpers (cs : list string) (d : DataFrame) :
  foldl (fun d c => if has_column c d then drop c d else d) d cs
  = mkFrame (index d) (filter (fun kv => kv.1 ∉ cs) (columns d)).
Proof.
  revert d. induction cs as [|c cs IH]; intros d; cbn [foldl].
  - assert (filter (fun kv : string * list cell => kv.1 ∉ []) (columns d) = columns d)
      as ->; [| by destruct d].
    induction (columns d) as [|kv l IHl]; [done |].
    rewrite filter_cons_True by apply not_elem_of_nil. by rewrite IHl.
  - rewrite IH, drop_if_present. cbn [index columns]. f_equal.
    rewrite list_filter_filter. apply list_filter_iff.
    intros kv. rewrite not_elem_of_cons. tauto.
Qed.

Lemma to_datetime_times (ts : list Z) : to_datetime (CTime <$> ts) = Ok (LTime <$> ts).
Proof.
  induction ts as [|t ts IH]; [done |].
  rewrite !fmap_cons.
  change (to_datetime (CTime t :: (CTime <$> ts)))
    with (obind (to_datetime_cell (CTime t)) (fun l =>
          obind (to_datetime (CTime <$> ts)) (fun ls => Ok (l :: ls)))).
  by rewrite IH.
Qed.

End tidy.

(** X12. Of a reply, [get_data] keeps every column except the five helper
    columns, in their order (tag columns such as [ExperimentId] stay); the
    rows are labelled by the [_time] column when there is one, and keep
    their labels otherwise. *)
Theorem tidy_keeps_the_other_columns `{!Conversions} (df df' : DataFrame) :
  DataCollector.tidy df = Ok df' ->
  columns df' = filter (fun kv => kv.1 ∉ DataCollector.helper_columns) (columns df) /\
  (has_column "_time" df = false -> index df' = index df) /\
  (forall ts, column "_time" df = Ok (CTime <$> ts) -> index df' = LTime <$> ts).
Proof.
  unfold DataCollector.tidy. intros Ht.
  destruct (has_column "_time" df) eqn:Htime.
  - destruct (has_column_column _ _ Htime) as [col Hcol]. rewrite Hcol in Ht.
    cbn [obind] in Ht. destruct (to_datetime col) as [idx|e] eqn:Hidx;
      cbn [obind] in Ht; [| done].
    rewrite drop_helpers in Ht. injection Ht as <-. cbn [columns index set_index].
    split; [done |]. split; [done |].
    intros ts Hts. rewrite Hcol in Hts. injection Hts as ->.
    rewrite to_datetime_times in Hidx. by injection Hidx as <-.
  - cbn [obind] in Ht. rewrite drop_helpers in Ht. injection Ht as <-.
    cbn [columns index].
    split; [done |]. split; [done |].
    intros ts Hts. exfalso. revert Htime Hts. unfold has_column, column, column_names.
    intros Hno%bool_decide_eq_false.
    destruct (assoc "_time" (columns df)) as [col|] eqn:Ha; [| done]. intros _.
    apply Hno. clear Hno. revert Ha.
    induction (columns df) as [|[k v] l IH]; simpl; [done |].
    destruct (decide (k = "_time")) as [-> | Hne]; [by left | right; by apply IH].
Qed.

Lemma tidy_keeps_the_other_columns_witness :
  @DataCollector.tidy Scenario.conversions
    (Scenario.throughput_rows "42" [seconds 1000; seconds 1001] [10; 12])
  = Ok (Scenario.throughput_series "42" [seconds 1000; seconds 1001] [10; 12]) /\
  columns (Scenario.throughput_series "42" [seconds 1000; seconds 1001] [10; 12])
  = filter (fun kv => kv.1 ∉ DataCollector.helper_columns)
           (columns (Scenario.throughput_rows "42" [seconds 1000; seconds 1001] [10; 12])).
Proof.
  split; [vm_compute; reflexivity |].
  apply (@tidy_keeps_the_other_columns Scenario.conversions
           (Scenario.throughput_rows "42" [seconds 1000; seconds 1001] [10; 12])
           (Scenario.throughput_series "42" [seconds 1000; seconds 1001] [10; 12])).
  vm_compute. reflexivity.
Defined.

(** ** Numbers in the query string *)

Section numbers.
Context `{!Builtins, !Conversions, !Collaborators}.

Lemma int_arg_world (k : string) (args : list (string * string)) (w : World) :
  (int_arg k args w).2 = w.
Proof.
  unfold int_arg. destruct (get k args) as [s|]; [| done].
  destruct (truthy s); [| done]. unfold bind, lift, ret.
  by destruct (int_of_str s).
Qed.

Lemma int_arg_unparsable (k : string) (args : list (string * string)) (w : World) :
  unparsable k args -> exists e, int_arg k args w = (Raise e, w).
Proof.
  intros (s & e & Hs & Ht & Hi). exists e.
  unfold int_arg, bind, lift. by rewrite Hs, Ht, Hi.
Qed.

End numbers.

(** X13. A [chunk_size], [limit] or [offset] that is no number makes the
    [get_data] route raise before it looks at the datasource: no response
    is produced, nothing is sent and nothing is cached, whether or not the
    datasource exists (and although [chunk_size] is otherwise unused). *)
Theorem non_numeric_parameter_raises `{!Builtins, !Conversions, !Collaborators}
    (args : list (string * string)) (name experimentId1 : string)
    (experimentId2 : option string) (w : World) :
  unparsable "chunk_size" args \/ unparsable "limit" args \/ unparsable "offset" args ->
  exists e, get_data args name experimentId1 experimentId2 w = (Raise e, w).
Proof.
  intros Hbad. unfold get_data.
  set (size := match get "chunk_size" args with
               | Some s => if truthy s then int_of_str s else Ok 10000
               | None => Ok 10000
               end).
  assert (unparsable "chunk_size" args -> exists e, size = Raise e) as Hsize.
  { intros (s & e & Hs & Ht & Hi). exists e. subst size. by rewrite Hs, Ht. }
  destruct size as [n|e] eqn:Hn; cycle 1.
  { exists e. by apply bind_Raise. }
  erewrite bind_Ok by reflexivity.
  destruct Hbad as [Hc | Hbad]; [by destruct (Hsize Hc) |].
  destruct (int_arg "limit" args w) as [[l|e] w1] eqn:Hl; cycle 1.
  { exists e. pose proof (int_arg_world "limit" args w) as Hw. rewrite Hl in Hw.
    simpl in Hw. subst w1. by apply bind_Raise. }
  pose proof (int_arg_world "limit" args w) as Hw. rewrite Hl in Hw. simpl in Hw.
  subst w1. rewrite (bind_Ok _ _ _ _ _ Hl).
  destruct Hbad as [Hlim | Hoff].
  { destruct (int_arg_unparsable "limit" args w Hlim) as [e He]. congruence. }
  destruct (int_arg_unparsable "offset" args w Hoff) as [e He].
  exists e. by apply bind_Raise.
Qed.

Lemma non_numeric_parameter_raises_witness :
  @unparsable Scenario.builtins "chunk_size" [("chunk_size", "big")] /\
  @get_data Scenario.builtins Scenario.conversions Scenario.collaborators
    [("chunk_size", "big")] "uma" "42" None (Scenario.deployment true)
  = (Raise ValueError, Scenario.deployment true).
Proof.
  assert (@unparsable Scenario.builtins "chunk_size" [("chunk_size", "big")]) as Hbad
    by (exists "big", ValueError; repeat split; reflexivity).
  split; [exact Hbad |].
  destruct (@non_numeric_parameter_raises Scenario.builtins Scenario.conversions
              Scenario.collaborators [("chunk_size", "big")] "uma" "42" None
              (Scenario.deployment true) (or_introl Hbad)) as [e He].
  rewrite He. f_equal.
  assert ((@get_data Scenario.builtins Scenario.conversions Scenario.collaborators
             [("chunk_size", "big")] "uma" "42" None (Scenario.deployment true)).1
          = Raise ValueError) as H1 by (vm_compute; reflexivity).
  rewrite He in H1. exact H1.
Defined.

(** X14. An empty [limit] (as in [?limit=]) is kept as text by the route and
    reaches the collector, whose [int()] on it raises before the first
    data query: with measurements given, the retrieval raises, sends
    nothing and caches nothing. *)
Theorem empty_limit_raises_in_the_collector `{!Builtins, !Conversions, !Collaborators}
    (q : request) (src : DataCollector.t) (w : World) (e : exn) :
  int_of_str EmptyString = Raise e ->
  limit q = ArgStr EmptyString ->
  measurements q <> [] ->
  sources w !! datasource q = Some src ->
  DataCollector.client src <> None ->
  misses q w ->
  (forall args w', get "limit" args = Some EmptyString ->
                   int_arg "limit" args w' = (Ok (ArgStr EmptyString), w')) /\
  (retrieve q w).1 = Raise e /\
  sent (retrieve q w).2 = sent w /\
  data_cache (retrieve q w).2 = data_cache w.
Proof.
  intros Hint Hl Hms Hsrc Hc Hm.
  split.
  { intros args w' Hget. unfold int_arg. by rewrite Hget. }
  pose proof (available _ _ _ Hsrc Hc) as Hd.
  assert (collected src q = (Raise e, [])) as Hcol.
  { unfold collected, DataCollector.get_data.
    destruct (measurements q) as [|m ms]; [done |].
    rewrite (io_bind_Ok_eq (DataCollector.ret (m :: ms)) _ (m :: ms) eq_refl).
    cbn [DataCollector.for_each_measurement].
    assert (DataCollector.data_flux src m (experimentId q) (fields q) (limit q)
              (offset q) (max_lag q) DataCollector.default_start = Raise e) as ->.
    { unfold DataCollector.data_flux, DataCollector.limit_clause.
      rewrite Hl. simpl. by rewrite Hint. }
    done. }
  rewrite (retrieve_available q src w Hd Hsrc). unfold misses in Hm.
  rewrite Hm, Hcol. simpl. by rewrite app_nil_r.
Qed.

Lemma empty_limit_raises_in_the_collector_witness :
  @int_of_str Scenario.builtins EmptyString = Raise ValueError /\
  (@get_data Scenario.builtins Scenario.conversions Scenario.collaborators
     [("measurement", "Throughput_Measures"); ("limit", EmptyString)]
     "uma" "42" None (Scenario.deployment true)).1 = Raise ValueError /\
  (@retrieve Scenario.builtins Scenario.conversions Scenario.collaborators
     (mkRequest "uma" "42" ["Throughput_Measures"] [] false None None false 10000
                (ArgStr EmptyString) ArgNone "1s")
     (Scenario.deployment true)).1 = Raise ValueError.
Proof.
  split; [reflexivity |]. split; [vm_compute; reflexivity |].
  apply (@empty_limit_raises_in_the_collector Scenario.builtins Scenario.conversions
           Scenario.collaborators
           (mkRequest "uma" "42" ["Throughput_Measures"] [] false None None false 10000
                      (ArgStr EmptyString) ArgNone "1s")
           Scenario.uma (Scenario.deployment true) ValueError);
    [reflexivity | reflexivity | discriminate | reflexivity | discriminate | reflexivity].
Defined.

(** ** The comparison path and the cache *)

Section shared_objects.
Context `{!Builtins, !Conversions, !Collaborators}.

(** The comparison path, step by step, with the world it leaves. *)
Lemma rebased_pair_run (q : request) (experimentId2 : string) (w w1 w2 : World)
    (r1 r2 : ref) (series1 series2 : DataFrame) (ts1 ts2 : list Z) (m1 m2 : Z) :
  retrieve q w = (Ok (Some r1), w1) ->
  heap w1 !! r1 = Some (OFrame series1) ->
  index series1 = LTime <$> ts1 ->
  m1 ∈ ts1 -> (forall t, t ∈ ts1 -> m1 <= t <= m1 + int64_max) ->
  retrieve (with_experiment experimentId2 q)
    (set_heap (<[r1 := reindexed (rebased_on m1 ts1) series1]> (heap w1)) w1)
  = (Ok (Some r2), w2) ->
  heap w2 !! r2 = Some (OFrame series2) ->
  index series2 = LTime <$> ts2 ->
  m2 ∈ ts2 -> (forall t, t ∈ ts2 -> m2 <= t <= m2 + int64_max) ->
  r1 <> r2 /\
  heap w2 !! r1 = Some (reindexed (rebased_on m1 ts1) series1) /\
  rebased_pair (datasource q) (experimentId q) experimentId2 (measurements q)
    (fields q) (match_series q) (remove_outliers q) (additional_clause q)
    (chunked q) (chunk_size q) (limit q) (offset q) (max_lag q) w
  = (Ok (Some [("series1", set_index (rebased_on m1 ts1) series1);
               ("series2", set_index (rebased_on m2 ts2) series2)]),
     set_heap (<[r2 := reindexed (rebased_on m2 ts2) series2]> (heap w2)) w2).
Proof.
  intros Hq1 Hr1 Hi1 Hin1 Hb1 Hq2 Hr2 Hi2 Hin2 Hb2.
  assert (forall (ts : list Z) (m : Z),
            m ∈ ts -> (forall t, t ∈ ts -> m <= t <= m + int64_max) ->
            index_sub_min (LTime <$> ts) = Ok (rebased_on m ts)) as Hsub.
  { intros ts m Hin Hb.
    destruct (index_sub_min_times ts) as (m' & Hin' & Hle' & ->).
    - intros ->. by apply elem_of_nil in Hin.
    - intros t u Ht Hu. pose proof (Hb t Ht). pose proof (Hb u Hu). lia.
    - replace m' with m; [done |].
      pose proof (Hle' m Hin). pose proof (Hb m' Hin'). lia. }
  pose proof (Hsub ts1 m1 Hin1 Hb1) as Hsub1. pose proof (Hsub ts2 m2 Hin2 Hb2) as Hsub2.
  rewrite <- Hi1 in Hsub1. rewrite <- Hi2 in Hsub2.
  set (w1' := set_heap (<[r1 := reindexed (rebased_on m1 ts1) series1]> (heap w1)) w1)
    in *.
  assert (heap w1' !! r1 = Some (reindexed (rebased_on m1 ts1) series1)) as Hr1'.
  { simpl. apply list_lookup_insert_eq. by eapply lookup_lt_Some. }
  destruct (retrieve_grows (with_experiment experimentId2 q) w1') as [extra Hgrow].
  rewrite Hq2 in Hgrow. simpl fst in Hgrow. simpl snd in Hgrow.
  assert (heap w2 !! r1 = Some (reindexed (rebased_on m1 ts1) series1)) as Hr12.
  { rewrite Hgrow. by apply lookup_app_l_Some. }
  assert (r1 <> r2) as Hne.
  { intros ->. rewrite Hr2 in Hr12. injection Hr12 as ->.
    simpl in Hi2.
    destruct ts1, ts2;
      first [done | by apply elem_of_nil in Hin1 | by apply elem_of_nil in Hin2]. }
  split; [done |]. split; [done |].
  set (w2' := set_heap (<[r2 := reindexed (rebased_on m2 ts2) series2]> (heap w2)) w2).
  assert (heap w2' !! r1 = Some (reindexed (rebased_on m1 ts1) series1)) as Hr1''.
  { simpl. by rewrite list_lookup_insert_ne. }
  assert (heap w2' !! r2 = Some (reindexed (rebased_on m2 ts2) series2)) as Hr2'.
  { simpl. apply list_lookup_insert_eq. by eapply lookup_lt_Some. }
  unfold rebased_pair. fold (retrieve q).
  change (retrieve_data (datasource q) experimentId2 (measurements q) (fields q)
            (match_series q) (remove_outliers q) (additional_clause q) (chunked q)
            (chunk_size q) (limit q) (offset q) (max_lag q))
    with (retrieve (with_experiment experimentId2 q)).
  rewrite (bind_Ok _ _ _ _ _ Hq1).
  rewrite (bind_Ok _ _ _ _ _ (rebase_run r1 series1 _ w1 Hr1 Hsub1)).
  fold w1'. rewrite (bind_Ok _ _ _ _ _ Hq2).
  rewrite (bind_Ok _ _ _ _ _ (rebase_run r2 series2 _ w2 Hr2 Hsub2)).
  fold w2'.
  rewrite (bind_Ok _ _ _ _ _ (load_frame_run r1 _ w2' Hr1'')).
  rewrite (bind_Ok _ _ _ _ _ (load_frame_run r2 _ w2' Hr2')).
  done.
Qed.

End shared_objects.

(** X15. The comparison path rebases the object it was handed, and with the
    cache on and no post-processing that object is the cache entry: after
    a comparison the entry of the first experiment carries the rebased
    index, and a later request for that experiment alone is answered with
    distances from the first sample in place of the stored timestamps. *)
Theorem comparison_rewrites_the_cache_entry `{!Builtins, !Conversions, !Collaborators}
    (q : request) (experimentId2 : string) (w w1 w2 : World) (r1 r2 : ref)
    (series1 series2 : DataFrame) (ts1 ts2 : list Z) (m1 m2 : Z) :
  enable_cache w = true ->
  match_series q = false ->
  truthy_opt (remove_outliers q) = false ->
  retrieve q w = (Ok (Some r1), w1) ->
  data_cache w1 !! fingerprint q = Some r1 ->
  heap w1 !! r1 = Some (OFrame series1) ->
  index series1 = LTime <$> ts1 ->
  m1 ∈ ts1 -> (forall t, t ∈ ts1 -> m1 <= t <= m1 + int64_max) ->
  retrieve (with_experiment experimentId2 q)
    (set_heap (<[r1 := reindexed (rebased_on m1 ts1) series1]> (heap w1)) w1)
  = (Ok (Some r2), w2) ->
  heap w2 !! r2 = Some (OFrame series2) ->
  index series2 = LTime <$> ts2 ->
  m2 ∈ ts2 -> (forall t, t ∈ ts2 -> m2 <= t <= m2 + int64_max) ->
  let after_comparison :=
    (rebased_pair (datasource q) (experimentId q) experimentId2 (measurements q)
       (fields q) (match_series q) (remove_outliers q) (additional_clause q)
       (chunked q) (chunk_size q) (limit q) (offset q) (max_lag q) w).2 in
  data_cache after_comparison !! fingerprint q = Some r1 /\
  heap after_comparison !! r1 = Some (reindexed (rebased_on m1 ts1) series1) /\
  returned (retrieve q after_comparison)
  = Ok (Some (reindexed (rebased_on m1 ts1) series1)).
Proof.
  intros Hen Hms Hro Hq1 Hk1 Hr1 Hi1 Hin1 Hb1 Hq2 Hr2 Hi2 Hin2 Hb2 wf.
  destruct (rebased_pair_run q experimentId2 w w1 w2 r1 r2 series1 series2 ts1 ts2 m1 m2
              Hq1 Hr1 Hi1 Hin1 Hb1 Hq2 Hr2 Hi2 Hin2 Hb2) as (Hne & Hr12 & Hrun).
  subst wf. rewrite Hrun. cbn [snd].
  set (w1' := set_heap (<[r1 := reindexed (rebased_on m1 ts1) series1]> (heap w1)) w1)
    in *.
  set (w2' := set_heap (<[r2 := reindexed (rebased_on m2 ts2) series2]> (heap w2)) w2).
  destruct (retrieve_frame q w) as (Hs1 & He1 & _ & _ & _ & _).
  rewrite Hq1 in Hs1, He1. cbn [snd] in Hs1, He1.
  destruct (retrieve_frame (with_experiment experimentId2 q) w1')
    as (Hs2 & He2 & _ & _ & Hkeep & _).
  rewrite Hq2 in Hs2, He2, Hkeep. cbn [snd] in Hs2, He2, Hkeep.
  assert (data_cache w2' !! fingerprint q = Some r1) as Hk.
  { simpl. by apply Hkeep. }
  assert (heap w2' !! r1 = Some (reindexed (rebased_on m1 ts1) series1)) as Hr.
  { simpl. by rewrite list_lookup_insert_ne. }
  split; [done |]. split; [done |].
  assert (unavailable (datasource q) w = false) as Hd.
  { destruct (unavailable (datasource q) w) eqn:Hd; [| done].
    rewrite retrieve_unavailable in Hq1 by done. done. }
  assert (unavailable (datasource q) w2' = false) as Hd'.
  { unfold unavailable in *. simpl. rewrite Hs2. simpl. by rewrite Hs1. }
  assert (enable_cache w2' = true) as Hen'.
  { simpl. rewrite He2. simpl. by rewrite He1. }
  destruct (retrieve_hit q w2' r1 _ Hd' Hen' Hk Hr) as [_ ->].
  unfold post_processed, outliers_removed. by rewrite Hms, Hro.
Qed.

Lemma comparison_rewrites_the_cache_entry_witness :
  let after_comparison :=
    (@rebased_pair Scenario.builtins Scenario.conversions Scenario.collaborators
       "uma" "42" "43" [] [] false None None false 10000 ArgNone ArgNone "1s"
       (Scenario.deployment true)).2 in
  returned (@retrieve Scenario.builtins Scenario.conversions Scenario.collaborators
              Scenario.plain after_comparison)
  = Ok (Some (reindexed [LDelta 0; LDelta (seconds 1); LDelta (seconds 2)]
                (Scenario.throughput_series "42"
                   [seconds 1000; seconds 1001; seconds 1002] [10; 12; 11]))).
Proof.
  pose (w := Scenario.deployment true).
  pose (s1 := Scenario.throughput_series "42"
                [seconds 1000; seconds 1001; seconds 1002] [10; 12; 11]).
  pose (w1 := (@retrieve Scenario.builtins Scenario.conversions Scenario.collaborators
                 Scenario.plain w).2).
  pose (w1' := set_heap (<[0%nat := reindexed
                             (rebased_on (seconds 1000)
                                [seconds 1000; seconds 1001; seconds 1002]) s1]>
                           (heap w1)) w1).
  pose (w2 := (@retrieve Scenario.builtins Scenario.conversions Scenario.collaborators
                 (with_experiment "43" Scenario.plain) w1').2).
  apply (@comparison_rewrites_the_cache_entry
           Scenario.builtins Scenario.conversions Scenario.collaborators
           Scenario.plain "43" w w1 w2 0%nat 1%nat s1
           (Scenario.throughput_series "43"
              [seconds 5000; seconds 5001; seconds 5002] [20; 21; 22])
           [seconds 1000; seconds 1001; seconds 1002]
           [seconds 5000; seconds 5001; seconds 5002]
           (seconds 1000) (seconds 5000)
           ltac:(reflexivity) ltac:(reflexivity) ltac:(reflexivity)
           ltac:(vm_compute; reflexivity) ltac:(vm_compute; reflexivity)
           ltac:(vm_compute; reflexivity)
           ltac:(reflexivity) ltac:(by left)
           ltac:(intros t Ht; repeat (apply elem_of_cons in Ht as [-> | Ht]);
                 [vm_compute; split; discriminate .. | by apply elem_of_nil in Ht])
           ltac:(vm_compute; reflexivity) ltac:(vm_compute; reflexivity)
           ltac:(reflexivity) ltac:(by left)
           ltac:(intros t Ht; repeat (apply elem_of_cons in Ht as [-> | Ht]);
                 [vm_compute; split; discriminate .. | by apply elem_of_nil in Ht])).
Defined.

(* ===================================================================== *)
(** * Connection settings and start-up: properties                         *)
(* ===================================================================== *)

Section settings.
Import Config.
Context `{!Builtins}.
Variable h : Host.

Lemma or_get_Ok (x : value) (k : string) (cfg v : value) :
  or_get x k cfg = Ok v -> truth x = true -> v = x.
Proof.
  unfold or_get. intros Hg Hx. rewrite Hx in Hg. congruence.
Qed.

Lemma or_get_dict (x : value) (k : string) (cfg : list (value * value)) :
  or_get x k (VDict cfg) = Ok (if truth x then x else at_key k cfg).
Proof.
  unfold or_get, get, at_key. by destruct (truth x).
Qed.

Lemma or_truth (x y : value) :
  (truth x = false -> truth y = false) ->
  truth (if truth x then x else y) = truth x.
Proof.
  destruct (truth x) eqn:Hx; [done |]. intros Hy. by apply Hy.
Qed.

(** Consulting the secret never replaces a setting that was given. *)
Lemma consult_keeps (url0 org0 bucket0 token0 : value) (secret_path : option string)
    (u o b t : value) :
  consult h url0 org0 bucket0 token0 secret_path = Ok (u, o, b, t) ->
  (truth url0 = true -> u = url0) /\ (truth org0 = true -> o = org0) /\
  (truth bucket0 = true -> b = bucket0) /\ (truth token0 = true -> t = token0).
Proof.
  unfold consult.
  destruct (truth url0 && truth org0 && truth bucket0 && truth token0).
  { intros [= -> -> -> ->]. done. }
  destruct (_load_secret h secret_path) as [cfg| |e]; [| intros [= -> -> -> ->]; done | done].
  destruct (or_get url0 "url" cfg) as [u'|] eqn:Hu; [| done].
  destruct (or_get org0 "org" cfg) as [o'|] eqn:Ho; [| done].
  destruct (or_get bucket0 "bucket" cfg) as [b'|] eqn:Hb; [| done].
  destruct (or_get token0 "token" cfg) as [t'|] eqn:Ht; [| done].
  simpl. intros [= <- <- <- <-].
  repeat split; intros; eapply or_get_Ok; eauto.
Qed.

(** With the four settings there, the secret is not consulted. *)
Lemma consult_complete (url0 org0 bucket0 token0 : value) (secret_path : option string) :
  complete url0 org0 bucket0 token0 = true ->
  consult h url0 org0 bucket0 token0 secret_path = Ok (url0, org0, bucket0, token0).
Proof.
  unfold complete, consult. by intros ->.
Qed.

(** What the constructor does once the four settings are there. *)
Lemma init_complete (host port database url0 org0 bucket0 token0 : value)
    (secret_path : option string) :
  complete url0 org0 bucket0 token0 = true ->
  __init__ h host port database url0 org0 bucket0 token0 secret_path
  = obind (connect h url0 token0 org0)
          (fun _ => Ok (mkSettings url0 org0 bucket0 token0)).
Proof.
  intros Hc. unfold __init__. rewrite consult_complete by done. cbn [obind].
  unfold complete in Hc.
  destruct (truth url0) eqn:Hu; [| done].
  destruct (truth org0) eqn:Ho; [| done].
  destruct (truth bucket0) eqn:Hb; [| done].
  destruct (truth token0) eqn:Ht; [| done].
  cbn [negb andb]. rewrite andb_false_r. cbn [andb]. rewrite Hu, Hb. done.
Qed.

End settings.

(** What a returned collector has, as the later proofs use it. *)
Lemma init_Ok `{!Builtins} (h : Config.Host)
    (host port database url0 org0 bucket0 token0 : Config.value)
    (secret_path : option string) (s : Config.Settings) :
  Config.__init__ h host port database url0 org0 bucket0 token0 secret_path = Ok s ->
  complete (Config.url s) (Config.org s) (Config.bucket s) (Config.token s) = true /\
  (Config.truth url0 = true -> Config.url s = url0) /\
  (Config.truth org0 = true -> Config.org s = org0) /\
  (Config.truth bucket0 = true -> Config.bucket s = bucket0) /\
  (Config.truth token0 = true -> Config.token s = token0).
Proof.
  unfold Config.__init__.
  destruct (Config.consult h url0 org0 bucket0 token0 secret_path)
    as [[[[u o] b] t]|e] eqn:Hc; [| done].
  destruct (consult_keeps h _ _ _ _ _ _ _ _ _ Hc) as (Hu & Ho & Hb & Ht).
  cbn [obind].
  set (u' := if negb (Config.truth u) && Config.truth host && Config.truth port
             then _ else u).
  set (b' := if Config.truth database && negb (Config.truth b) then database else b).
  destruct (Config.truth u' && Config.truth o && Config.truth b' && Config.truth t)
    eqn:Hall; [| done].
  destruct (Config.connect h u' t o); [| done].
  cbn [obind]. intros [= <-]. cbn.
  split; [exact Hall |].
  repeat split; intros Hx.
  - subst u'. rewrite (Hu Hx), Hx. done.
  - by apply Ho.
  - subst b'. rewrite (Hb Hx), Hx. by rewrite andb_false_r.
  - by apply Ht.
Qed.

(** X16. Every collector the constructor returns has a url, an org, a bucket
    and a token that are true, and a setting that was passed in and is true is
    the one it has: neither the secret nor [host], [port] and [database] take
    the place of it. *)
Theorem constructed_settings_are_set `{!Builtins} (h : Config.Host)
    (host port database url0 org0 bucket0 token0 : Config.value)
    (secret_path : option string) (s : Config.Settings) :
  Config.__init__ h host port database url0 org0 bucket0 token0 secret_path = Ok s ->
  complete (Config.url s) (Config.org s) (Config.bucket s) (Config.token s) = true /\
  (Config.truth url0 = true -> Config.url s = url0) /\
  (Config.truth org0 = true -> Config.org s = org0) /\
  (Config.truth bucket0 = true -> Config.bucket s = bucket0) /\
  (Config.truth token0 = true -> Config.token s = token0).
Proof.
  apply init_Ok.
Qed.

(** X17. When the four settings are passed in and true, nothing else plays a
    part: not the connection file (which may be missing or malformed), not
    the environment, not [host], [port], [database] or [secret_path].  Two
    machines that build the client alike construct alike. *)
Theorem complete_settings_need_no_secret `{!Builtins} (h h' : Config.Host)
    (host port database host' port' database' url0 org0 bucket0 token0 : Config.value)
    (secret_path secret_path' : option string) :
  complete url0 org0 bucket0 token0 = true ->
  Config.connect h url0 token0 org0 = Config.connect h' url0 token0 org0 ->
  Config.__init__ h host port database url0 org0 bucket0 token0 secret_path
  = Config.__init__ h' host' port' database' url0 org0 bucket0 token0 secret_path'.
Proof.
  intros Hc Hcon. rewrite !init_complete by done. by rewrite Hcon.
Qed.

(** X18. A secret that is no mapping is not passed over like a missing file:
    when a setting is not given and the secret (its [uma] section, if it has
    one) is anything but a dict, the constructor raises [AttributeError], also
    when [host], [port] and [database] would have supplied what is missing. *)
Theorem secret_that_is_no_mapping_raises `{!Builtins} (h : Config.Host)
    (host port database url0 org0 bucket0 token0 cfg : Config.value)
    (secret_path : option string) :
  complete url0 org0 bucket0 token0 = false ->
  Config._load_secret h secret_path = Config.Got cfg ->
  (forall items, cfg <> Config.VDict items) ->
  Config.__init__ h host port database url0 org0 bucket0 token0 secret_path
  = Raise AttributeError.
Proof.
  intros Hc Hl Hcfg. unfold Config.__init__, Config.consult.
  unfold complete in Hc. rewrite Hc, Hl.
  assert (forall k, Config.get k cfg = Raise AttributeError) as Hget.
  { intros k. destruct cfg; try done. by destruct (Hcfg items). }
  unfold Config.or_get. rewrite !Hget.
  destruct (Config.truth url0); [| done].
  destruct (Config.truth org0); [| done].
  destruct (Config.truth bucket0); [| done].
  destruct (Config.truth token0); done.
Qed.

Section start_up.
Import Config.
Context `{!Builtins}.
Variable h : Host.

Lemma entries_app (l1 l2 : list (value * value)) :
  entries h (l1 ++ l2)
  = obind (entries h l1) (fun '(a, p) =>
    obind (entries h l2) (fun '(a', p') => Ok (a ++ a', p ++ p'))).
Proof.
  induction l1 as [|[n v] l1 IH]; simpl.
  - destruct (entries h l2) as [[a' p']|e]; done.
  - destruct (entry h n v) as [[a p]|e]; [| done]. simpl. rewrite IH.
    destruct (entries h l1) as [[a1 p1]|e]; [| done]. simpl.
    destruct (entries h l2) as [[a2 p2]|e]; [| done]. simpl.
    by rewrite !app_assoc.
Qed.

(** A passed-over entry assigns nothing and raises nothing. *)
Lemma entry_skipped (n v : value) :
  skipped v = true -> exists p, entry h n v = Ok ([], p).
Proof.
  unfold skipped, entry. destruct v as [| | | | |d|]; try by eexists.
  destruct (contains_all ["url"; "org"; "bucket"; "token"] d); [done |].
  destruct (contains "databases" d); [| by eexists].
  destruct (contains_all ["url"; "org"; "token"] d); [done | by eexists].
Qed.

Lemma entries_no_dicts (items : list (value * value)) :
  Forall (fun kv => forall d, kv.2 <> VDict d) items ->
  entries h items = Ok ([], map (fun kv => NotADict kv.1) items).
Proof.
  induction 1 as [|[n v] items Hv _ IH]; [done |].
  simpl. rewrite IH. simpl in Hv.
  destruct v; try done. by destruct (Hv items0).
Qed.

Lemma each_database_strings (n url0 org0 token0 : value) (dbs : list string) :
  truth url0 = true -> truth org0 = true -> truth token0 = true ->
  Forall (fun db => truthy db = true) dbs ->
  (forall db, db ∈ dbs -> connect h url0 token0 org0 = Ok tt) ->
  each_database h n url0 org0 token0 (map VStr dbs)
  = Ok (map (fun db => (VStr (str n +:+ "_" +:+ db),
                        mkSettings url0 org0 (VStr db) token0)) dbs).
Proof.
  intros Hu Ho Ht Hdbs Hcon.
  induction Hdbs as [|db dbs Hdb _ IH]; [done |].
  cbn [map each_database].
  rewrite init_complete by (unfold complete; cbn [truth]; by rewrite Hu, Ho, Ht, Hdb).
  rewrite (Hcon db) by left. cbn [obind].
  rewrite IH by (intros db' Hin; apply (Hcon db'); by right). done.
Qed.

(** The constructor on an entry that leaves a setting empty, with a secret
    that is a mapping: each empty setting is looked up there. *)
Lemma init_filled (d cfg : list (value * value)) :
  complete (at_key "url" d) (at_key "org" d) (at_key "bucket" d) (at_key "token" d)
  = false ->
  _load_secret h None = Got (VDict cfg) ->
  __init__ h VNone VNone VNone (at_key "url" d) (at_key "org" d)
           (at_key "bucket" d) (at_key "token" d) None
  = if complete (filled "url" d cfg) (filled "org" d cfg)
                (filled "bucket" d cfg) (filled "token" d cfg)
    then obind (connect h (filled "url" d cfg) (filled "token" d cfg)
                        (filled "org" d cfg))
               (fun _ => Ok (mkSettings (filled "url" d cfg) (filled "org" d cfg)
                                        (filled "bucket" d cfg) (filled "token" d cfg)))
    else Raise ValueError.
Proof.
  intros Hc Hl. unfold __init__, consult. unfold complete in Hc. rewrite Hc, Hl.
  rewrite !or_get_dict. cbn [obind truth negb andb]. by rewrite !andb_false_r.
Qed.

End start_up.

(** X19. The flat shape loads nothing.  When the connection file is a mapping
    none of whose values is itself a mapping (as in a file that gives [url],
    [org], [bucket] and [token] at the top), the start-up takes every key for
    the name of an entry, passes every one over with a warning, and ends with
    no datasource. *)
Theorem flat_configuration_loads_nothing `{!Builtins} (h : Config.Host) (text : string)
    (items : list (Config.value * Config.value)) :
  Config.files h Config.secret_file = Config.Text text ->
  truthy (Config.strip h text) = true ->
  Config.safe_load h (Config.strip h text) = Ok (Config.VDict items) ->
  Forall (fun kv => forall d, kv.2 <> Config.VDict d) items ->
  Config.load_sources h = Ok ([], map (fun kv => Config.NotADict kv.1) items).
Proof.
  intros Hf Ht Hy Hitems. unfold Config.load_sources, Config.get_secrets.
  rewrite Hf, Ht, Hy. cbn [obind]. by apply entries_no_dicts.
Qed.

(** X20. An entry that is passed over (no dict, or a dict with neither the
    four settings nor a usable legacy shape) has no effect on the rest: with
    or without it, the same datasources are assigned in the same order, or
    the same exception ends the start-up. *)
Theorem skipped_entry_changes_nothing `{!Builtins} (h : Config.Host)
    (before after : list (Config.value * Config.value))
    (con_name con_details : Config.value) :
  skipped con_details = true ->
  assigned (Config.entries h (before ++ (con_name, con_details) :: after))
  = assigned (Config.entries h (before ++ after)).
Proof.
  intros Hs. rewrite !entries_app. cbn [Config.entries].
  destruct (entry_skipped h con_name con_details Hs) as [p ->].
  destruct (Config.entries h before) as [[a1 p1]|e]; [| done]. cbn [obind].
  destruct (Config.entries h after) as [[a2 p2]|e]; done.
Qed.

(** X21. An entry that has the four keys but leaves a setting empty is not
    passed over.  The constructor turns to the connection file for what is
    missing; when a setting is still not true after that (as when the entry
    is the file's own [uma] section), the constructor raises [ValueError] and
    the start-up ends with that exception, whatever the entries before had
    given and whatever follows. *)
Theorem incomplete_entry_stops_the_start_up `{!Builtins} (h : Config.Host) (text : string)
    (con_name : Config.value) (d cfg before rest : list (Config.value * Config.value))
    (done_before : Config.assignments * list Config.warning) :
  Config.files h Config.secret_file = Config.Text text ->
  truthy (Config.strip h text) = true ->
  Config.safe_load h (Config.strip h text)
  = Ok (Config.VDict (before ++ (con_name, Config.VDict d) :: rest)) ->
  Config.entries h before = Ok done_before ->
  Config.contains_all ["url"; "org"; "bucket"; "token"] d = true ->
  complete (Config.at_key "url" d) (Config.at_key "org" d)
           (Config.at_key "bucket" d) (Config.at_key "token" d) = false ->
  Config._load_secret h None = Config.Got (Config.VDict cfg) ->
  complete (filled "url" d cfg) (filled "org" d cfg)
           (filled "bucket" d cfg) (filled "token" d cfg) = false ->
  Config.load_sources h = Raise ValueError.
Proof.
  intros Hf Ht Hy Hb Hkeys Hc Hl Hfill. unfold Config.load_sources, Config.get_secrets.
  rewrite Hf, Ht, Hy. cbn [obind]. rewrite entries_app, Hb.
  destruct done_before as [a p]. cbn [obind Config.entries Config.entry].
  rewrite Hkeys, (init_filled h d cfg Hc Hl), Hfill. done.
Qed.

(** X22. A legacy entry gives one datasource for each database, under the
    name of the entry, an underscore and the database, with the database as
    its bucket and the url, org and token of the entry.  Here the entry has
    [databases], [url], [org] and [token] but not all four settings, its
    databases are a list of non-empty strings, its url, org and token are
    true, and the client can be built. *)
Theorem legacy_entry_gives_a_source_for_each_database `{!Builtins} (h : Config.Host)
    (con_name : Config.value) (d : list (Config.value * Config.value))
    (dbs : list string) :
  Config.contains_all ["url"; "org"; "bucket"; "token"] d = false ->
  Config.contains_all ["url"; "org"; "token"] d = true ->
  Config.item "databases" d = Some (Config.VList (map Config.VStr dbs)) ->
  Forall (fun db => truthy db = true) dbs ->
  Config.truth (Config.at_key "url" d) = true ->
  Config.truth (Config.at_key "org" d) = true ->
  Config.truth (Config.at_key "token" d) = true ->
  Config.connect h (Config.at_key "url" d) (Config.at_key "token" d)
                 (Config.at_key "org" d) = Ok tt ->
  Config.entry h con_name (Config.VDict d)
  = Ok (map (fun db =>
               (Config.VStr (Config.str con_name +:+ "_" +:+ db),
                Config.mkSettings (Config.at_key "url" d) (Config.at_key "org" d)
                                  (Config.VStr db) (Config.at_key "token" d))) dbs,
        []).
Proof.
  intros H4 H3 Hdb Hdbs Hu Ho Ht Hcon. unfold Config.entry.
  assert (Config.at_key "databases" d = Config.VList (map Config.VStr dbs)) as Hat.
  { unfold Config.at_key. by rewrite Hdb. }
  rewrite H4, H3, Hat. unfold Config.contains. rewrite Hdb.
  cbn [Config.iterate obind].
  by rewrite each_database_strings.
Qed.

(** X23. An entry with the four settings true gives one datasource, under
    the entry's own name and with the entry's own settings, whatever else the
    entry holds and whatever the connection file says elsewhere. *)
Theorem complete_entry_gives_its_source `{!Builtins} (h : Config.Host) (con_name : Config.value)
    (d : list (Config.value * Config.value)) :
  Config.contains_all ["url"; "org"; "bucket"; "token"] d = true ->
  complete (Config.at_key "url" d) (Config.at_key "org" d)
           (Config.at_key "bucket" d) (Config.at_key "token" d) = true ->
  Config.connect h (Config.at_key "url" d) (Config.at_key "token" d)
                 (Config.at_key "org" d) = Ok tt ->
  Config.entry h con_name (Config.VDict d)
  = Ok ([(con_name,
          Config.mkSettings (Config.at_key "url" d) (Config.at_key "org" d)
                            (Config.at_key "bucket" d) (Config.at_key "token" d))],
        []).
Proof.
  intros Hkeys Hc Hcon. unfold Config.entry.
  by rewrite Hkeys, init_complete, Hcon.
Qed.

(** X24. A setting that an entry leaves empty is taken from the connection
    file as the constructor reads it: from the [uma] section if the file has
    one, else from the top of the file.  So an entry of another name is
    loaded with what the [uma] section has for the settings it lacks. *)
Theorem empty_setting_is_filled_from_the_secret `{!Builtins} (h : Config.Host)
    (con_name : Config.value) (d cfg : list (Config.value * Config.value)) :
  Config.contains_all ["url"; "org"; "bucket"; "token"] d = true ->
  complete (Config.at_key "url" d) (Config.at_key "org" d)
           (Config.at_key "bucket" d) (Config.at_key "token" d) = false ->
  Config._load_secret h None = Config.Got (Config.VDict cfg) ->
  complete (filled "url" d cfg) (filled "org" d cfg)
           (filled "bucket" d cfg) (filled "token" d cfg) = true ->
  Config.connect h (filled "url" d cfg) (filled "token" d cfg) (filled "org" d cfg)
  = Ok tt ->
  Config.entry h con_name (Config.VDict d)
  = Ok ([(con_name,
          Config.mkSettings (filled "url" d cfg) (filled "org" d cfg)
                            (filled "bucket" d cfg) (filled "token" d cfg))],
        []).
Proof.
  intros Hkeys Hc Hl Hfill Hcon. unfold Config.entry.
  by rewrite Hkeys, (init_filled h d cfg Hc Hl), Hfill, Hcon.
Qed.

(** X25. [from_secret] returns a collector only from a secret that is a
    mapping with the four keys; the collector's settings are all true, and
    each is the secret's own wherever the secret's is true. *)
Theorem from_secret_settings `{!Builtins} (h : Config.Host) (secret_path : option string)
    (s : Config.Settings) :
  Config.from_secret h secret_path = Config.Got s ->
  exists cfg,
    Config._load_secret h secret_path = Config.Got (Config.VDict cfg) /\
    Config.contains_all ["url"; "org"; "bucket"; "token"] cfg = true /\
    complete (Config.url s) (Config.org s) (Config.bucket s) (Config.token s) = true /\
    (Config.truth (Config.at_key "url" cfg) = true ->
     Config.url s = Config.at_key "url" cfg) /\
    (Config.truth (Config.at_key "org" cfg) = true ->
     Config.org s = Config.at_key "org" cfg) /\
    (Config.truth (Config.at_key "bucket" cfg) = true ->
     Config.bucket s = Config.at_key "bucket" cfg) /\
    (Config.truth (Config.at_key "token" cfg) = true ->
     Config.token s = Config.at_key "token" cfg).
Proof.
  unfold Config.from_secret.
  destruct (Config._load_secret h secret_path) as [cfg| |e]; [| done | done].
  destruct cfg as [| | | | |cfg|]; try done.
  unfold Config.subscript.
  destruct (Config.item "url" cfg) as [u|] eqn:Hu; [| done].
  destruct (Config.item "org" cfg) as [o|] eqn:Ho; [| done].
  destruct (Config.item "bucket" cfg) as [b|] eqn:Hb; [| done].
  destruct (Config.item "token" cfg) as [t|] eqn:Ht; [| done].
  cbn [obind].
  destruct (Config.__init__ h Config.VNone Config.VNone Config.VNone u o b t None)
    as [s'|e] eqn:Hi; [| done].
  intros [= ->]. exists cfg. split; [done |].
  unfold Config.contains_all, Config.contains, Config.at_key. cbn [forallb].
  rewrite Hu, Ho, Hb, Ht. split; [done |].
  exact (init_Ok h _ _ _ _ _ _ _ _ _ Hi).
Qed.

(** ** The settings and the start-up on the concrete machines *)

Section site.
#[local] Existing Instance Scenario.builtins.

Lemma constructed_settings_are_set_witness :
  let s := Config.mkSettings (Config.VStr "http://influx:8086") (Config.VStr "uma-org")
                             (Config.VStr "testdb") (Config.VStr "s3cret") in
  Config.__init__ Site.bare (Config.VStr "influx") (Config.VInt 8086)
    (Config.VStr "testdb") Config.VNone (Config.VStr "uma-org") Config.VNone
    (Config.VStr "s3cret") None = Ok s /\
  complete (Config.url s) (Config.org s) (Config.bucket s) (Config.token s) = true /\
  (Config.truth Config.VNone = true -> Config.url s = Config.VNone) /\
  (Config.truth (Config.VStr "uma-org") = true -> Config.org s = Config.VStr "uma-org") /\
  (Config.truth Config.VNone = true -> Config.bucket s = Config.VNone) /\
  (Config.truth (Config.VStr "s3cret") = true -> Config.token s = Config.VStr "s3cret").
Proof.
  intros s. split; [reflexivity |].
  exact (constructed_settings_are_set Site.bare (Config.VStr "influx") (Config.VInt 8086)
           (Config.VStr "testdb") Config.VNone (Config.VStr "uma-org") Config.VNone
           (Config.VStr "s3cret") None s eq_refl).
Defined.

Lemma complete_settings_need_no_secret_witness :
  Config.__init__ (Site.holding Site.null_uma)
    (Config.VStr "influx") (Config.VStr "8086") (Config.VStr "db")
    (Config.VStr "http://influxdb:8086") (Config.VStr "uma-org")
    (Config.VStr "testdb") (Config.VStr "s3cret") (Some "/etc/analytics.yml")
  = Config.__init__ Site.bare Config.VNone Config.VNone Config.VNone
    (Config.VStr "http://influxdb:8086") (Config.VStr "uma-org")
    (Config.VStr "testdb") (Config.VStr "s3cret") None.
Proof.
  apply complete_settings_need_no_secret; reflexivity.
Defined.

Lemma secret_that_is_no_mapping_raises_witness :
  Config.__init__ (Site.holding Site.null_uma)
    (Config.VStr "influx") (Config.VStr "8086") (Config.VStr "db")
    Config.VNone (Config.VStr "uma-org") Config.VNone (Config.VStr "s3cret") None
  = Raise AttributeError.
Proof.
  apply (secret_that_is_no_mapping_raises _ _ _ _ _ _ _ _ Config.VNone);
    [reflexivity | reflexivity | discriminate].
Defined.

Lemma flat_configuration_loads_nothing_witness :
  Config.load_sources (Site.holding Site.flat)
  = Ok ([], [Config.NotADict (Config.VStr "url"); Config.NotADict (Config.VStr "org");
             Config.NotADict (Config.VStr "bucket");
             Config.NotADict (Config.VStr "token")]).
Proof.
  apply (flat_configuration_loads_nothing (Site.holding Site.flat) Site.flat
           Site.uma_details); [reflexivity | reflexivity | reflexivity |].
  repeat constructor; discriminate.
Defined.

Lemma skipped_entry_changes_nothing_witness :
  assigned (Config.entries (Site.holding Site.named)
              ([(Config.VStr "uma", Config.VDict Site.uma_details)]
               ++ (Config.VStr "notes", Config.VStr "migrated")
               :: [(Config.VStr "athens", Config.VDict Site.athens_details)]))
  = assigned (Config.entries (Site.holding Site.named)
              ([(Config.VStr "uma", Config.VDict Site.uma_details)]
               ++ [(Config.VStr "athens", Config.VDict Site.athens_details)])).
Proof.
  apply skipped_entry_changes_nothing. reflexivity.
Defined.

Lemma incomplete_entry_stops_the_start_up_witness :
  Config.load_sources (Site.holding Site.no_token) = Raise ValueError.
Proof.
  refine (incomplete_entry_stops_the_start_up (Site.holding Site.no_token)
            Site.no_token (Config.VStr "uma") Site.no_token_details
            Site.no_token_details [] [] ([], []) _ _ _ _ _ _ _ _); reflexivity.
Defined.

Lemma legacy_entry_gives_a_source_for_each_database_witness :
  Config.entry (Site.holding Site.named) (Config.VStr "athens")
    (Config.VDict [(Config.VStr "url", Config.VStr "http://athens:8086");
                   (Config.VStr "org", Config.VStr "athens-org");
                   (Config.VStr "token", Config.VStr "t0ken");
                   (Config.VStr "databases",
                    Config.VList (map Config.VStr ["metrics"; "traces"]))])
  = Ok ([(Config.VStr "athens_metrics",
          Config.mkSettings (Config.VStr "http://athens:8086")
            (Config.VStr "athens-org") (Config.VStr "metrics") (Config.VStr "t0ken"));
         (Config.VStr "athens_traces",
          Config.mkSettings (Config.VStr "http://athens:8086")
            (Config.VStr "athens-org") (Config.VStr "traces") (Config.VStr "t0ken"))],
        []).
Proof.
  refine (legacy_entry_gives_a_source_for_each_database (Site.holding Site.named)
            (Config.VStr "athens")
            [(Config.VStr "url", Config.VStr "http://athens:8086");
             (Config.VStr "org", Config.VStr "athens-org");
             (Config.VStr "token", Config.VStr "t0ken");
             (Config.VStr "databases",
              Config.VList (map Config.VStr ["metrics"; "traces"]))]
            ["metrics"; "traces"] _ _ _ _ _ _ _ _); try reflexivity.
  repeat constructor.
Defined.

Lemma complete_entry_gives_its_source_witness :
  Config.entry Site.bare (Config.VStr "uma") (Config.VDict Site.uma_details)
  = Ok ([(Config.VStr "uma",
          Config.mkSettings (Config.VStr "http://influxdb:8086") (Config.VStr "uma-org")
                            (Config.VStr "testdb") (Config.VStr "s3cret"))], []).
Proof.
  refine (complete_entry_gives_its_source Site.bare (Config.VStr "uma")
            Site.uma_details _ _ _); reflexivity.
Defined.

Lemma empty_setting_is_filled_from_the_secret_witness :
  Config.entry (Site.holding Site.borrowing) (Config.VStr "athens")
    (Config.VDict Site.athens_no_token)
  = Ok ([(Config.VStr "athens",
          Config.mkSettings (Config.VStr "http://athens:8086") (Config.VStr "athens-org")
                            (Config.VStr "metrics") (Config.VStr "s3cret"))], []).
Proof.
  refine (empty_setting_is_filled_from_the_secret (Site.holding Site.borrowing)
            (Config.VStr "athens") Site.athens_no_token Site.uma_details
            _ _ _ _ _); reflexivity.
Defined.

Lemma from_secret_settings_witness :
  let s := Config.mkSettings (Config.VStr "http://influxdb:8086") (Config.VStr "uma-org")
                             (Config.VStr "testdb") (Config.VStr "s3cret") in
  Config.from_secret (Site.holding Site.flat) None = Config.Got s /\
  exists cfg,
    Config._load_secret (Site.holding Site.flat) None = Config.Got (Config.VDict cfg) /\
    Config.contains_all ["url"; "org"; "bucket"; "token"] cfg = true /\
    complete (Config.url s) (Config.org s) (Config.bucket s) (Config.token s) = true /\
    (Config.truth (Config.at_key "url" cfg) = true ->
     Config.url s = Config.at_key "url" cfg) /\
    (Config.truth (Config.at_key "org" cfg) = true ->
     Config.org s = Config.at_key "org" cfg) /\
    (Config.truth (Config.at_key "bucket" cfg) = true ->
     Config.bucket s = Config.at_key "bucket" cfg) /\
    (Config.truth (Config.at_key "token" cfg) = true ->
     Config.token s = Config.at_key "token" cfg).
Proof.
  intros s. split; [reflexivity |].
  exact (from_secret_settings (Site.holding Site.flat) None s eq_refl).
Defined.

End site.

(** ** Replies that come as a list of tables *)

(** X26. What [_query_df] makes of a reply of the store, be it one frame or a
    list of tables.  It returns a frame and has sent the one text; the frame
    is empty exactly when the reply has no table with rows and columns (an
    empty list, or only tables without rows or without columns, gives the
    empty frame and raises nothing); otherwise it has a column whenever one
    of these tables has it, and holds under each column the values of these
    tables, table after table. *)
Theorem query_df_of_a_reply `{!Builtins, !Conversions}
    (self : DataCollector.t) (flux : string) (r : DataCollector.reply) :
  DataCollector.query_data_frame self flux (DataCollector.org self) = Ok r ->
  exists df,
    DataCollector._query_df self flux = (Ok df, [flux]) /\
    (empty df = true <-> tables_of r = []) /\
    forall c, negb (empty df) && has_column c df = existsb (has_column c) (tables_of r) /\
              (if empty df then [] else values_in c df) = reply_values c r.
Proof.
  apply _query_df_reply.
Qed.

Lemma query_df_of_a_reply_witness :
  exists df,
    @DataCollector._query_df Tabled.src
      (@DataCollector.tag_values_flux Tabled.src "ExperimentId")
    = (Ok df, [@DataCollector.tag_values_flux Tabled.src "ExperimentId"]) /\
    (empty df = true <-> tables_of Tabled.ids_reply = []) /\
    forall c, negb (empty df) && has_column c df
              = existsb (has_column c) (tables_of Tabled.ids_reply) /\
              (if empty df then [] else @values_in Scenario.conversions c df)
              = @reply_values Scenario.conversions c Tabled.ids_reply.
Proof.
  apply (@query_df_of_a_reply Scenario.builtins Scenario.conversions Tabled.src).
  reflexivity.
Defined.
